(** * mitcircs.py: the column-to-field extraction engine, embedded and verified

    The development follows the layout of [src/mitcircs.py]:
    the Python string primitives the program relies on, the values a
    spreadsheet cell can hold, an error monad for Python exceptions, the
    pandas operations the program calls, and then the program's own functions
    under their source names.

    Conventions.
    - A Python [str] is a Stdlib [string]; each character is one code point
      below 256 (the Latin-1 range), so [isspace] and [lower] are the
      restrictions of the Unicode ones to that range.
    - A Python [int] is a [Z].
    - A raised exception is [Raise e]; a normal return is [Ok v].
    - Console prints and log-file writes never feed a value back into the
      program; they are left out, except the two diagnostics the functions
      below are specified to give (the warning of
      [minimum_responses_provided] and the message box shown before
      [exit(1)]). *)

From Stdlib Require Import List String Ascii ZArith NArith Bool Lia Arith.
From Stdlib Require Import DecimalString Sorted.
Import ListNotations.

Local Open Scope string_scope.
Local Open Scope list_scope.

(** ** Python string primitives *)

Module PyStr.

Definition code (c : ascii) : N := N_of_ascii c.

Definition between (lo hi : N) (c : ascii) : bool :=
  (N.leb lo (code c) && N.leb (code c) hi)%bool.

(** [str.isspace] on one character, code points below 256. *)
Definition isspace (c : ascii) : bool :=
  (between 9 13 c || between 28 32 c
   || N.eqb (code c) 133 || N.eqb (code c) 160)%bool.

(** [str.lower] on one character, code points below 256. *)
Definition lower_char (c : ascii) : ascii :=
  if (between 65 90 c
      || (between 192 222 c && negb (N.eqb (code c) 215)))%bool
  then ascii_of_N (code c + 32) else c.

Fixpoint lower (s : string) : string :=
  match s with
  | EmptyString => EmptyString
  | String c r => String (lower_char c) (lower r)
  end.

Fixpoint lstrip (s : string) : string :=
  match s with
  | EmptyString => EmptyString
  | String c r => if isspace c then lstrip r else s
  end.

Fixpoint rstrip (s : string) : string :=
  match s with
  | EmptyString => EmptyString
  | String c r =>
      match rstrip r with
      | EmptyString => if isspace c then EmptyString else String c EmptyString
      | r' => String c r'
      end
  end.

(** [s.strip()] *)
Definition strip (s : string) : string := rstrip (lstrip s).

(** [s[:n]] *)
Fixpoint slice_to (n : nat) (s : string) : string :=
  match n, s with
  | S n', String c r => String c (slice_to n' r)
  | _, _ => EmptyString
  end.

(** [s.startswith(p)] *)
Definition startswith (s p : string) : bool := String.prefix p s.

(** [needle in hay] for two strings *)
Fixpoint contains (needle hay : string) : bool :=
  (String.prefix needle hay
   || match hay with
      | EmptyString => false
      | String _ r => contains needle r
      end)%bool.

(** [sep.join(l)] *)
Fixpoint join (sep : string) (l : list string) : string :=
  match l with
  | [] => EmptyString
  | [x] => x
  | x :: r => x ++ sep ++ join sep r
  end.

(** [s.replace(old, "")] for a one-character [old] *)
Fixpoint remove_char (old : ascii) (s : string) : string :=
  match s with
  | EmptyString => EmptyString
  | String c r =>
      if Ascii.eqb c old then remove_char old r
      else String c (remove_char old r)
  end.

(** [str(n)] for an [int] *)
Definition str_int (z : Z) : string := NilZero.string_of_int (Z.to_int z).

Definition nl : string := String (ascii_of_N 10) EmptyString.

End PyStr.

(** ** Cell values and exceptions *)

(** What a cell of an object-typed pandas column holds after the reader has
    run: nothing ([None]), the float NaN of an empty spreadsheet cell, a
    string, or an integer.  Other floats are outside the model. *)
Inductive value : Type :=
| VNone
| VNaN
| VStr (s : string)
| VInt (z : Z).

Inductive exn : Type :=
| KeyError (key : string)
| IndexError
| InvalidIndexError
| AttributeError
| TypeError
| ValueError
| ReError
| SystemExit (status : Z) (shown : string).

Inductive result (A : Type) : Type :=
| Ok (a : A)
| Raise (e : exn).

Arguments Ok {A} a.
Arguments Raise {A} e.

Definition bind {A B : Type} (m : result A) (f : A -> result B) : result B :=
  match m with
  | Ok a => f a
  | Raise e => Raise e
  end.

Notation "x <- m ;; k" := (bind m (fun x => k))
  (at level 61, m at next level, right associativity).

Fixpoint mapM {A B : Type} (f : A -> result B) (l : list A)
  : result (list B) :=
  match l with
  | [] => Ok []
  | a :: r => b <- f a ;; bs <- mapM f r ;; Ok (b :: bs)
  end.

(** [pandas.isna(x)] on a scalar *)
Definition isna (v : value) : bool :=
  match v with
  | VNone | VNaN => true
  | _ => false
  end.

(** [str(x)] *)
Definition str (v : value) : string :=
  match v with
  | VNone => "None"
  | VNaN => "nan"
  | VStr s => s
  | VInt z => PyStr.str_int z
  end.

(** ** Cell Normalizer *)

(** [string_reformat_nan(cell_in, empty_string)]: the four tests are joined
    by a short-circuit [or], so [cell_in.lower()] is only reached when
    [cell_in] is neither null nor the empty string; on an integer it raises
    [AttributeError]. *)
Definition string_reformat_nan (cell_in : value) (empty_string : string)
  : result string :=
  if isna cell_in then Ok empty_string
  else match cell_in with
       | VStr s =>
           if (s =? "")%string then Ok empty_string
           else if (PyStr.lower s =? "nan")%string then Ok empty_string
           else Ok s
       | VInt _ => Raise AttributeError
       | VNone | VNaN => Ok empty_string
       end.

Definition NONE_GIVEN : string := "None given".

(** The eight spellings of the text nan. *)
Definition nan_spellings : list string :=
  ["nan"; "naN"; "nAn"; "nAN"; "Nan"; "NaN"; "NAn"; "NAN"].

(** ** The fragment of Python's [re] that the program uses *)

Module Re.

(** One element of a compiled pattern: a literal character, the anchor [^]
    (without [re.MULTILINE]: start of the subject only), or a bounded greedy
    repetition [[lo-hi]{mn,mx}] of a character range. *)
Inductive node : Type :=
| Lit (c : ascii)
| Bol
| ClassRep (lo hi : ascii) (mn mx : nat).

Definition digit (c : ascii) : option nat :=
  if PyStr.between 48 57 c then Some (N.to_nat (PyStr.code c) - 48) else None.

(** Characters with a meaning of their own which the fragment leaves out. *)
Definition unsupported (c : ascii) : bool :=
  existsb (Ascii.eqb c)
    ["."; "*"; "+"; "?"; "("; ")"; "|"; "$"; "\"; "{"; "}"; "]"]%char.

(** [re.compile(text, flags)].  [verbose] is [re.VERBOSE]: only under that
    flag is white space outside a class skipped and [#] the start of a
    comment running to the end of the line.  Without it every such character
    is a literal to be matched. *)
Fixpoint parse (verbose in_comment : bool) (text : string)
  : option (list node) :=
  match text with
  | EmptyString => Some []
  | String c r =>
      if in_comment then
        parse verbose (negb (Ascii.eqb c (ascii_of_N 10))) r
      else if (verbose && PyStr.isspace c)%bool then parse verbose false r
      else if (verbose && Ascii.eqb c "#")%bool then parse verbose true r
      else if Ascii.eqb c "^" then option_map (cons Bol) (parse verbose false r)
      else if Ascii.eqb c "[" then
        match r with
        | String lo (String dash (String hi (String rb (String lbr
            (String m (String comma (String n (String rbr rest)))))))) =>
            match digit m, digit n with
            | Some mn, Some mx =>
                if (Ascii.eqb dash "-" && Ascii.eqb rb "]"
                    && Ascii.eqb lbr "{" && Ascii.eqb comma ","
                    && Ascii.eqb rbr "}")%bool
                then option_map (cons (ClassRep lo hi mn mx))
                       (parse verbose false rest)
                else None
            | _, _ => None
            end
        | _ => None
        end
      else if unsupported c then None
      else option_map (cons (Lit c)) (parse verbose false r)
  end.

Definition compile (verbose : bool) (text : string) : option (list node) :=
  parse verbose false text.

Definition in_range (lo hi c : ascii) : bool :=
  PyStr.between (PyStr.code lo) (PyStr.code hi) c.

(** How many leading characters of [s] lie in the range, at most [mx]. *)
Fixpoint class_run (lo hi : ascii) (mx : nat) (s : string) : nat :=
  match mx, s with
  | S mx', String c r => if in_range lo hi c then S (class_run lo hi mx' r) else 0
  | _, _ => 0
  end.

Fixpoint drop (n : nat) (s : string) : string :=
  match n, s with
  | S n', String _ r => drop n' r
  | _, _ => s
  end.

(** Greedy choice with backtracking: the longest count first, down to [mn]. *)
Fixpoint try_down (k : nat -> option nat) (mn n : nat) {struct n}
  : option nat :=
  if Nat.ltb n mn then None
  else match k n with
       | Some e => Some e
       | None => match n with
                 | O => None
                 | S n' => try_down k mn n'
                 end
       end.

(** Match the pattern [p] at position [pos] of the subject, [s] being the
    subject from [pos] on; the result is the position where the match ends. *)
Fixpoint match_at (p : list node) (pos : nat) (s : string) : option nat :=
  match p with
  | [] => Some pos
  | Lit c :: p' =>
      match s with
      | String d r => if Ascii.eqb c d then match_at p' (S pos) r else None
      | EmptyString => None
      end
  | Bol :: p' => if Nat.eqb pos 0 then match_at p' pos s else None
  | ClassRep lo hi mn mx :: p' =>
      try_down (fun n => match_at p' (pos + n) (drop n s)) mn
        (class_run lo hi mx s)
  end.

Fixpoint search_from (p : list node) (pos : nat) (s : string)
  : option (nat * nat) :=
  match match_at p pos s with
  | Some e => Some (pos, e)
  | None => match s with
            | EmptyString => None
            | String _ r => search_from p (S pos) r
            end
  end.

(** [re.search(p, s)], then [.group(0)] of the match found. *)
Definition search (p : list node) (s : string) : option string :=
  match search_from p 0 s with
  | Some (b, e) => Some (String.substring b (e - b) s)
  | None => None
  end.

End Re.

(** ** Unit-Code Extractor *)

(** The text between the triple quotes of [detect_return_unitcode], line
    breaks and indentation included. *)
Definition UNITCODE_PATTERN_TEXT : string :=
  PyStr.nl
  ++ "    ^[A-Z]{1,5}    # Starts with between 1 and 5 uppercase letters"
  ++ PyStr.nl
  ++ "    [0-9]{2,6}     # Immediately followed by between 2 and 6 digits"
  ++ PyStr.nl
  ++ "    ".

(** [detect_return_unitcode(string)].  The pattern is compiled by
    [re.compile(text)] with no flag. *)
Definition detect_return_unitcode (string : String.string)
  : result String.string :=
  let string := PyStr.strip string in
  match Re.compile false UNITCODE_PATTERN_TEXT with
  | None => Raise ReError
  | Some pattern =>
      match Re.search pattern string with
      | None => Ok (PyStr.slice_to 9 string)
      | Some group0 => Ok group0
      end
  end.

(** The extractor as the specification words it: the same text read as a
    commented pattern, that is one to five capitals then two to six digits,
    anchored at the start of the trimmed input. *)
Definition spec_extractUnitCode (text : string) : option string :=
  let text := PyStr.strip text in
  match Re.compile true UNITCODE_PATTERN_TEXT with
  | None => None
  | Some pattern =>
      match Re.search pattern text with
      | None => Some (PyStr.slice_to 9 text)
      | Some group0 => Some group0
      end
  end.

(** ** Python dictionaries *)

(** A [dict] with string keys, in insertion order: assigning to a key that is
    already there replaces its value and keeps its place. *)
Module Dict.

Definition t (V : Type) : Type := list (string * V).

Fixpoint get {V : Type} (d : t V) (k : string) : option V :=
  match d with
  | [] => None
  | (k', v) :: r => if (k' =? k)%string then Some v else get r k
  end.

(** [d[k] = v] *)
Fixpoint set {V : Type} (d : t V) (k : string) (v : V) : t V :=
  match d with
  | [] => [(k, v)]
  | (k', v') :: r =>
      if (k' =? k)%string then (k, v) :: r else (k', v') :: set r k v
  end.

(** [d[k]] *)
Definition getitem {V : Type} (d : t V) (k : string) : result V :=
  match get d k with
  | Some v => Ok v
  | None => Raise (KeyError k)
  end.

Definition keys {V : Type} (d : t V) : list string := map fst d.

(** A dictionary display [{k1: v1, k2: v2, ...}] *)
Definition of_list {V : Type} (l : list (string * V)) : t V :=
  fold_left (fun d kv => set d (fst kv) (snd kv)) l [].

End Dict.

(** ** The pandas operations the program calls *)

(** A [Series] is a sequence of labelled values; a [DataFrame] is its column
    names and its rows, each row under its index label. *)
Definition Series : Type := list (string * value).

Record DataFrame : Type := mkDataFrame {
  columns : list string;
  rows : list (Z * list value)
}.

Definition values (s : Series) : list value := map snd s.

(** [range(a, b)] *)
Definition range (a b : Z) : list Z :=
  map (fun i => a + Z.of_nat i)%Z (seq 0 (Z.to_nat (b - a))).

(** [dataframe.iterrows()] *)
Definition iterrows (df : DataFrame) : list (Z * Series) :=
  map (fun r => (fst r, combine (columns df) (snd r))) (rows df).

(** [series[label]] for a string label.  The first entry under the label
    answers; the program reads rows by label only after
    [locate_response_columns] has refused repeated column names. *)
Fixpoint loc (s : Series) (label : string) : result value :=
  match s with
  | [] => Raise (KeyError label)
  | (l, v) :: r => if (l =? label)%string then Ok v else loc r label
  end.

(** The place a position denotes in a sequence of [n] elements: negative
    positions count from the end. *)
Definition place (n : nat) (i : Z) : option nat :=
  if (0 <=? i)%Z then
    (if (i <? Z.of_nat n)%Z then Some (Z.to_nat i) else None)
  else
    (if (- Z.of_nat n <=? i)%Z then Some (Z.to_nat (Z.of_nat n + i)) else None).

Definition item {A : Type} (l : list A) (i : Z) : result A :=
  match place (List.length l) i with
  | Some k => match nth_error l k with
              | Some a => Ok a
              | None => Raise IndexError
              end
  | None => Raise IndexError
  end.

(** [series.iloc[i]] for one position *)
Definition iloc (s : Series) (i : Z) : result value :=
  p <- item s i ;; Ok (snd p).

(** [series.iloc[positions]] for a list of positions *)
Definition iloc_list (s : Series) (positions : list Z) : result Series :=
  mapM (item s) positions.

(** [series.dropna()] *)
Definition dropna (s : Series) : Series :=
  filter (fun p => negb (isna (snd p))) s.

(** [dataframe.head(1)] *)
Definition extract_top_row (dataframe : DataFrame) : DataFrame :=
  mkDataFrame (columns dataframe) (firstn 1 (rows dataframe)).

(** [dataframe.tail(-1)] *)
Definition delete_top_row (dataframe : DataFrame) : DataFrame :=
  mkDataFrame (columns dataframe) (skipn 1 (rows dataframe)).

(** The repository pins no version of pandas, and [astype(str)] depends on
    it: before pandas 3 a missing cell becomes a text, the one [str] gives
    ([nan], [None]); from pandas 3 on it stays missing, a NaN. *)
Class Pandas : Type := {
  astype_str_keeps_missing : bool
}.

Definition pandas_2 : Pandas := {| astype_str_keeps_missing := false |}.

Definition pandas_3 : Pandas := {| astype_str_keeps_missing := true |}.

(** [series.astype(str)] on one cell *)
Definition astype_str {pd : Pandas} (v : value) : value :=
  match v with
  | VNone | VNaN => if astype_str_keeps_missing then VNaN else VStr (str v)
  | _ => VStr (str v)
  end.

(** [header.iloc[0, :].astype(str).tolist()] *)
Definition first_row_strings {pd : Pandas} (header : DataFrame)
  : result (list value) :=
  match rows header with
  | [] => Raise IndexError
  | r :: _ => Ok (map astype_str (snd r))
  end.

Fixpoint has_repeat (l : list string) : bool :=
  match l with
  | [] => false
  | x :: r => (existsb (String.eqb x) r || has_repeat r)%bool
  end.

Fixpoint position_of (l : list string) (x : string) (from : Z) : Z :=
  match l with
  | [] => (-1)%Z
  | y :: r => if (y =? x)%string then from else position_of r x (from + 1)%Z
  end.

(** [index.get_indexer(target)]: pandas refuses an index with repeated
    entries; a target that is not in the index gets -1. *)
Definition get_indexer (index target : list string) : result (list Z) :=
  if has_repeat index then Raise InvalidIndexError
  else Ok (map (fun x => position_of index x 0%Z) target).

(** [dataframe.drop(label, inplace = True)] for a row label *)
Definition drop (dataframe : DataFrame) (label : Z) : result DataFrame :=
  if existsb (fun r => Z.eqb (fst r) label) (rows dataframe)
  then Ok (mkDataFrame (columns dataframe)
             (filter (fun r => negb (Z.eqb (fst r) label)) (rows dataframe)))
  else Raise (KeyError (PyStr.str_int label)).

(** [dataframe.reset_index(drop = True)] *)
Definition reset_index (dataframe : DataFrame) : DataFrame :=
  mkDataFrame (columns dataframe)
    (combine (range 0 (Z.of_nat (List.length (rows dataframe))))
       (map snd (rows dataframe))).

(** ** Constants of the program *)

Definition MINIMUM_REQUIRED_RESPONSES : Z := 4.

Definition COLNAME_SUFFIX_DIVISION : string := "_1".
Definition COLNAME_SUFFIX_PROGRAMME : string := "_2".
Definition COLNAME_SUFFIX_COURSEYEAR : string := "_3".
Definition COLNAME_SUFFIX_UNITASSESSMENT : string := "_4".
Definition COLNAME_SUFFIX_OTHERINFORMATION : string := "_Q37".
Definition COLNAME_SUFFIX_RESUBMISSION : string := "_Q165".
Definition COLNAME_SUFFIX_RESUB_FIRST : string := "_1_TEXT".
Definition COLNAME_SUFFIX_RESUB_SECOND : string := "_3_TEXT".
Definition COLNAME_SUFFIX_SUBSTATUS : string := "_Q163".

Definition RESPONSE_COLUMN_INDICES : Dict.t Z :=
  Dict.of_list
    [(COLNAME_SUFFIX_DIVISION, 0%Z); (COLNAME_SUFFIX_PROGRAMME, 1%Z);
     (COLNAME_SUFFIX_COURSEYEAR, 2%Z); (COLNAME_SUFFIX_UNITASSESSMENT, 3%Z);
     (COLNAME_SUFFIX_OTHERINFORMATION, 4%Z); (COLNAME_SUFFIX_RESUBMISSION, 5%Z);
     (COLNAME_SUFFIX_RESUB_FIRST, 6%Z); (COLNAME_SUFFIX_RESUB_SECOND, 7%Z);
     (COLNAME_SUFFIX_SUBSTATUS, 8%Z)].

Definition COLNAME_PREFIX_DATESUBMITTED : string := "RecordedDate".
Definition COLNAME_PREFIX_STUDENTNAME : string := "Q1".
Definition COLNAME_PREFIX_EMAILADDRESS : string := "Q3".
Definition COLNAME_PREFIX_STUDENTID : string := "Q4".
Definition COLNAME_PREFIX_ISPOSTGRADORRES : string := "Q150".
Definition COLNAME_PREFIX_SUPERVISCONTACT : string := "Q152".
Definition COLNAME_PREFIX_TIER4_VISA : string := "Q153".
Definition COLNAME_PREFIX_PROPOSEDDEADLINE : string := "Q151".
Definition COLNAME_PREFIX_ADVISORNAME : string := "Q17".
Definition COLNAME_PREFIX_MITIGATIONDETAIL : string := "Q19".
Definition COLNAME_PREFIX_PERIODAFFECTED : string := "Q20".
Definition COLNAME_PREFIX_LATEAPPLICATION : string := "Q21".
Definition COLNAME_PREFIX_ASSESSMENTCOUNT : string := "Q160".
Definition COLNAME_PREFIX_DASS_REGISTERED : string := "Q2".

Definition please_check : string := " - please check this and run again.".

Definition COLUMN_KEY_ERROR_MESSAGES : Dict.t string :=
  Dict.of_list
    [(COLNAME_PREFIX_STUDENTID,
      ("Could not read 'Student ID' column!" ++ PyStr.nl
      ++ "Expected column name to be 'Q4'" ++ please_check)%string);
     (COLNAME_PREFIX_EMAILADDRESS,
      ("Could not read 'Email Address' column!" ++ PyStr.nl
      ++ " Expected column name to be 'Q3'" ++ please_check)%string);
     (COLNAME_PREFIX_DATESUBMITTED,
      ("Could not read '' column!" ++ PyStr.nl
      ++ " Expected column name to be ''" ++ please_check)%string);
     (COLNAME_PREFIX_ISPOSTGRADORRES,
      ("Could not read 'Is Postgrad. or Research' column!" ++ PyStr.nl
      ++ " Expected column name to be 'Q150'" ++ please_check)%string);
     (COLNAME_PREFIX_ASSESSMENTCOUNT,
      ("Could not read 'Assessment Count' column!" ++ PyStr.nl
      ++ " Expected column name to be 'Q160'" ++ please_check)%string);
     (COLNAME_PREFIX_MITIGATIONDETAIL,
      ("Could not read 'Details of Mitigation' column!" ++ PyStr.nl
      ++ " Expected column name to be 'Q19'" ++ please_check)%string);
     (COLNAME_PREFIX_PERIODAFFECTED,
      ("Could not read 'Period Affected' column!" ++ PyStr.nl
      ++ " Expected column name to be 'Q20'" ++ please_check)%string);
     (COLNAME_PREFIX_ADVISORNAME,
      ("Could not read 'Advisor Name' column!" ++ PyStr.nl
      ++ " Expected column name to be 'Q17'" ++ please_check)%string);
     (COLNAME_PREFIX_LATEAPPLICATION,
      ("Could not read 'Application Outside of Deadline' column!" ++ PyStr.nl
      ++ " Expected column name to be 'Q21'" ++ please_check)%string);
     (COLNAME_PREFIX_SUPERVISCONTACT,
      ("Could not read 'Supervisor Spoken To' column!" ++ PyStr.nl
      ++ " Expected column name to be 'Q152'" ++ please_check)%string);
     (COLNAME_PREFIX_TIER4_VISA,
      ("Could not read 'On Tier 4 Visa?' column!" ++ PyStr.nl
      ++ " Expected column name to be 'Q153'" ++ please_check)%string);
     (COLNAME_PREFIX_PROPOSEDDEADLINE,
      ("Could not read 'Proposed New Submission Date' column!" ++ PyStr.nl
      ++ " Expected column name to be 'Q151'" ++ please_check)%string)].

(** ** Junk-row removal *)

(** [string in value]: only a string can be searched; a float or an integer
    on the right raises [TypeError]. *)
Definition py_in (string : String.string) (value : value) : result bool :=
  match value with
  | VStr s => Ok (PyStr.contains string s)
  | _ => Raise TypeError
  end.

(** [[True for value in values if string in value]] *)
Fixpoint contains_flags (string : String.string) (values : list value)
  : result (list bool) :=
  match values with
  | [] => Ok []
  | value :: r =>
      b <- py_in string value ;;
      rest <- contains_flags string r ;;
      Ok (if b then true :: rest else rest)
  end.

(** One turn of the loop of [row_containing]: the bare [except] swallows
    whatever the comprehension raises and goes on to the next row. *)
Definition row_containing_step (string : String.string)
  (location : option Z) (indexed_row : Z * Series) : option Z :=
  match contains_flags string (values (snd indexed_row)) with
  | Ok contains =>
      if existsb (fun b => b) contains then Some (fst indexed_row)
      else location
  | Raise _ => location
  end.

Definition row_containing (dataframe : DataFrame) (string : String.string)
  : option Z :=
  fold_left (row_containing_step string) (iterrows dataframe) None.

(** [drop_row_by_string]: [not index] holds for [None] and for [0]. *)
Definition drop_row_by_string (dataframe : DataFrame)
  (string : String.string) : result DataFrame :=
  match row_containing dataframe string with
  | None => Ok dataframe
  | Some 0%Z => Ok dataframe
  | Some index =>
      dropped <- drop dataframe index ;;
      Ok (reset_index dropped)
  end.

(** ** Column-Block Locator *)

(** One turn of the loop of [unique_response_locations]. *)
Definition unique_response_step (response_columns : Dict.t Z)
  (responses : Dict.t (list Z)) (response : string)
  : result (Dict.t (list Z)) :=
  let column_names := Dict.keys response_columns in
  let target_cols :=
    filter (fun col => PyStr.startswith col (response ++ "_")%string) column_names in
  indices <- mapM (Dict.getitem response_columns) target_cols ;;
  match indices with
  | [] => Ok responses
  | _ => Ok (Dict.set responses response indices)
  end.

Fixpoint foldM {A S : Type} (f : S -> A -> result S) (l : list A) (s : S)
  : result S :=
  match l with
  | [] => Ok s
  | a :: r => s' <- f s a ;; foldM f r s'
  end.

Definition unique_response_locations (response_columns : Dict.t Z)
  (response_numbers : list string) : result (Dict.t (list Z)) :=
  foldM (unique_response_step response_columns) response_numbers [].

(** [name.startswith(numbers)] for a tuple of prefixes *)
Definition startswith_any (name : string) (prefixes : list string) : bool :=
  existsb (PyStr.startswith name) prefixes.

Definition locate_response_columns (dataframe : DataFrame) (response_max : Z)
  : result (Dict.t (list Z)) :=
  let numbers := map PyStr.str_int (range 1 response_max) in
  let targets :=
    filter (fun name => startswith_any name numbers) (columns dataframe) in
  indices <- get_indexer (columns dataframe) targets ;;
  let columns :=
    fold_left (fun d ni => Dict.set d (fst ni) (snd ni))
      (combine targets indices) [] in
  unique_response_locations columns numbers.

(** ** Header-Driven Field Resolver and the small row readers *)

Definition create_student_name (row : Series) : result string :=
  q1 <- loc row "Q1" ;;
  let fullname := if negb (isna q1) then str q1 else "" in
  Ok (PyStr.strip fullname).

(** What [student_is_DASS] returns: a [bool] or a [str]. *)
Inductive bool_or_str : Type :=
| RBool (b : bool)
| RStr (s : string).

Definition str_of_bool_or_str (r : bool_or_str) : string :=
  match r with
  | RBool true => "True"
  | RBool false => "False"
  | RStr s => s
  end.

Definition student_is_DASS (row : Series) (return_input_string : bool)
  : result bool_or_str :=
  cell <- loc row COLNAME_PREFIX_DASS_REGISTERED ;;
  let is_empty_text := match cell with VStr s => (s =? "")%string | _ => false end in
  let is_zero := match cell with VInt z => Z.eqb z 0 | _ => false end in
  if (is_empty_text || is_zero || isna cell)%bool then Ok (RBool false)
  else if return_input_string then Ok (RStr (str cell))
  else Ok (RBool true).

(** [[index for index in range(len(strings)) if searchstring in strings[index]]]:
    the test [searchstring in strings[index]] raises [TypeError] on an entry
    that is not a string, which ends the comprehension. *)
Fixpoint matching_positions (searchstring : string) (strings : list value)
  (index : Z) : result (list Z) :=
  match strings with
  | [] => Ok []
  | s :: r =>
      found <- py_in searchstring s ;;
      rest <- matching_positions searchstring r (index + 1)%Z ;;
      Ok (if found then index :: rest else rest)
  end.

(** [string_parse_header]: only the [IndexError] of [years.iloc[0]] is
    caught, and answered by the ellipsis. *)
Definition string_parse_header {pd : Pandas} (row : Series)
  (header : DataFrame) (searchstring : string) : result string :=
  strings <- first_row_strings header ;;
  indices <- matching_positions searchstring strings 0%Z ;;
  years <- iloc_list row indices ;;
  let years := dropna years in
  match (first <- iloc years 0%Z ;;
         string_reformat_nan (VStr (str first)) NONE_GIVEN) with
  | Raise IndexError => Ok "..."
  | other => other
  end.

(** Truth value of a cell, as [not cell] tests it. *)
Definition truthy (v : value) : bool :=
  match v with
  | VNone => false
  | VNaN => true
  | VStr s => negb (s =? "")%string
  | VInt z => negb (Z.eqb z 0)
  end.

Definition string_parse_division (row : Series) : result string :=
  first <- iloc row 0%Z ;;
  if (negb (truthy first) || isna first)%bool then Ok "None provided"
  else Ok (str first).

(** ** Fill-in predicate *)

(** [minimum_responses_provided(cells, minimum)]: the answer, and the lines
    it prints when the minimum had to be lowered. *)
Definition minimum_responses_provided (cells : list value) (minimum : Z)
  : bool * list string :=
  let N := Z.of_nat (List.length cells) in
  let clamped := (minimum >? N)%Z in
  let printed :=
    if clamped then
      [("! Warning !   Length of Series (" ++ PyStr.str_int N
        ++ ") is less than the required minimum responses ("
        ++ PyStr.str_int minimum ++ ")!")%string;
       "    > How have you managed that?"]
    else [] in
  let minimum := if clamped then N else minimum in
  let omitted :=
    fold_right Z.add 0%Z (map (fun cell => if isna cell then 1%Z else 0%Z) cells) in
  let provided := Z.max 0 (N - omitted) in
  ((provided >=? minimum)%Z, printed).

(** ** Record Builder *)

Record StudentRequest : Type := mkStudentRequest {
  name : string;
  ID : string;
  email : string;
  subdate : string;
  programme : string;
  courseyear : string;
  division : string;
  isPGR : string;
  NAffected : string;
  circumstances : string;
  dates_affected : string;
  DASS : string;
  semester : string;
  advisor : string;
  latereason : string;
  evidence : string;
  evidencesummary : string;
  superinformed : string;
  supervisor : string;
  T4Visa : string;
  proposedDL : string;
  asm_codes : list string;
  asm_names : list string;
  other_asm : list string;
  asm_is_resub : list string;
  asm_resubdate : list string;
  asm_resubstatus : list string
}.

(** The expression [string_reformat_nan(str(row[column]).strip())] *)
Definition read_required (row : Series) (column : string) : result string :=
  cell <- loc row column ;;
  string_reformat_nan (VStr (PyStr.strip (str cell))) NONE_GIVEN.

(** The body of the [try] of [build_student_requests]: a fresh
    [StudentRequest] with its scalar fields read in source order.  The six
    lists start empty; [division] and [evidencesummary] keep the empty
    string of the constructor. *)
Definition read_scalars {pd : Pandas} (row : Series)
  (header : DataFrame)
  : result StudentRequest :=
  r_name <- create_student_name row ;;
  r_ID <- read_required row COLNAME_PREFIX_STUDENTID ;;
  r_email <- read_required row COLNAME_PREFIX_EMAILADDRESS ;;
  r_subdate <- read_required row COLNAME_PREFIX_DATESUBMITTED ;;
  r_programme <- string_parse_header row header "Programme" ;;
  r_courseyear <- string_parse_header row header "Year" ;;
  r_isPGR <- read_required row COLNAME_PREFIX_ISPOSTGRADORRES ;;
  r_NAffected <- read_required row COLNAME_PREFIX_ASSESSMENTCOUNT ;;
  r_circumstances <- read_required row COLNAME_PREFIX_MITIGATIONDETAIL ;;
  r_dates_affected <- read_required row COLNAME_PREFIX_PERIODAFFECTED ;;
  dass <- student_is_DASS row true ;;
  let r_DASS := str_of_bool_or_str dass in
  let r_semester := "..." in
  r_advisor <- read_required row COLNAME_PREFIX_ADVISORNAME ;;
  r_latereason <- read_required row COLNAME_PREFIX_LATEAPPLICATION ;;
  r_evidence <-
    string_parse_header row header "submitting evidence with your application" ;;
  r_superinformed <- read_required row COLNAME_PREFIX_SUPERVISCONTACT ;;
  r_supervisor <- string_parse_header row header "Dissertation supervisor name" ;;
  r_T4Visa <- read_required row COLNAME_PREFIX_TIER4_VISA ;;
  r_proposedDL <- read_required row COLNAME_PREFIX_PROPOSEDDEADLINE ;;
  Ok (mkStudentRequest r_name r_ID r_email r_subdate r_programme r_courseyear
        "" r_isPGR r_NAffected r_circumstances r_dates_affected r_DASS
        r_semester r_advisor r_latereason r_evidence "" r_superinformed
        r_supervisor r_T4Visa r_proposedDL [] [] [] [] [] []).

(** [str(kerr)] for a [KeyError] whose key is one of the column names above:
    the key between apostrophes. *)
Definition str_KeyError (key : string) : string := ("'" ++ key ++ "'")%string.

(** The [except KeyError] handler: look the message up, show it in a message
    box, close the window and [exit(1)]. *)
Definition on_KeyError {A : Type} (key : string) : result A :=
  check <- Dict.getitem COLUMN_KEY_ERROR_MESSAGES
             (PyStr.remove_char "'" (str_KeyError key)) ;;
  Raise (SystemExit 1 check).

(** The six appends of the loop body. *)
Definition append_assessment (req : StudentRequest)
  (code name_ is_resub other resubdate resubstatus : string) : StudentRequest :=
  mkStudentRequest (name req) (ID req) (email req) (subdate req)
    (programme req) (courseyear req) (division req) (isPGR req)
    (NAffected req) (circumstances req) (dates_affected req) (DASS req)
    (semester req) (advisor req) (latereason req) (evidence req)
    (evidencesummary req) (superinformed req) (supervisor req) (T4Visa req)
    (proposedDL req)
    (asm_codes req ++ [code]) (asm_names req ++ [name_])
    (other_asm req ++ [other]) (asm_is_resub req ++ [is_resub])
    (asm_resubdate req ++ [resubdate]) (asm_resubstatus req ++ [resubstatus]).

(** [req.division = division] *)
Definition set_division (req : StudentRequest) (d : string) : StudentRequest :=
  mkStudentRequest (name req) (ID req) (email req) (subdate req)
    (programme req) (courseyear req) d (isPGR req)
    (NAffected req) (circumstances req) (dates_affected req) (DASS req)
    (semester req) (advisor req) (latereason req) (evidence req)
    (evidencesummary req) (superinformed req) (supervisor req) (T4Visa req)
    (proposedDL req)
    (asm_codes req) (asm_names req) (other_asm req) (asm_is_resub req)
    (asm_resubdate req) (asm_resubstatus req).

(** [cells.iloc[RESPONSE_COLUMN_INDICES[suffix]]] *)
Definition response_cell (cells : Series) (suffix : string) : result value :=
  position <- Dict.getitem RESPONSE_COLUMN_INDICES suffix ;;
  iloc cells position.

(** The state the loop over [Q_cols] carries. *)
Record block_state : Type := mkBlockState {
  st_req : StudentRequest;
  st_division : string;
  st_first_iteration : bool
}.

(** One turn of the loop [for key in Q_cols.keys()]. *)
Definition block_step (row : Series) (response_min : Z)
  (st : block_state) (block : string * list Z) : result block_state :=
  cells <- iloc_list row (snd block) ;;
  if negb (fst (minimum_responses_provided (values cells) response_min))
  then Ok st
  else
    division <-
      (if st_first_iteration st then string_parse_division cells
       else Ok (st_division st)) ;;
    c_code <- response_cell cells COLNAME_SUFFIX_UNITASSESSMENT ;;
    code <- detect_return_unitcode (str c_code) ;;
    c_name <- response_cell cells COLNAME_SUFFIX_UNITASSESSMENT ;;
    name_ <- string_reformat_nan (VStr (str c_name)) NONE_GIVEN ;;
    c_resub <- response_cell cells COLNAME_SUFFIX_RESUBMISSION ;;
    is_resub <- string_reformat_nan (VStr (str c_resub)) NONE_GIVEN ;;
    c_other <- response_cell cells COLNAME_SUFFIX_OTHERINFORMATION ;;
    other <- string_reformat_nan (VStr (str c_other)) "-" ;;
    c_date <- response_cell cells COLNAME_SUFFIX_RESUB_FIRST ;;
    resubdate <- string_reformat_nan (VStr (str c_date)) NONE_GIVEN ;;
    c_status <- response_cell cells COLNAME_SUFFIX_SUBSTATUS ;;
    resubstatus <- string_reformat_nan (VStr (str c_status)) NONE_GIVEN ;;
    Ok (mkBlockState
          (append_assessment (st_req st) code name_ is_resub other resubdate
             resubstatus)
          division false).

(** One turn of the loop over the response rows. *)
Definition build_row {pd : Pandas} (header : DataFrame)
  (Q_cols : Dict.t (list Z)) (response_min : Z) (row : Series)
  : result StudentRequest :=
  req <- match read_scalars row header with
         | Raise (KeyError key) => on_KeyError key
         | other => other
         end ;;
  st <- foldM (block_step row response_min) Q_cols (mkBlockState req "" true) ;;
  Ok (set_division (st_req st) (st_division st)).

Definition build_student_requests {pd : Pandas} (qualtrics : DataFrame)
  : result (list StudentRequest) :=
  let response_min := MINIMUM_REQUIRED_RESPONSES in
  let header := extract_top_row qualtrics in
  let qualtrics := delete_top_row qualtrics in
  Q_cols <- locate_response_columns qualtrics 100 ;;
  mapM (fun indexed_row => build_row header Q_cols response_min (snd indexed_row))
    (iterrows qualtrics).

(** ** Tabular Projection *)

(** The local list variables of [requests_to_spreadsheet], by name. *)
Definition locals : Type := Dict.t (list string).

(** [var.append(x)] on one of the local lists *)
Definition append (env : locals) (var : string) (x : string) : locals :=
  match Dict.get env var with
  | Some l => Dict.set env var (l ++ [x])
  | None => env
  end.

Definition empty_locals : locals :=
  map (fun var => (var, []))
    ["subdates"; "names"; "emails"; "IDs"; "PGRs"; "N_affected"; "divisions";
     "programmes"; "years"; "asmcodes"; "asmnames"; "otherinfo"; "isresubs";
     "resubdates"; "substats"; "advisors"; "circumstances"; "periods";
     "latereasons"; "isDASS"; "evidences"; "toldsupervi"; "supervisors";
     "onT4Visas"; "proposedDL"; "evidencesumm"; "outcomes"; "emailtypes";
     "sendbyperson"; "notes"; "panelnotes"; "outcomesent"; "outcomedate"].

(** The appends of one turn of [for req in requests], in source order. *)
Definition projection_appends (req : StudentRequest) : list (string * string) :=
  [("subdates", subdate req); ("names", name req); ("emails", email req);
   ("IDs", ID req); ("PGRs", isPGR req); ("N_affected", NAffected req);
   ("divisions", division req); ("programmes", programme req);
   ("years", courseyear req); ("advisors", advisor req);
   ("circumstances", circumstances req); ("periods", dates_affected req);
   ("latereasons", latereason req); ("isDASS", DASS req);
   ("evidences", evidence req); ("toldsupervi", superinformed req);
   ("supervisors", supervisor req); ("onT4Visas", T4Visa req);
   ("proposedDL", proposedDL req); ("evidencesumm", evidencesummary req);
   ("outcomes", "Pending Outcome..."); ("emailtypes", "...");
   ("sendbyperson", "Pending Outcome..."); ("notes", "...");
   ("panelnotes", "..."); ("outcomesent", "Pending Send...");
   ("outcomedate", "Pending Send...");
   ("asmcodes", PyStr.join PyStr.nl (asm_codes req));
   ("asmnames", PyStr.join PyStr.nl (asm_names req));
   ("otherinfo", PyStr.join PyStr.nl (other_asm req));
   ("isresubs", PyStr.join PyStr.nl (asm_is_resub req));
   ("resubdates", PyStr.join PyStr.nl (asm_resubdate req));
   ("substats", PyStr.join PyStr.nl (asm_resubstatus req))].

Definition projection_step (env : locals) (req : StudentRequest) : locals :=
  fold_left (fun e vx => append e (fst vx) (snd vx)) (projection_appends req) env.

(** The column titles of the tracker, each with the local list it shows. *)
Definition tracker_columns : list (string * string) :=
  [("Date Submitted", "subdates"); ("Full Name", "names");
   ("University Email", "emails"); ("Student ID Number", "IDs");
   ("Are you applying for a postgraduate dissertation or research project?",
    "PGRs");
   ("No. Assessments/Exams", "N_affected"); ("Division", "divisions");
   ("Programme", "programmes"); ("Year", "years"); ("Unit Code", "asmcodes");
   ("Assessment name and submission date", "asmnames");
   ("Is this a resubmission (including date)?", "isresubs");
   ("Other Assessment Info.", "otherinfo"); ("Submission Status", "substats");
   ("Academic Advisor(s)", "advisors");
   ("Reason for Mitigation", "circumstances"); ("Period Affected", "periods");
   ("Late Application - Reason", "latereasons");
   ("DASS Registration", "isDASS"); ("Evidence Declaration", "evidences");
   ("Supervisor Aware?", "toldsupervi"); ("Supervisor Name", "supervisors");
   ("Tier 4 Visa", "onT4Visas"); ("Proposed New Deadline", "proposedDL");
   ("Evidence Summary", "evidencesumm"); ("Outcome", "outcomes");
   ("Email Type", "emailtypes"); ("To Be Sent By (Initials)...", "sendbyperson");
   ("Notes", "notes"); ("Panel Notes", "panelnotes");
   ("Outcome Sent to Student", "outcomesent");
   ("Outcome Sent Date", "outcomedate")].

(** The dictionary [columns] handed to [pandas.DataFrame]. *)
Definition projection_columns (requests : list StudentRequest)
  : result (Dict.t (list string)) :=
  let env := fold_left projection_step requests empty_locals in
  entries <- mapM (fun tv => l <- Dict.getitem env (snd tv) ;; Ok (fst tv, l))
               tracker_columns ;;
  Ok (Dict.of_list entries).

(** [pandas.DataFrame(columns)] for a dictionary of lists: the lists must
    have one length, which is the number of rows. *)
Definition DataFrame_of_dict (d : Dict.t (list string)) : result DataFrame :=
  let n := match d with
           | [] => 0
           | (_, l) :: _ => List.length l
           end in
  if forallb (fun kv => Nat.eqb (List.length (snd kv)) n) d then
    Ok (mkDataFrame (Dict.keys d)
          (map (fun i => (Z.of_nat i,
                          map (fun kv => VStr (nth i (snd kv) "")) d))
             (seq 0 n)))
  else Raise ValueError.

(** The cell of a frame in the row at position [i] under the column [title]. *)
Definition cell_at (df : DataFrame) (i : nat) (title : string) : result value :=
  match nth_error (iterrows df) i with
  | Some r => loc (snd r) title
  | None => Raise IndexError
  end.

(** ** Column widths *)

(** [s.split(sep)] for a one-character separator: the pieces between the
    separators, at least one. *)
Fixpoint split_char (sep : ascii) (s : string) : list string :=
  match s with
  | EmptyString => [EmptyString]
  | String c r =>
      if Ascii.eqb c sep then EmptyString :: split_char sep r
      else match split_char sep r with
           | [] => [String c EmptyString]
           | piece :: pieces => String c piece :: pieces
           end
  end.

(** [max(strings, key = len)]: the first of the longest; [ValueError] on an
    empty list. *)
Definition max_by_len (strings : list string) : result string :=
  match strings with
  | [] => Raise ValueError
  | first :: r =>
      Ok (fold_left (fun best x =>
                       if Nat.ltb (String.length best) (String.length x)
                       then x else best) r first)
  end.

Definition max_string_length (strings : list string) : result Z :=
  string <- max_by_len strings ;;
  Ok (Z.of_nat (String.length string)).

(** [dataframe[column]]: the cells under a column name, top to bottom;
    [KeyError] when the frame has no such column. *)
Definition getcolumn (dataframe : DataFrame) (column : string)
  : result (list value) :=
  if existsb (String.eqb column) (columns dataframe)
  then mapM (fun r => loc (combine (columns dataframe) (snd r)) column)
         (rows dataframe)
  else Raise (KeyError column).

(** One turn of the loop of [required_column_width]; a cell that is not a
    string has no [split]. *)
Definition required_column_width_step (cell_max : Z) (cell : value)
  : result Z :=
  match cell with
  | VStr text =>
      let lines := split_char (ascii_of_N 10) text in
      this_max <- max_by_len lines ;;
      if (Z.of_nat (String.length this_max) >? cell_max)%Z
      then Ok (Z.of_nat (String.length this_max))
      else Ok cell_max
  | _ => Raise AttributeError
  end.

Definition required_column_width (dataframe : DataFrame) (column : string)
  : result Z :=
  cells <- getcolumn dataframe column ;;
  foldM required_column_width_step cells 0%Z.

(** ** Writing the sheet *)

Definition manual_resize_fudge : Z := 10.

Definition cols_to_manually_resize : list string :=
  ["Unit Code"; "Assessment name and submission date";
   "Is this a resubmission (including date)?"; "Submission Status"].

(** [series.astype(str).map(len).max()] on a column of strings: the greatest
    length, and NaN, here [None], on a column without a cell. *)
Definition longest_text (texts : list string) : option Z :=
  match texts with
  | [] => None
  | first :: r =>
      Some (fold_left (fun m text => Z.max m (Z.of_nat (String.length text)))
              r (Z.of_nat (String.length first)))
  end.

(** [max(a, b)] where [a] may be NaN: [b > a] is false for NaN, so [max]
    keeps its first argument. *)
Definition max_or_nan (a : option Z) (b : Z) : option Z :=
  match a with
  | None => None
  | Some z => Some (if (b >? z)%Z then b else z)
  end.

(** [worksheet.set_column(index, index, width)]: a width that is NaN is
    refused with [ValueError]; the result is the width set. *)
Definition set_column (width : option Z) : result Z :=
  match width with
  | Some w => Ok w
  | None => Raise ValueError
  end.

(** [for colname in dataframe]: the column names, left to right. *)
Definition colnames (dataframe : DataFrame) : list string :=
  columns dataframe.

(** One turn of [for colname in dataframe].  The frame was made from the
    dictionary [columns], so [dataframe[colname]] is the list of strings the
    dictionary holds under [colname]. *)
Definition resize_column (columns : Dict.t (list string))
  (dataframe : DataFrame) (colname : string) : result Z :=
  if existsb (String.eqb colname) cols_to_manually_resize then
    width <- required_column_width dataframe colname ;;
    set_column (Some (width + manual_resize_fudge)%Z)
  else
    texts <- Dict.getitem columns colname ;;
    set_column (max_or_nan (longest_text texts)
                  (Z.of_nat (String.length colname))).

(** [requests_to_spreadsheet]: the frame is built, written to the sheet, and
    the width of each column is set.  The result is the frame written; the
    file itself is not part of the model.  For an empty list of records the
    frame has no row, the first width is NaN and [set_column] raises. *)
Definition requests_to_spreadsheet (requests : list StudentRequest)
  : result DataFrame :=
  columns <- projection_columns requests ;;
  dataframe <- DataFrame_of_dict columns ;;
  _ <- mapM (resize_column columns dataframe) (colnames dataframe) ;;
  Ok dataframe.

(** ** The record as text *)

Definition SEPARATOR : string :=
  PyStr.nl
  ++ " - - - - - - - - - - - - - - - - - - - - - - - - - - - - - - - - - - - - - - - "
  ++ PyStr.nl.

(** [lst[i]] for a list *)
Definition getitem_list (lst : list string) (i : Z) : result string :=
  item lst i.

(** One turn of the loop of [to_string]. *)
Definition to_string_step (self : StudentRequest) (req : string)
  (assessment : Z) : result string :=
  a_name <- getitem_list (asm_names self) assessment ;;
  a_code <- getitem_list (asm_codes self) assessment ;;
  a_resub <- getitem_list (asm_is_resub self) assessment ;;
  let req :=
    (req ++ PyStr.str_int (assessment + 1) ++ ". " ++ a_name ++ PyStr.nl
     ++ "  ? Unit Code:     " ++ a_code ++ PyStr.nl
     ++ "  ? Resubmission:  " ++ a_resub)%string in
  a_date <- getitem_list (asm_resubdate self) assessment ;;
  a_status <- getitem_list (asm_resubstatus self) assessment ;;
  Ok (req ++ PyStr.nl ++ "  ? Proposed Date: " ++ a_date ++ PyStr.nl
      ++ "  ? Resub. Status: " ++ a_status ++ PyStr.nl ++ PyStr.nl)%string.

Definition to_string (self : StudentRequest) : result string :=
  let req :=
    (PyStr.nl ++ PyStr.nl ++ "Request by Student '" ++ name self
     ++ "' (ID: " ++ ID self ++ ", DASS: " ++ DASS self ++ ") on Year "
     ++ courseyear self ++ " of Programme '" ++ programme self ++ "':")%string in
  let req :=
    (req ++ PyStr.nl ++ "  > With Advisor '" ++ advisor self
     ++ "' and Supervisor '" ++ supervisor self ++ "'")%string in
  let req := (req ++ PyStr.nl ++ "  > Uni. Email:   " ++ email self)%string in
  let req := (req ++ PyStr.nl ++ "  > Tier 4 Visa?  " ++ T4Visa self)%string in
  let req := (req ++ PyStr.nl ++ "  > Submitted on: " ++ subdate self)%string in
  let req :=
    (req ++ PyStr.nl ++ PyStr.nl ++ "Dates affected: " ++ dates_affected self
     ++ ", due to:" ++ PyStr.nl ++ "  > '" ++ circumstances self ++ "'"
     ++ PyStr.nl ++ PyStr.nl
     ++ "Student applied for the following assessments:" ++ PyStr.nl)%string in
  req <- foldM (to_string_step self)
           (range 0 (Z.of_nat (List.length (asm_codes self)))) req ;;
  Ok (req ++ SEPARATOR ++ PyStr.nl)%string.

(** ** From the frame read to the frame written *)

(** The transformation [main] runs between reading the export and writing
    the tracker: junk row out, records built, records projected.  The
    start-up checks, the dialogs and the file reading and writing are not
    part of it. *)
Definition main {pd : Pandas} (qualtrics : DataFrame)
  : result DataFrame :=
  qualtrics <- drop_row_by_string qualtrics "ImportId" ;;
  requests <- build_student_requests qualtrics ;;
  requests_to_spreadsheet requests.

(** ** The log file *)

(** The log as the program sees it: the text of the file and the value of
    the [Counter], which starts at 1. *)
Record log_state : Type := mkLog {
  log_text : string;
  log_counter : Z
}.

Definition new_log : log_state := mkLog "" 1.

(** [log_string(logfile, string, logcount)]: one numbered line is appended
    to the file and the counter goes up by one. *)
Definition log_string (st : log_state) (string : String.string) : log_state :=
  let line :=
    ("Log " ++ PyStr.str_int (log_counter st) ++ " > " ++ string ++ PyStr.nl)%string in
  mkLog (log_text st ++ line) (log_counter st + 1).

(** ** Vocabulary of the specification *)

(** The cells of a block that hold something: those [pandas.isna] rejects. *)
Definition count_provided (cells : list value) : nat :=
  List.length (filter (fun cell => negb (isna cell)) cells).

(** A row mentions the marker when one of its cells is a string holding it. *)
Definition row_mentions (string : String.string) (cells : list value) : bool :=
  existsb (fun cell => match cell with
                       | VStr s => PyStr.contains string s
                       | _ => false
                       end) cells.

(** A row is found by [row_containing] when the comprehension over its cells
    runs to its end and yields at least one flag. *)
Definition row_found (string : String.string) (cells : list value) : bool :=
  match contains_flags string cells with
  | Ok contains => existsb (fun b => b) contains
  | Raise _ => false
  end.

(** The frame as the reader delivers it: row labels 0, 1, 2, ... *)
Definition range_indexed (df : DataFrame) : Prop :=
  map fst (rows df) = range 0 (Z.of_nat (List.length (rows df))).

(** Rows relabelled from 0. *)
Definition relabel (data : list (list value)) : list (Z * list value) :=
  combine (range 0 (Z.of_nat (List.length data))) data.

(** What one record contributes to the local list [var]. *)
Definition cell_of (var : string) (req : StudentRequest) : string :=
  match Dict.get (projection_appends req) var with
  | Some x => x
  | None => ""
  end.

(** The local lists once the records [rs] have been through the loop. *)
Definition locals_after (rs : list StudentRequest) : locals :=
  map (fun kv => (fst kv, map (cell_of (fst kv)) rs)) empty_locals.

(** The dictionary of tracker columns for the records [rs]. *)
Definition tracker_after (rs : list StudentRequest) : Dict.t (list string) :=
  map (fun tv => (fst tv, map (cell_of (snd tv)) rs)) tracker_columns.

(** The frame of the tracker for the records [rs]: a row for each record,
    labelled from 0, a cell for each tracker column. *)
Definition tracker_frame (rs : list StudentRequest) : DataFrame :=
  mkDataFrame (map fst tracker_columns)
    (map (fun i => (Z.of_nat i,
                    map (fun tv => VStr (nth i (map (cell_of (snd tv)) rs) ""))
                      tracker_columns))
       (seq 0 (List.length rs))).

(** Whether one of the cells is the string [s]. *)
Definition holds_text (s : string) (cells : list value) : bool :=
  existsb (fun cell => match cell with
                       | VStr t => (t =? s)%string
                       | _ => false
                       end) cells.

(** The header cells read the same under every pandas: either [astype(str)]
    turns missing cells into text, or no header cell is missing. *)
Definition header_readable {pd : Pandas} (header_cells : list value) : bool :=
  (negb astype_str_keeps_missing
   || forallb (fun v => negb (isna v)) header_cells)%bool.

(** The positions, counted from [index], of the texts holding the marker. *)
Fixpoint positions_containing (searchstring : string) (strings : list string)
  (index : Z) : list Z :=
  match strings with
  | [] => []
  | s :: r =>
      if PyStr.contains searchstring s
      then index :: positions_containing searchstring r (index + 1)%Z
      else positions_containing searchstring r (index + 1)%Z
  end.

(** The cells of the row that sit under the header cells holding the
    marker, in column order. *)
Definition marked_cells (searchstring : string) (header_cells : list value)
  (row : Series) : list value :=
  map (fun hp => snd (snd hp))
    (filter (fun hp => PyStr.contains searchstring (str (fst hp)))
       (combine header_cells row)).

(** The Cell Normalizer on a text, with the default fallback. *)
Definition normalize (s : string) : string :=
  if ((s =? "") || (PyStr.lower s =? "nan"))%string then NONE_GIVEN else s.

(** The resolver in the words of the specification: the missing and the
    empty ones among the cells are discarded, and the first non-empty value
    that remains is returned, normalized. *)
Definition first_non_empty (cells : list value) : option string :=
  match filter (fun v => negb (isna v || (str v =? "")%string)) cells with
  | [] => None
  | first :: _ => Some (normalize (str first))
  end.

(** Whether a block is filled in for a row: its cells pass
    [minimum_responses_provided] with the program's minimum. *)
Definition block_filled (row : Series) (block : string * list Z) : bool :=
  match iloc_list row (snd block) with
  | Ok cells =>
      fst (minimum_responses_provided (values cells) MINIMUM_REQUIRED_RESPONSES)
  | Raise _ => false
  end.

(** The positions, counted from [from], of the names that satisfy [p]. *)
Fixpoint positions_from (p : string -> bool) (names : list string) (from : Z)
  : list Z :=
  match names with
  | [] => []
  | name :: r =>
      if p name then from :: positions_from p r (from + 1)%Z
      else positions_from p r (from + 1)%Z
  end.

(** The positions of the columns whose name starts with the block key and
    the underscore. *)
Definition block_positions (key : string) (names : list string) : list Z :=
  positions_from (fun name => PyStr.startswith name (key ++ "_")%string) names 0%Z.

(** The six lists of a record all have [n] entries. *)
Definition six_lists (req : StudentRequest) (n : nat) : Prop :=
  List.length (asm_codes req) = n
  /\ List.length (asm_names req) = n
  /\ List.length (other_asm req) = n
  /\ List.length (asm_is_resub req) = n
  /\ List.length (asm_resubdate req) = n
  /\ List.length (asm_resubstatus req) = n.

(** The message shown when the Student ID column cannot be read. *)
Definition STUDENT_ID_MESSAGE : string :=
  "Could not read 'Student ID' column!" ++ PyStr.nl
  ++ "Expected column name to be 'Q4' - please check this and run again.".

(** The message shown when the proposed-deadline column cannot be read. *)
Definition PROPOSED_DEADLINE_MESSAGE : string :=
  "Could not read 'Proposed New Submission Date' column!" ++ PyStr.nl
  ++ " Expected column name to be 'Q151'" ++ please_check.

(** The four columns of the specification's example block. *)
Definition example_block_columns : list string :=
  ["6_4"; "6_Q165"; "6_1_TEXT"; "6_Q163"].

(** An ID cell that is missing (NaN) or empty (a string of blanks only). *)
Definition missing_or_empty (cell : value) : Prop :=
  cell = VNaN \/ exists s, cell = VStr s /\ PyStr.strip s = "".

(** The block of key [k], when it has a column: the key as text with the
    positions of its columns. *)
Definition block_entry (names : list string) (k : Z) : list (string * list Z) :=
  match block_positions (PyStr.str_int k) names with
  | [] => []
  | l => [(PyStr.str_int k, l)]
  end.

(** The cells of a block in a row, as the loop fetches them. *)
Definition block_cells (row : Series) (block : string * list Z) : Series :=
  match iloc_list row (snd block) with
  | Ok cells => cells
  | Raise _ => []
  end.

(** The text of the cell at position [n] of a block. *)
Definition cell_text (cells : Series) (n : nat) : string :=
  match nth_error cells n with
  | Some p => str (snd p)
  | None => ""
  end.

(** The Cell Normalizer on a text, with any fallback. *)
Definition text_or (fallback s : string) : string :=
  if ((s =? "") || (PyStr.lower s =? "nan"))%string then fallback else s.

(** What the loop appends for a filled block: the unit code, and the field
    read at position [n] with its fallback. *)
Definition block_code (row : Series) (block : string * list Z) : string :=
  PyStr.slice_to 9 (PyStr.strip (cell_text (block_cells row block) 3)).

Definition block_field (fallback : string) (n : nat) (row : Series)
  (block : string * list Z) : string :=
  text_or fallback (cell_text (block_cells row block) n).

(** The division read from the first cell of a block. *)
Definition division_text (cells : Series) : string :=
  match cells with
  | [] => ""
  | p :: _ =>
      if (negb (truthy (snd p)) || isna (snd p))%bool then "None provided"
      else str (snd p)
  end.

(** A text that can be shown as it is: not empty, not the text nan in any
    letter case. *)
Definition shown (s : string) : Prop :=
  s <> "" /\ PyStr.lower s <> "nan".

(** The columns that the body of the [try] reads by name, in the order in
    which it reads them. *)
Definition READ_ORDER : list string :=
  ["Q1"; "Q4"; "Q3"; "RecordedDate"; "Q150"; "Q160"; "Q19"; "Q20"; "Q2";
   "Q17"; "Q21"; "Q152"; "Q153"; "Q151"].

(** The scalar fields of a record that the block loop leaves alone. *)
Definition scalar_fields (req : StudentRequest) : list string :=
  [name req; ID req; email req; subdate req; programme req; courseyear req;
   isPGR req; NAffected req; circumstances req; dates_affected req; DASS req;
   semester req; advisor req; latereason req; evidence req;
   evidencesummary req; superinformed req; supervisor req; T4Visa req;
   proposedDL req].

(** The character that [required_column_width] splits at. *)
Definition newline : ascii := ascii_of_N 10.

(** Whether a text holds a given character. *)
Fixpoint has_char (c : ascii) (s : string) : bool :=
  match s with
  | EmptyString => false
  | String d r => (Ascii.eqb d c || has_char c r)%bool
  end.

(** The lines of the cells of a column, all of them. *)
Definition all_lines (cells : list value) : list string :=
  flat_map (fun cell => match cell with
                        | VStr text => split_char newline text
                        | _ => []
                        end) cells.

Definition is_text (cell : value) : bool :=
  match cell with
  | VStr _ => true
  | _ => false
  end.

(** The lines that logging the messages [l] writes when the first of them
    gets the number [n]. *)
Fixpoint numbered_lines (n : Z) (l : list string) : string :=
  match l with
  | [] => ""
  | m :: r =>
      ("Log " ++ PyStr.str_int n ++ " > " ++ m ++ PyStr.nl
       ++ numbered_lines (n + 1) r)%string
  end.

(** ** Sample data *)

Module Sample.

(** A record with two assessment entries. *)
Definition two_entries : StudentRequest :=
  mkStudentRequest "Ada L" "1234" "a@x" "2025-01-01" "BNurs" "3" "Nursing"
    "No" "2" "ill" "Jan" "False" "..." "Dr B" "None given" "Yes" ""
    "None given" "..." "No" "None given"
    ["NURS34555"; "NURS20001"]
    ["NURS34555: essay"; "NURS20001: exam"]
    ["-"; "-"]
    ["Yes, first attempt"; "No"]
    ["01/02/2025"; "None given"]
    ["Submitted"; "Not submitted"].

Definition scalar_columns : list string :=
  ["Q1"; "Q4"; "Q3"; "RecordedDate"; "Q150"; "Q160"; "Q19"; "Q20"; "Q2";
   "Q17"; "Q21"; "Q152"; "Q153"; "Q151"].

Definition scalar_header : list value :=
  map VStr
    ["Name"; "Student ID"; "Email"; "Recorded Date"; "Postgraduate?";
     "How many assessments?"; "Details"; "Period affected"; "DASS?";
     "Advisor"; "Late?"; "Spoken to supervisor?"; "Visa?"; "Deadline"].

Definition scalar_cells_ada : list value :=
  [VStr " Ada L "; VInt 1234; VStr "a@x"; VStr "2025-01-01"; VStr "No";
   VInt 1; VStr "ill"; VStr "Jan"; VNaN; VStr "Dr B"; VNaN; VNaN; VStr "No";
   VNaN].

Definition scalar_cells_bob : list value :=
  [VStr "Bob"; VNaN; VStr "b@x"; VStr "2025-01-02"; VStr "No"; VInt 1;
   VStr "ill"; VStr "Jan"; VStr "Yes"; VStr "Dr B"; VNaN; VNaN; VStr "No";
   VNaN].

(** A table with one complete block of nine columns; the first student
    fills it in, the second leaves all but one cell empty and has no ID. *)
Definition full : DataFrame :=
  mkDataFrame
    (scalar_columns
     ++ ["6_1"; "6_2"; "6_3"; "6_4"; "6_Q37"; "6_Q165"; "6_1_TEXT";
         "6_3_TEXT"; "6_Q163"])
    [(0%Z, scalar_header
           ++ map VStr ["Division"; "Nursing - Programme"; "Nursing - Year";
                        "Unit and assessment"; "Other"; "Resubmission?";
                        "First attempt"; "Second attempt"; "Status"]);
     (1%Z, scalar_cells_ada
           ++ [VStr "Nursing"; VStr "BNurs"; VInt 3; VStr "NURS34555: essay";
               VNaN; VStr "No"; VNaN; VNaN; VStr "Submitted"]);
     (2%Z, scalar_cells_bob
           ++ [VNaN; VNaN; VNaN; VStr "AB12: x"; VNaN; VNaN; VNaN; VNaN; VNaN])].

(** A table whose only block has the four columns 6_4, 6_Q165, 6_1_TEXT
    and 6_Q163, all four filled in by the one student. *)
Definition partial_block : DataFrame :=
  mkDataFrame
    (scalar_columns ++ ["6_4"; "6_Q165"; "6_1_TEXT"; "6_Q163"])
    [(0%Z, scalar_header
           ++ map VStr ["Unit and assessment"; "Resubmission?";
                        "First attempt"; "Status"]);
     (1%Z, scalar_cells_ada
           ++ [VStr "NURS34555: essay"; VStr "No"; VStr "n/a";
               VStr "Submitted"])].

(** The scalar columns without Q4. *)
Definition without_id (l : list value) : list value :=
  firstn 1 l ++ skipn 2 l.

Definition no_id_columns : list string :=
  firstn 1 scalar_columns ++ skipn 2 scalar_columns.

(** No Q4 column, one response row. *)
Definition no_id : DataFrame :=
  mkDataFrame no_id_columns
    [(0%Z, without_id scalar_header); (1%Z, without_id scalar_cells_ada)].

(** No Q4 column and no response row: the header descriptions alone. *)
Definition no_id_header_only : DataFrame :=
  mkDataFrame no_id_columns [(0%Z, without_id scalar_header)].

(** Neither Q4 nor Q1, one response row. *)
Definition no_id_no_name : DataFrame :=
  mkDataFrame (skipn 2 scalar_columns)
    [(0%Z, skipn 2 scalar_header); (1%Z, skipn 2 scalar_cells_ada)].

(** The export with its junk row in second place, and one with a marker
    row in first place only. *)
Definition junk_second : DataFrame :=
  mkDataFrame ["Q1"; "Q4"]
    [(0%Z, [VStr "Name"; VStr "Student ID"]);
     (1%Z, [VStr "{ImportId:QID1}"; VStr "{ImportId:QID4}"]);
     (2%Z, [VStr "Ada L"; VStr "1234"])].

Definition junk_first : DataFrame :=
  mkDataFrame ["Q1"; "Q4"]
    [(0%Z, [VStr "{ImportId:QID1}"; VStr "{ImportId:QID4}"]);
     (1%Z, [VStr "Ada L"; VStr "1234"])].

(** A table with one complete block in which the student gave everything
    but the unit and assessment text. *)
Definition missing_unit : DataFrame :=
  mkDataFrame
    (scalar_columns
     ++ ["6_1"; "6_2"; "6_3"; "6_4"; "6_Q37"; "6_Q165"; "6_1_TEXT";
         "6_3_TEXT"; "6_Q163"])
    [(0%Z, scalar_header
           ++ map VStr ["Division"; "Nursing - Programme"; "Nursing - Year";
                        "Unit and assessment"; "Other"; "Resubmission?";
                        "First attempt"; "Second attempt"; "Status"]);
     (1%Z, scalar_cells_ada
           ++ [VStr "Nursing"; VStr "BNurs"; VInt 3; VNaN; VNaN; VStr "No";
               VNaN; VNaN; VStr "Submitted"])].

(** A header with two programme questions, and a row that answered the
    first with an empty text and the second with BNurs. *)
Definition two_programmes_cells : list value :=
  [VStr "Name"; VStr "Nursing - Programme"; VStr "Midwifery - Programme"].

Definition two_programmes : DataFrame :=
  mkDataFrame ["Q1"; "6_2"; "7_2"] [(0%Z, two_programmes_cells)].

Definition empty_first_programme : Series :=
  [("Q1", VStr "Ada L"); ("6_2", VStr ""); ("7_2", VStr "BNurs")].

(** No Q151 column, one response row, and a header row whose first cell is
    empty. *)
Definition gap_no_deadline : DataFrame :=
  mkDataFrame (removelast scalar_columns)
    [(0%Z, VNaN :: removelast (skipn 1 scalar_header));
     (1%Z, removelast scalar_cells_ada)].

(** A header row with an empty cell. *)
Definition gap_header : DataFrame :=
  mkDataFrame ["Q1"; "6_3"] [(0%Z, [VNaN; VStr "Nursing - Year"])].

End Sample.

(** * Verification *)

(** ** Cell Normalizer *)

Lemma lower_char_n (c : ascii) :
  PyStr.lower_char c = "n"%char -> c = "n"%char \/ c = "N"%char.
Proof.
  destruct c as [[] [] [] [] [] [] [] []]; vm_compute; intros H;
    first [discriminate H | now left | now right].
Qed.

Lemma lower_char_a (c : ascii) :
  PyStr.lower_char c = "a"%char -> c = "a"%char \/ c = "A"%char.
Proof.
  destruct c as [[] [] [] [] [] [] [] []]; vm_compute; intros H;
    first [discriminate H | now left | now right].
Qed.

Lemma lower_nan_iff (s : string) :
  PyStr.lower s = "nan" <-> In s nan_spellings.
Proof.
  split.
  - destruct s as [|c1 [|c2 [|c3 [|c4 r]]]]; simpl; try discriminate.
    intros H. injection H as H1 H2 H3.
    apply lower_char_n in H1, H3. apply lower_char_a in H2.
    destruct H1, H2, H3; subst; simpl; tauto.
  - intros H. simpl in H.
    repeat (destruct H as [H | H]; [subst; reflexivity|]).
    contradiction.
Qed.

(** C3.  [string_reformat_nan] returns normally on every null, NaN or string
    argument.  It gives the fallback (whatever fallback is passed, "None
    given" by default) for None, for NaN, for the empty string and for the
    text nan in each of its eight letter cases, NaN among them; for every
    other string it gives back the very same string, nothing trimmed. *)
Theorem string_reformat_nan_spec (fallback : string) :
  string_reformat_nan VNone fallback = Ok fallback
  /\ string_reformat_nan VNaN fallback = Ok fallback
  /\ string_reformat_nan (VStr "") fallback = Ok fallback
  /\ string_reformat_nan (VStr "NaN") NONE_GIVEN = Ok "None given"
  /\ (forall s, In s nan_spellings ->
        string_reformat_nan (VStr s) fallback = Ok fallback)
  /\ (forall s, s <> "" -> ~ In s nan_spellings ->
        string_reformat_nan (VStr s) fallback = Ok s).
Proof.
  repeat split; try reflexivity.
  - intros s Hs. apply lower_nan_iff in Hs. unfold string_reformat_nan.
    simpl. destruct (s =? "")%string; [reflexivity|].
    rewrite Hs. reflexivity.
  - intros s Hne Hnot. unfold string_reformat_nan. simpl.
    destruct (String.eqb_spec s ""); [contradiction|].
    destruct (String.eqb_spec (PyStr.lower s) "nan") as [E|E].
    + apply lower_nan_iff in E. contradiction.
    + reflexivity.
Qed.


(** ** Unit-Code Extractor *)

Lemma compiled_pattern_never_matches (p : list Re.node) :
  Re.compile false UNITCODE_PATTERN_TEXT = Some p ->
  forall pos s, Re.match_at p pos s = None.
Proof.
  intros H pos s. vm_compute in H. injection H as <-.
  do 5 (cbn [Re.match_at]; destruct s as [|? s]; [reflexivity|];
        destruct (Ascii.eqb _ _); [|reflexivity]).
  reflexivity.
Qed.

Lemma search_from_none (p : list Re.node) :
  (forall pos s, Re.match_at p pos s = None) ->
  forall s pos, Re.search_from p pos s = None.
Proof.
  intros H s. induction s as [|c s IH]; intros pos; simpl; rewrite H.
  - reflexivity.
  - apply IH.
Qed.

(** Whatever the input, the pattern as compiled finds nothing and the
    salvage branch answers. *)
Lemma detect_return_unitcode_salvage (s : string) :
  detect_return_unitcode s = Ok (PyStr.slice_to 9 (PyStr.strip s)).
Proof.
  unfold detect_return_unitcode.
  destruct (Re.compile false UNITCODE_PATTERN_TEXT) as [p|] eqn:E.
  - unfold Re.search.
    rewrite (search_from_none p (compiled_pattern_never_matches p E)).
    reflexivity.
  - vm_compute in E. discriminate E.
Qed.

(** C1.  On the input AB12: essay the program answers with the first nine
    characters, AB12: ess, where the specified extractor answers AB12, the
    capitals and digits alone; on the specification's own example both
    answer NURS34555.  The program's answer is the nine-character salvage
    on every input, since its pattern is compiled without the flag that
    would make the line breaks, blanks and comments in it insignificant. *)
Theorem detect_return_unitcode_keeps_trailing_text :
  detect_return_unitcode "AB12: essay" = Ok "AB12: ess"
  /\ spec_extractUnitCode "AB12: essay" = Some "AB12"
  /\ detect_return_unitcode "  NURS34555: essay" = Ok "NURS34555"
  /\ spec_extractUnitCode "  NURS34555: essay" = Some "NURS34555"
  /\ (forall s, detect_return_unitcode s
                = Ok (PyStr.slice_to 9 (PyStr.strip s))).
Proof.
  repeat split; try (vm_compute; reflexivity).
  apply detect_return_unitcode_salvage.
Qed.

(** ** Fill-in predicate *)

Lemma omitted_plus_provided (cells : list value) :
  (fold_right Z.add 0 (map (fun cell => if isna cell then 1 else 0) cells)
   = Z.of_nat (List.length cells) - Z.of_nat (count_provided cells))%Z.
Proof.
  unfold count_provided.
  induction cells as [|c cells IH]; [reflexivity|].
  cbn [map fold_right filter List.length]. rewrite IH.
  destruct (isna c); cbn [negb List.length]; lia.
Qed.

Lemma count_provided_le (cells : list value) :
  count_provided cells <= List.length cells.
Proof. apply filter_length_le. Qed.

Lemma minimum_responses_provided_answer (cells : list value) (minimum : Z) :
  fst (minimum_responses_provided cells minimum)
  = (Z.min minimum (Z.of_nat (List.length cells))
     <=? Z.of_nat (count_provided cells))%Z.
Proof.
  unfold minimum_responses_provided. cbn [fst].
  rewrite omitted_plus_provided.
  pose proof (count_provided_le cells) as Hle.
  replace (Z.max 0 (Z.of_nat (List.length cells)
                    - (Z.of_nat (List.length cells)
                       - Z.of_nat (count_provided cells))))%Z
    with (Z.of_nat (count_provided cells)) by lia.
  destruct (Z.gtb_spec minimum (Z.of_nat (List.length cells)));
    rewrite Z.geb_leb; f_equal; lia.
Qed.

(** C4.  [minimum_responses_provided] answers true exactly when the number
    of cells that are not missing reaches the required minimum, the minimum
    being first lowered to the number of cells N when it exceeds N; the two
    warning lines are printed exactly in that case.  With minimum 4, a block
    of eight cells of which two are filled gives false, and any block with
    four or more filled cells gives true. *)
Theorem minimum_responses_provided_spec (cells : list value) (minimum : Z) :
  let N := Z.of_nat (List.length cells) in
  (fst (minimum_responses_provided cells minimum) = true
   <-> (Z.min minimum N <= Z.of_nat (count_provided cells))%Z)
  /\ (snd (minimum_responses_provided cells minimum) <> []
      <-> (minimum > N)%Z)
  /\ (List.length cells = 8 -> count_provided cells = 2 ->
      fst (minimum_responses_provided cells MINIMUM_REQUIRED_RESPONSES) = false)
  /\ (4 <= count_provided cells ->
      fst (minimum_responses_provided cells MINIMUM_REQUIRED_RESPONSES) = true).
Proof.
  cbv zeta. repeat split.
  - rewrite minimum_responses_provided_answer. apply Z.leb_le.
  - rewrite minimum_responses_provided_answer. apply Z.leb_le.
  - unfold minimum_responses_provided. cbn [snd].
    destruct (Z.gtb_spec minimum (Z.of_nat (List.length cells))) as [Hgt|Hle];
      [intros _; lia|].
    intros Hne. now elim Hne.
  - unfold minimum_responses_provided. cbn [snd].
    destruct (Z.gtb_spec minimum (Z.of_nat (List.length cells))) as [Hgt|Hle];
      [intros _; discriminate | intros Hgt; lia].
  - intros H8 H2. rewrite minimum_responses_provided_answer, H8, H2.
    reflexivity.
  - intros H4. rewrite minimum_responses_provided_answer.
    apply Z.leb_le. unfold MINIMUM_REQUIRED_RESPONSES. lia.
Qed.

Lemma minimum_responses_provided_spec_witness :
  fst (minimum_responses_provided
         [VStr "Nursing"; VNaN; VNaN; VStr "NURS34555: essay"; VNaN; VNaN;
          VNaN; VNaN] MINIMUM_REQUIRED_RESPONSES) = false
  /\ fst (minimum_responses_provided
            [VStr "Nursing"; VStr "BNurs"; VInt 3; VStr "NURS34555: essay"]
            MINIMUM_REQUIRED_RESPONSES) = true.
Proof.
  split.
  - apply (minimum_responses_provided_spec
             [VStr "Nursing"; VNaN; VNaN; VStr "NURS34555: essay"; VNaN; VNaN;
              VNaN; VNaN] 4); reflexivity.
  - apply (minimum_responses_provided_spec
             [VStr "Nursing"; VStr "BNurs"; VInt 3; VStr "NURS34555: essay"]
             4). vm_compute. lia.
Defined.

Lemma string_reformat_nan_spec_witness :
  string_reformat_nan (VStr "NAN") "-" = Ok "-"
  /\ string_reformat_nan (VStr " nan ") "-" = Ok " nan ".
Proof.
  split.
  - apply (string_reformat_nan_spec "-"). simpl. tauto.
  - apply (string_reformat_nan_spec "-"); [discriminate|].
    simpl. intuition discriminate.
Defined.

(** ** Junk-row removal *)

Section RowContaining.

Variable string : String.string.

Lemma contains_flags_mentions (cells : list value) (flags : list bool) :
  contains_flags string cells = Ok flags ->
  existsb (fun b => b) flags = true ->
  row_mentions string cells = true.
Proof.
  revert flags. induction cells as [|c cells IH]; intros flags H Hex.
  - injection H as <-. discriminate Hex.
  - cbn [contains_flags] in H.
    destruct c as [| |s|z]; try discriminate H. cbn [py_in bind] in H.
    destruct (contains_flags string cells) as [rest|e]; [|discriminate H].
    cbn [bind] in H. injection H as <-.
    cbn [row_mentions existsb].
    destruct (PyStr.contains string s); [reflexivity|].
    cbn [orb]. apply (IH rest); [reflexivity | exact Hex].
Qed.

Lemma row_found_mentions (cells : list value) :
  row_found string cells = true -> row_mentions string cells = true.
Proof.
  unfold row_found.
  destruct (contains_flags string cells) as [flags|e] eqn:E; [|discriminate].
  apply contains_flags_mentions. exact E.
Qed.

Lemma row_containing_step_found (location : option Z) (r : Z * Series) :
  row_containing_step string location r
  = if row_found string (values (snd r)) then Some (fst r) else location.
Proof.
  unfold row_containing_step, row_found.
  destruct (contains_flags string (values (snd r))); reflexivity.
Qed.

(** The loop keeps the label of the last row found. *)
Lemma row_containing_loop (l : list (Z * Series)) (location : option Z) :
  (fold_left (row_containing_step string) l location = location
   /\ forall r, In r l -> row_found string (values (snd r)) = false)
  \/ exists pre r post,
       l = pre ++ r :: post
       /\ row_found string (values (snd r)) = true
       /\ (forall r', In r' post -> row_found string (values (snd r')) = false)
       /\ fold_left (row_containing_step string) l location = Some (fst r).
Proof.
  revert location. induction l as [|x l IH]; intros location.
  - left. split; [reflexivity | intros r []].
  - cbn [fold_left]. rewrite row_containing_step_found.
    destruct (IH (if row_found string (values (snd x))
                  then Some (fst x) else location))
      as [[Heq Hnone] | (pre & r & post & Hl & Hr & Hpost & Heq)].
    + destruct (row_found string (values (snd x))) eqn:Hx.
      * right. exists [], x, l. repeat split; auto.
      * left. split; [exact Heq|]. intros r [<-|Hin]; auto.
    + right. exists (x :: pre), r, post. subst l. repeat split; auto.
Qed.

End RowContaining.

Lemma range_succ (a : Z) (n : nat) :
  range a (a + Z.of_nat (S n)) = a :: range (a + 1) (a + 1 + Z.of_nat n).
Proof.
  unfold range.
  replace (a + Z.of_nat (S n) - a)%Z with (Z.of_nat (S n)) by lia.
  replace (a + 1 + Z.of_nat n - (a + 1))%Z with (Z.of_nat n) by lia.
  rewrite !Nat2Z.id. cbn [seq map]. f_equal; [lia|].
  rewrite <- seq_shift, map_map. apply map_ext. intros i. lia.
Qed.

Lemma range_labels (a : Z) (pre post : list Z) (x : Z) (n : nat) :
  pre ++ x :: post = range a (a + Z.of_nat n) ->
  x = (a + Z.of_nat (List.length pre))%Z
  /\ ~ In x pre /\ ~ In x post.
Proof.
  revert a pre. induction n as [|n IH]; intros a pre H.
  - unfold range in H. replace (a + Z.of_nat 0 - a)%Z with 0%Z in H by lia.
    destruct pre; discriminate H.
  - rewrite range_succ in H. destruct pre as [|p pre].
    + cbn [app] in H. injection H as -> Hpost. cbn [List.length].
      split; [lia|]. split; [intros []|].
      subst post. unfold range. rewrite in_map_iff. intros (i & Hi & _). lia.
    + cbn [app] in H. injection H as -> Htl.
      destruct (IH _ _ Htl) as (Hx & Hpre & Hpost). cbn [List.length].
      split; [lia|]. split; [|exact Hpost].
      intros [Heq|Hin]; [lia | contradiction].
Qed.

Lemma filter_other_labels (i : Z) (l : list (Z * list value)) :
  ~ In i (map fst l) ->
  filter (fun r => negb (Z.eqb (fst r) i)) l = l.
Proof.
  induction l as [|x l IH]; intros Hnot; [reflexivity|].
  cbn [filter]. cbn [map] in Hnot.
  destruct (Z.eqb_spec (fst x) i) as [E|E].
  - elim Hnot. left. exact E.
  - cbn [negb]. f_equal. apply IH. intros Hin. apply Hnot. right. exact Hin.
Qed.

(** C10.  When no row other than the one labelled 0 mentions the marker,
    [drop_row_by_string] hands the table back as it was, the junk row
    included: a found index of 0 is taken for no match.  When the index
    found is strictly positive, it is the label of the last row found, that
    row alone is removed and the remaining rows are relabelled from 0. *)
Theorem drop_row_by_string_spec (df : DataFrame) (string : String.string) :
  ((forall r, In r (iterrows df) ->
      row_mentions string (values (snd r)) = true -> fst r = 0%Z) ->
   drop_row_by_string df string = Ok df)
  /\ (row_containing df string = Some 0%Z ->
      drop_row_by_string df string = Ok df)
  /\ (forall i, range_indexed df ->
        row_containing df string = Some i -> (0 < i)%Z ->
        exists pre cells post,
          rows df = pre ++ (i, cells) :: post
          /\ List.length pre = Z.to_nat i
          /\ row_found string (values (combine (columns df) cells)) = true
          /\ (forall r, In r post ->
                row_found string (values (combine (columns df) (snd r))) = false)
          /\ drop_row_by_string df string
             = Ok (mkDataFrame (columns df)
                     (relabel (map snd pre ++ map snd post)))).
Proof.
  split; [|split].
  - intros Honly. unfold drop_row_by_string, row_containing.
    destruct (row_containing_loop string (iterrows df) None)
      as [[Heq _] | (pre & r & post & Hl & Hr & _ & Heq)]; rewrite Heq.
    + reflexivity.
    + rewrite (Honly r); [reflexivity | |].
      * rewrite Hl. apply in_or_app. right. left. reflexivity.
      * apply row_found_mentions. exact Hr.
  - intros H0. unfold drop_row_by_string. rewrite H0. reflexivity.
  - intros i Hrange Hfound Hpos.
    unfold row_containing in Hfound.
    destruct (row_containing_loop string (iterrows df) None)
      as [[Heq _] | (pre' & r & post' & Hl & Hr & Hpost & Heq)];
      rewrite Heq in Hfound; [discriminate Hfound|].
    injection Hfound as Hi.
    unfold iterrows in Hl. apply map_eq_app in Hl.
    destruct Hl as (pre & tl & Hrows & Hpre & Htl).
    apply map_eq_cons in Htl. destruct Htl as (x & post & -> & Hx & Hpostmap).
    subst r. cbn [fst snd] in Hi, Hr.
    destruct x as [lbl cells]. cbn [fst snd] in Hi, Hr. subst lbl.
    exists pre, cells, post.
    unfold range_indexed in Hrange. rewrite Hrows in Hrange.
    rewrite map_app in Hrange. cbn [map fst] in Hrange.
    pose proof (range_labels 0 _ _ _ _ Hrange) as (Hlen & Hnpre & Hnpost).
    rewrite length_map in Hlen.
    repeat split.
    + exact Hrows.
    + lia.
    + exact Hr.
    + intros r Hin. apply (Hpost (fst r, combine (columns df) (snd r))).
      rewrite <- Hpostmap. apply in_map_iff. exists r. split; [reflexivity|exact Hin].
    + unfold drop_row_by_string, row_containing. rewrite Heq. cbn [fst].
      destruct i as [|p|p]; try lia.
      unfold drop. rewrite Hrows.
      rewrite existsb_app. cbn [existsb fst]. rewrite Z.eqb_refl.
      rewrite orb_true_r. cbn [bind].
      rewrite filter_app. cbn [filter fst]. rewrite Z.eqb_refl. cbn [negb].
      rewrite !filter_other_labels by assumption.
      unfold reset_index, relabel. cbn [columns rows].
      rewrite !map_app, !length_app, !length_map. reflexivity.
Qed.

(** ** Tabular Projection *)

Lemma projection_step_after (pre : list StudentRequest) (r : StudentRequest) :
  projection_step (locals_after pre) r = locals_after (pre ++ [r]).
Proof.
  unfold locals_after. cbn [map empty_locals fst].
  rewrite !map_app. cbn [map]. reflexivity.
Qed.

Lemma projection_loop_after (rs pre : list StudentRequest) :
  fold_left projection_step rs (locals_after pre) = locals_after (pre ++ rs).
Proof.
  revert pre. induction rs as [|r rs IH]; intros pre.
  - rewrite app_nil_r. reflexivity.
  - cbn [fold_left]. rewrite projection_step_after, IH, <- app_assoc.
    reflexivity.
Qed.

Lemma projection_columns_after (rs : list StudentRequest) :
  projection_columns rs = Ok (tracker_after rs).
Proof.
  unfold projection_columns.
  change empty_locals with (locals_after []).
  rewrite projection_loop_after. cbn [app].
  reflexivity.
Qed.

Lemma DataFrame_of_tracker (rs : list StudentRequest) :
  DataFrame_of_dict (tracker_after rs) = Ok (tracker_frame rs).
Proof.
  unfold DataFrame_of_dict, tracker_after, tracker_frame.
  cbn [map tracker_columns fst snd forallb Dict.keys].
  rewrite !length_map, Nat.eqb_refl. cbn [andb]. reflexivity.
Qed.

(** A frame that [requests_to_spreadsheet] returns is the tracker frame of
    the records. *)
Lemma requests_to_spreadsheet_frame (requests : list StudentRequest)
  (df : DataFrame) :
  requests_to_spreadsheet requests = Ok df -> df = tracker_frame requests.
Proof.
  intros Hrun. unfold requests_to_spreadsheet in Hrun.
  rewrite projection_columns_after in Hrun. cbn [bind] in Hrun.
  rewrite DataFrame_of_tracker in Hrun. cbn [bind] in Hrun.
  destruct (mapM _ _) in Hrun; [|discriminate Hrun].
  cbn [bind] in Hrun. injection Hrun as <-. reflexivity.
Qed.

Lemma nth_map_of_nth_error {A : Type} (f : A -> string) (l : list A)
  (i : nat) (a : A) :
  nth_error l i = Some a -> nth i (map f l) "" = f a.
Proof.
  revert i. induction l as [|x l IH]; intros [|i] H; try discriminate H.
  - injection H as ->. reflexivity.
  - apply IH. exact H.
Qed.

(** The frame that is written out has one row for each record, and the five
    multi-valued cells the tracker shows are the line-break joins of the
    record's lists. *)
Lemma requests_to_spreadsheet_rows (requests : list StudentRequest)
  (df : DataFrame) :
  requests_to_spreadsheet requests = Ok df ->
  List.length (rows df) = List.length requests
  /\ forall i req, nth_error requests i = Some req ->
       cell_at df i "Unit Code"
       = Ok (VStr (PyStr.join PyStr.nl (asm_codes req)))
       /\ cell_at df i "Assessment name and submission date"
          = Ok (VStr (PyStr.join PyStr.nl (asm_names req)))
       /\ cell_at df i "Other Assessment Info."
          = Ok (VStr (PyStr.join PyStr.nl (other_asm req)))
       /\ cell_at df i "Is this a resubmission (including date)?"
          = Ok (VStr (PyStr.join PyStr.nl (asm_is_resub req)))
       /\ cell_at df i "Submission Status"
          = Ok (VStr (PyStr.join PyStr.nl (asm_resubstatus req))).
Proof.
  intros Hrun. apply requests_to_spreadsheet_frame in Hrun. subst df.
  unfold tracker_frame. split.
  - cbn [rows]. rewrite length_map, length_seq. reflexivity.
  - intros i req Hi.
    assert (Hlt : i < List.length requests)
      by (apply nth_error_Some; rewrite Hi; discriminate).
    unfold cell_at, iterrows. cbn [rows columns].
    rewrite map_map, nth_error_map.
    replace (nth_error (seq 0 (List.length requests)) i) with (Some i).
    2:{ symmetry. rewrite nth_error_nth' with (d := 0) by (rewrite length_seq; exact Hlt).
        rewrite seq_nth by exact Hlt. reflexivity. }
    cbn [option_map snd fst map tracker_columns combine loc String.eqb
         Ascii.eqb Bool.eqb].
    rewrite !(nth_map_of_nth_error _ requests i req Hi).
    repeat split; reflexivity.
Qed.

(** C9.  For the sample record with two assessment entries the frame
    written out has one row; its unit-code cell is the first code, a line
    break, the second code; the join of the two resubmission dates is
    appended to the local list [resubdates] like the five others; but the
    frame has thirty-two columns and no cell of the row holds that join:
    [resubdates] never enters the dictionary of columns. *)
Theorem requests_to_spreadsheet_drops_resubdates :
  exists df,
    requests_to_spreadsheet [Sample.two_entries] = Ok df
    /\ List.length (rows df) = 1
    /\ cell_at df 0 "Unit Code"
       = Ok (VStr ("NURS34555" ++ PyStr.nl ++ "NURS20001"))
    /\ Dict.get (fold_left projection_step [Sample.two_entries] empty_locals)
         "resubdates"
       = Some [("01/02/2025" ++ PyStr.nl ++ "None given")%string]
    /\ List.length (columns df) = 32
    /\ forallb (fun r => negb (holds_text
                                 ("01/02/2025" ++ PyStr.nl ++ "None given")
                                 (snd r))) (rows df) = true.
Proof.
  eexists. split; [vm_compute; reflexivity|].
  repeat split; vm_compute; reflexivity.
Qed.

(** ** Header-Driven Field Resolver *)

Lemma string_reformat_nan_text (s fallback : string) :
  string_reformat_nan (VStr s) fallback
  = Ok (if ((s =? "") || (PyStr.lower s =? "nan"))%string then fallback else s).
Proof.
  unfold string_reformat_nan. cbn [isna].
  destruct (s =? "")%string; [reflexivity|].
  destruct (PyStr.lower s =? "nan")%string; reflexivity.
Qed.

Lemma item_middle {A : Type} (pre : list A) (x : A) (post : list A) :
  item (pre ++ x :: post) (Z.of_nat (List.length pre)) = Ok x.
Proof.
  unfold item, place.
  destruct (Z.leb_spec 0 (Z.of_nat (List.length pre))) as [_|H]; [|lia].
  rewrite length_app. cbn [List.length].
  destruct (Z.ltb_spec (Z.of_nat (List.length pre))
              (Z.of_nat (List.length pre + S (List.length post)))) as [_|H];
    [|lia].
  rewrite Nat2Z.id, nth_error_app2, Nat.sub_diag by lia. reflexivity.
Qed.

Lemma iloc_list_matching (searchstring : string) (row : Series) :
  forall (strings : list string) (pre tail : Series),
    row = pre ++ tail ->
    List.length strings = List.length tail ->
    iloc_list row
      (positions_containing searchstring strings (Z.of_nat (List.length pre)))
    = Ok (map snd (filter (fun hp => PyStr.contains searchstring (fst hp))
                     (combine strings tail))).
Proof.
  induction strings as [|s strings IH]; intros pre tail Hrow Hlen.
  - reflexivity.
  - destruct tail as [|x tail]; [discriminate Hlen|].
    injection Hlen as Hlen.
    assert (Hrow' : row = (pre ++ [x]) ++ tail)
      by (rewrite <- app_assoc; exact Hrow).
    specialize (IH (pre ++ [x]) tail Hrow' Hlen).
    rewrite length_app in IH. cbn [List.length] in IH.
    replace (Z.of_nat (List.length pre + 1))
      with (Z.of_nat (List.length pre) + 1)%Z in IH by lia.
    cbn [positions_containing combine filter fst].
    destruct (PyStr.contains searchstring s).
    + unfold iloc_list in *. cbn [mapM]. rewrite IH.
      rewrite Hrow at 1. rewrite item_middle. reflexivity.
    + exact IH.
Qed.

Lemma filter_map_snd {A B : Type} (p : B -> bool) (l : list (A * B)) :
  map snd (filter (fun x => p (snd x)) l) = filter p (map snd l).
Proof.
  induction l as [|x l IH]; [reflexivity|].
  cbn [filter map]. destruct (p (snd x)); cbn [map]; rewrite IH; reflexivity.
Qed.

Lemma marked_cells_values (searchstring : string) (header_cells : list value) :
  forall row : Series,
    map snd (map snd (filter (fun hp => PyStr.contains searchstring (fst hp))
                        (combine (map str header_cells) row)))
    = map (fun hp => snd (snd hp))
        (filter (fun hp => PyStr.contains searchstring (str (fst hp)))
           (combine header_cells row)).
Proof.
  induction header_cells as [|h hs IH]; intros [|x row]; try reflexivity.
  cbn [map combine filter fst].
  destruct (PyStr.contains searchstring (str h)); cbn [map snd];
    rewrite IH; reflexivity.
Qed.

Lemma bind_Ok_inv {A B : Type} (m : result A) (f : A -> result B) (b : B) :
  bind m f = Ok b -> exists a, m = Ok a /\ f a = Ok b.
Proof.
  destruct m as [a|e]; [|discriminate]. intros H. exists a. split; auto.
Qed.

Ltac bind_inv H :=
  let a := fresh "v" in
  let E := fresh "E" in
  apply bind_Ok_inv in H; destruct H as (a & E & H).

Lemma header_readable_cons {pd : Pandas} (cell : value)
  (header_cells : list value) :
  header_readable (cell :: header_cells) = true ->
  astype_str cell = VStr (str cell) /\ header_readable header_cells = true.
Proof.
  unfold header_readable, astype_str. cbn [forallb].
  destruct astype_str_keeps_missing; cbn [negb orb].
  - intros H. apply andb_true_iff in H. destruct H as [Hc Hr].
    split; [|exact Hr]. destruct cell; try discriminate Hc; reflexivity.
  - intros _. split; [|reflexivity]. destruct cell; reflexivity.
Qed.

(** On header cells that read the same under every pandas the comprehension
    finds the positions of the texts holding the marker. *)
Lemma matching_positions_readable {pd : Pandas} (searchstring : string)
  (header_cells : list value) :
  header_readable header_cells = true ->
  forall index,
    matching_positions searchstring (map astype_str header_cells) index
    = Ok (positions_containing searchstring (map str header_cells) index).
Proof.
  induction header_cells as [|cell cells IH]; intros H index; [reflexivity|].
  apply header_readable_cons in H. destruct H as [Hcell Hrest].
  cbn [map matching_positions positions_containing]. rewrite Hcell.
  cbn [py_in bind]. rewrite (IH Hrest). cbn [bind].
  destruct (PyStr.contains searchstring (str cell)); reflexivity.
Qed.

(** When [astype(str)] keeps missing cells and a header cell is missing, the
    comprehension ends on the [TypeError] of the membership test. *)
Lemma matching_positions_missing {pd : Pandas} (searchstring : string)
  (header_cells : list value) :
  header_readable header_cells = false ->
  forall index,
    matching_positions searchstring (map astype_str header_cells) index
    = Raise TypeError.
Proof.
  unfold header_readable.
  destruct astype_str_keeps_missing eqn:Hkeep; [|discriminate].
  cbn [negb orb].
  induction header_cells as [|cell cells IH]; intros H index;
    [discriminate H|].
  cbn [forallb] in H. cbn [map matching_positions].
  destruct (isna cell) eqn:Hcell.
  - unfold astype_str. rewrite Hkeep.
    destruct cell; try discriminate Hcell; reflexivity.
  - cbn [negb andb] in H.
    replace (astype_str cell) with (VStr (str cell))
      by (destruct cell; try discriminate Hcell; reflexivity).
    cbn [py_in bind]. rewrite (IH H). reflexivity.
Qed.

Lemma string_parse_header_value {pd : Pandas} (row : Series)
  (header : DataFrame) (label : Z) (header_cells : list value)
  (rest : list (Z * list value)) (searchstring : string) :
  rows header = (label, header_cells) :: rest ->
  List.length header_cells = List.length row ->
  header_readable header_cells = true ->
  string_parse_header row header searchstring
  = Ok (match filter (fun v => negb (isna v))
                (marked_cells searchstring header_cells row) with
        | [] => "..."
        | first :: _ => normalize (str first)
        end).
Proof.
  intros Hrows Hlen Hread.
  unfold string_parse_header, first_row_strings. rewrite Hrows.
  cbn [bind snd].
  rewrite (matching_positions_readable searchstring header_cells Hread).
  cbn [bind].
  assert (Hm := iloc_list_matching searchstring row (map str header_cells)
                  [] row eq_refl).
  cbn [List.length Z.of_nat app] in Hm.
  rewrite Hm by (rewrite length_map; exact Hlen). clear Hm.
  cbn [bind]. unfold marked_cells.
  rewrite <- (marked_cells_values searchstring header_cells row).
  rewrite <- (filter_map_snd (fun v => negb (isna v))).
  fold (dropna (map snd
                  (filter (fun hp => PyStr.contains searchstring (fst hp))
                     (combine (map str header_cells) row)))).
  destruct (dropna _) as [|[l v] years']; [reflexivity|].
  cbn [map snd]. unfold iloc, item, place. cbn [List.length].
  cbn [Z.leb Z.ltb Z.compare Z.of_nat Pos.of_succ_nat Z.to_nat nth_error
       bind snd].
  rewrite string_reformat_nan_text. reflexivity.
Qed.

(** C7, as amended.  When the header cells read the same under every pandas
    (none is missing, or [astype(str)] turns missing cells into text),
    [string_parse_header] takes the cells of the current row that sit under
    the header cells containing the marker, drops the missing ones (NaN or
    None, which is what an empty spreadsheet cell is) and no other, and
    returns the first that remains, as text and through the Cell Normalizer:
    when that first cell is the empty string or a spelling of nan the result
    is the fallback text, whatever the later cells hold.  When none remains
    it returns the ellipsis and does not fail.  Programme, course year,
    evidence declaration and supervisor name of a record are read this way,
    with their four markers. *)
Theorem string_parse_header_spec {pd : Pandas} (row : Series)
  (header : DataFrame) (label : Z) (header_cells : list value)
  (rest : list (Z * list value)) (searchstring : string) :
  rows header = (label, header_cells) :: rest ->
  List.length header_cells = List.length row ->
  header_readable header_cells = true ->
  string_parse_header row header searchstring
  = Ok (match filter (fun v => negb (isna v))
                (marked_cells searchstring header_cells row) with
        | [] => "..."
        | first :: _ => normalize (str first)
        end)
  /\ (forall later,
        filter (fun v => negb (isna v))
          (marked_cells searchstring header_cells row) = VStr "" :: later ->
        string_parse_header row header searchstring = Ok NONE_GIVEN)
  /\ forall req, read_scalars row header = Ok req ->
       string_parse_header row header "Programme" = Ok (programme req)
       /\ string_parse_header row header "Year" = Ok (courseyear req)
       /\ string_parse_header row header
            "submitting evidence with your application" = Ok (evidence req)
       /\ string_parse_header row header "Dissertation supervisor name"
          = Ok (supervisor req).
Proof.
  intros Hrows Hlen Hread.
  pose proof (string_parse_header_value row header label header_cells rest
                searchstring Hrows Hlen Hread) as Hvalue.
  split; [exact Hvalue|]. split.
  - intros later Hlater. rewrite Hvalue, Hlater. reflexivity.
  - intros req H. unfold read_scalars in H.
    repeat bind_inv H. injection H as <-.
    cbn [programme courseyear evidence supervisor].
    repeat split; assumption.
Qed.

(** ** Dictionaries *)

Lemma dict_get_set_same {V : Type} (d : Dict.t V) (k : string) (v : V) :
  Dict.get (Dict.set d k v) k = Some v.
Proof.
  induction d as [|[k' v'] d IH]; cbn [Dict.set Dict.get].
  - rewrite String.eqb_refl. reflexivity.
  - destruct (String.eqb_spec k' k) as [E|E]; cbn [Dict.get].
    + rewrite String.eqb_refl. reflexivity.
    + destruct (String.eqb_spec k' k); [contradiction|exact IH].
Qed.

Lemma dict_get_set_other {V : Type} (d : Dict.t V) (k k0 : string) (v : V) :
  k <> k0 -> Dict.get (Dict.set d k v) k0 = Dict.get d k0.
Proof.
  intros Hne. induction d as [|[k' v'] d IH]; cbn [Dict.set Dict.get].
  - destruct (String.eqb_spec k k0); [contradiction|reflexivity].
  - destruct (String.eqb_spec k' k) as [E|E]; cbn [Dict.get].
    + subst k'. destruct (String.eqb_spec k k0); [contradiction|reflexivity].
    + rewrite IH. reflexivity.
Qed.

Lemma dict_keys_set {V : Type} (d : Dict.t V) (k k0 : string) (v : V) :
  In k0 (Dict.keys (Dict.set d k v)) -> k0 = k \/ In k0 (Dict.keys d).
Proof.
  unfold Dict.keys.
  induction d as [|[k' v'] d IH]; cbn [Dict.set map fst In].
  - intros [<-|[]]. left. reflexivity.
  - destruct (String.eqb_spec k' k) as [E|E]; cbn [map fst In].
    + intros [<-|H]; auto.
    + intros [<-|H]; auto. destruct (IH H); auto.
Qed.

Lemma dict_set_fresh {V : Type} (d : Dict.t V) (k : string) (v : V) :
  existsb (String.eqb k) (Dict.keys d) = false ->
  Dict.set d k v = d ++ [(k, v)].
Proof.
  unfold Dict.keys.
  induction d as [|[k' v'] d IH]; cbn [Dict.set map fst existsb app];
    intros H; [reflexivity|].
  apply orb_false_iff in H. destruct H as [Hk Hd].
  rewrite String.eqb_sym, Hk. f_equal. apply IH. exact Hd.
Qed.

(** ** Column-Block Locator *)

Lemma has_repeat_cons (x : string) (l : list string) :
  has_repeat (x :: l) = false ->
  existsb (String.eqb x) l = false /\ has_repeat l = false.
Proof. cbn [has_repeat]. apply orb_false_iff. Qed.

Lemma existsb_filter_false (p : string -> bool) (q : string -> bool)
  (l : list string) :
  existsb p l = false -> existsb p (filter q l) = false.
Proof.
  induction l as [|x l IH]; [reflexivity|]. cbn [existsb filter].
  intros H. apply orb_false_iff in H. destruct H as [Hx Hl].
  destruct (q x); cbn [existsb]; rewrite ?Hx; auto.
Qed.

Lemma has_repeat_filter (q : string -> bool) (l : list string) :
  has_repeat l = false -> has_repeat (filter q l) = false.
Proof.
  induction l as [|x l IH]; [reflexivity|].
  intros H. apply has_repeat_cons in H. destruct H as [Hx Hl].
  cbn [filter]. destruct (q x); auto.
  cbn [has_repeat]. rewrite (existsb_filter_false _ q l Hx), (IH Hl).
  reflexivity.
Qed.

Lemma not_existsb_eqb (x y : string) (l : list string) :
  existsb (String.eqb x) l = false -> In y l -> x <> y.
Proof.
  intros H Hin ->.
  assert (existsb (String.eqb y) l = true)
    by (apply existsb_exists; exists y; split; [exact Hin|apply String.eqb_refl]).
  congruence.
Qed.

(** Without repeated names, looking the selected names up again gives their
    positions. *)
Lemma positions_of_filter (p : string -> bool) (l : list string) (from : Z) :
  has_repeat l = false ->
  map (fun x => position_of l x from) (filter p l) = positions_from p l from.
Proof.
  revert from. induction l as [|y l IH]; intros from H; [reflexivity|].
  apply has_repeat_cons in H. destruct H as [Hy Hl].
  assert (Htail :
    map (fun x => position_of (y :: l) x from) (filter p l)
    = positions_from p l (from + 1)%Z).
  { rewrite <- (IH (from + 1)%Z Hl). apply map_ext_in. intros x Hx.
    apply filter_In in Hx. destruct Hx as [Hx _].
    cbn [position_of].
    destruct (String.eqb_spec y x) as [E|E]; [|reflexivity].
    elim (not_existsb_eqb y x l Hy Hx E). }
  cbn [filter positions_from]. destruct (p y); [|exact Htail].
  cbn [map]. rewrite Htail. cbn [position_of].
  rewrite String.eqb_refl. reflexivity.
Qed.

Lemma positions_from_In (p : string -> bool) (names : list string) :
  forall (from i : Z),
    In i (positions_from p names from)
    <-> (from <= i)%Z
        /\ exists name, nth_error names (Z.to_nat (i - from)) = Some name
                        /\ p name = true.
Proof.
  induction names as [|x names IH]; intros from i.
  - cbn [positions_from In]. split; [intros []|].
    intros (_ & name & H & _). destruct (Z.to_nat (i - from)); discriminate H.
  - assert (Hrest :
      In i (positions_from p names (from + 1)%Z)
      <-> (from < i)%Z
          /\ exists name, nth_error (x :: names) (Z.to_nat (i - from)) = Some name
                          /\ p name = true).
    { rewrite IH. split.
      - intros (Hle & name & Hn & Hp). split; [lia|]. exists name.
        split; [|exact Hp].
        replace (Z.to_nat (i - from)) with (S (Z.to_nat (i - (from + 1)))) by lia.
        exact Hn.
      - intros (Hlt & name & Hn & Hp). split; [lia|]. exists name.
        split; [|exact Hp].
        replace (Z.to_nat (i - from)) with (S (Z.to_nat (i - (from + 1))))
          in Hn by lia.
        exact Hn. }
    cbn [positions_from]. destruct (p x) eqn:Hx.
    + cbn [In]. rewrite Hrest. split.
      * intros [<-|(Hlt & H)].
        -- split; [lia|]. exists x. rewrite Z.sub_diag. auto.
        -- split; [lia|exact H].
      * intros (Hle & name & Hn & Hp).
        destruct (Z.eq_dec from i) as [E|E]; [left; exact E|].
        right. split; [lia|]. exists name. auto.
    + rewrite Hrest. split.
      * intros (Hlt & H). split; [lia|exact H].
      * intros (Hle & name & Hn & Hp).
        destruct (Z.eq_dec from i) as [E|E].
        -- subst i. rewrite Z.sub_diag in Hn. cbn in Hn. injection Hn as ->.
           congruence.
        -- split; [lia|]. exists name. auto.
Qed.

Lemma positions_from_sorted (p : string -> bool) (names : list string) :
  forall from, StronglySorted Z.lt (positions_from p names from).
Proof.
  induction names as [|x names IH]; intros from; [constructor|].
  cbn [positions_from]. destruct (p x); [|apply IH].
  constructor; [apply IH|].
  apply Forall_forall. intros i Hi. apply positions_from_In in Hi. lia.
Qed.

Lemma prefix_app_l (a b s : string) :
  String.prefix (a ++ b) s = true -> String.prefix a s = true.
Proof.
  revert s. induction a as [|c a IH]; intros s H.
  - destruct s; reflexivity.
  - destruct s as [|d s]; [discriminate H|].
    cbn [String.append String.prefix] in *.
    destruct (ascii_dec c d); [|discriminate H]. apply IH. exact H.
Qed.

Lemma filter_filter_implied {A : Type} (p q : A -> bool) (l : list A) :
  (forall x, p x = true -> q x = true) ->
  filter p (filter q l) = filter p l.
Proof.
  intros Himp. induction l as [|x l IH]; [reflexivity|].
  cbn [filter]. destruct (q x) eqn:Hq; cbn [filter].
  - rewrite IH. reflexivity.
  - destruct (p x) eqn:Hp; [|exact IH].
    rewrite (Himp x Hp) in Hq. discriminate Hq.
Qed.

Section ColumnsDictionary.

Variable f : string -> Z.

Let entries (targets : list string) : Dict.t Z := combine targets (map f targets).

Lemma columns_dict_fresh (targets : list string) :
  forall d : Dict.t Z,
    has_repeat targets = false ->
    (forall k, In k targets -> existsb (String.eqb k) (Dict.keys d) = false) ->
    fold_left (fun d ni => Dict.set d (fst ni) (snd ni)) (entries targets) d
    = d ++ entries targets.
Proof.
  unfold entries.
  induction targets as [|t ts IH]; intros d Hrep Hfresh.
  - cbn. rewrite app_nil_r. reflexivity.
  - apply has_repeat_cons in Hrep. destruct Hrep as [Ht Hts].
    cbn [map combine fold_left fst snd].
    rewrite dict_set_fresh by (apply Hfresh; left; reflexivity).
    rewrite IH; [rewrite <- app_assoc; reflexivity | exact Hts |].
    intros k Hk. unfold Dict.keys. rewrite map_app, existsb_app.
    fold (Dict.keys d). rewrite (Hfresh k (or_intror Hk)).
    cbn [map fst existsb orb].
    destruct (String.eqb_spec k t) as [E|E]; [|reflexivity].
    elim (not_existsb_eqb t k ts Ht Hk). symmetry. exact E.
Qed.

Lemma entries_keys (targets : list string) :
  Dict.keys (entries targets) = targets.
Proof.
  unfold entries, Dict.keys.
  induction targets as [|t ts IH]; [reflexivity|].
  cbn [map combine fst]. rewrite IH. reflexivity.
Qed.

Lemma entries_get (targets : list string) (k : string) :
  In k targets -> Dict.get (entries targets) k = Some (f k).
Proof.
  unfold entries.
  induction targets as [|t ts IH]; intros Hin; [destruct Hin|].
  cbn [map combine Dict.get].
  destruct (String.eqb_spec t k) as [E|E]; [subst; reflexivity|].
  destruct Hin as [Ht|Hin]; [contradiction|]. apply IH. exact Hin.
Qed.

Lemma entries_getitems (targets cols : list string) :
  (forall c, In c cols -> In c targets) ->
  mapM (Dict.getitem (entries targets)) cols = Ok (map f cols).
Proof.
  induction cols as [|c cols IH]; intros Hsub; [reflexivity|].
  cbn [mapM map]. unfold Dict.getitem at 1.
  rewrite entries_get by (apply Hsub; left; reflexivity). cbn [bind].
  rewrite IH by (intros c' Hc'; apply Hsub; right; exact Hc').
  reflexivity.
Qed.

End ColumnsDictionary.

Section ResponseLoop.

Variable step : Dict.t (list Z) -> string -> result (Dict.t (list Z)).
Variable g : string -> list Z.

Hypothesis step_sets :
  forall responses k,
    step responses k
    = Ok (match g k with
          | [] => responses
          | _ => Dict.set responses k (g k)
          end).

Lemma response_loop (ks : list string) :
  forall d, exists d',
    foldM step ks d = Ok d'
    /\ (forall key, In key ks ->
          Dict.get d' key = match g key with
                            | [] => Dict.get d key
                            | _ => Some (g key)
                            end)
    /\ (forall key, ~ In key ks -> Dict.get d' key = Dict.get d key)
    /\ (forall key, In key (Dict.keys d') -> In key ks \/ In key (Dict.keys d)).
Proof.
  induction ks as [|k ks IH]; intros d.
  - exists d. repeat split; auto. intros key [].
  - cbn [foldM]. rewrite step_sets. cbn [bind].
    set (d1 := match g k with [] => d | _ => Dict.set d k (g k) end).
    destruct (IH d1) as (d' & Hrun & Hin & Hout & Hkeys).
    assert (Hd1 : forall key,
               Dict.get d1 key
               = if string_dec key k
                 then match g k with [] => Dict.get d k | _ => Some (g k) end
                 else Dict.get d key).
    { intros key. subst d1. destruct (string_dec key k) as [->|Hne].
      - destruct (g k); [reflexivity|apply dict_get_set_same].
      - destruct (g k); [reflexivity|].
        apply dict_get_set_other. congruence. }
    exists d'. split; [exact Hrun|]. split; [|split].
    + intros key Hkey.
      destruct (in_dec string_dec key ks) as [Hks|Hks].
      * rewrite (Hin key Hks). destruct (g key) eqn:Hg; [|reflexivity].
        rewrite Hd1. destruct (string_dec key k) as [->|Hne]; [|reflexivity].
        rewrite Hg. reflexivity.
      * rewrite (Hout key Hks), Hd1.
        destruct Hkey as [<-|Hkey]; [|contradiction].
        destruct (string_dec k k); [reflexivity|contradiction].
    + intros key Hkey. rewrite Hout by (intros H; apply Hkey; right; exact H).
      rewrite Hd1. destruct (string_dec key k) as [->|Hne]; [|reflexivity].
      elim Hkey. left. reflexivity.
    + intros key Hkey. destruct (Hkeys key Hkey) as [H|H].
      * left. right. exact H.
      * subst d1. destruct (g k); [right; exact H|].
        apply dict_keys_set in H. destruct H as [->|H]; [left; left|right]; auto.
Qed.

End ResponseLoop.

Lemma In_range (a b k : Z) : (a <= k < b)%Z <-> In k (range a b).
Proof.
  unfold range. rewrite in_map_iff. split.
  - intros H. exists (Z.to_nat (k - a)). split; [lia|].
    apply in_seq. lia.
  - intros (i & <- & Hi). apply in_seq in Hi. lia.
Qed.

(** Block discovery on a frame without a repeated column name: the entry of
    each key from 1 to 99 is the list of positions of its columns, keys
    without a column have no entry, and there are no other keys. *)
Lemma locate_response_columns_blocks (df : DataFrame) :
  has_repeat (columns df) = false ->
  exists locations,
    locate_response_columns df 100 = Ok locations
    /\ (forall k, (1 <= k < 100)%Z ->
          Dict.get locations (PyStr.str_int k)
          = match block_positions (PyStr.str_int k) (columns df) with
            | [] => None
            | l => Some l
            end)
    /\ (forall key, In key (Dict.keys locations) ->
          exists k, (1 <= k < 100)%Z /\ key = PyStr.str_int k)
    /\ (forall key i,
          In i (block_positions key (columns df))
          <-> (0 <= i)%Z
              /\ exists name,
                   nth_error (columns df) (Z.to_nat i) = Some name
                   /\ PyStr.startswith name (key ++ "_")%string = true).
Proof.
  intros Hrep. unfold locate_response_columns, get_indexer. rewrite Hrep.
  cbn [bind].
  set (numbers := map PyStr.str_int (range 1 100)).
  set (targets := filter (fun name => startswith_any name numbers) (columns df)).
  set (f := fun x => position_of (columns df) x 0%Z).
  assert (Hreptargets : has_repeat targets = false)
    by (apply has_repeat_filter; exact Hrep).
  rewrite (columns_dict_fresh f targets [] Hreptargets (fun _ _ => eq_refl)).
  cbn [app]. unfold unique_response_locations.
  set (g := fun key => block_positions key (columns df)).
  assert (Hstep : forall responses k,
             In k numbers ->
             unique_response_step (combine targets (map f targets)) responses k
             = Ok (match g k with [] => responses | _ => Dict.set responses k (g k) end)).
  { intros responses k Hk. unfold unique_response_step.
    rewrite entries_keys.
    rewrite entries_getitems
      by (intros c Hc; apply filter_In in Hc; tauto).
    cbn [bind]. subst targets.
    rewrite filter_filter_implied.
    2:{ intros x Hx. unfold startswith_any. apply existsb_exists.
        exists k. split; [exact Hk|].
        unfold PyStr.startswith in *. apply (prefix_app_l _ _ _ Hx). }
    subst f. cbv beta. rewrite positions_of_filter by exact Hrep.
    fold (block_positions k (columns df)). fold (g k).
    destruct (g k); reflexivity. }
  (* the loop only ever meets members of [numbers] *)
  set (step := fun responses k =>
                 if in_dec string_dec k numbers
                 then unique_response_step (combine targets (map f targets))
                        responses k
                 else Ok (match g k with
                          | [] => responses
                          | _ => Dict.set responses k (g k)
                          end)).
  assert (Hsame : forall ks d, (forall k, In k ks -> In k numbers) ->
             foldM (unique_response_step (combine targets (map f targets))) ks d
             = foldM step ks d).
  { induction ks as [|k ks IH]; intros d Hsub; [reflexivity|].
    cbn [foldM]. unfold step at 1.
    destruct (in_dec string_dec k numbers) as [_|Hn];
      [|elim Hn; apply Hsub; left; reflexivity].
    destruct (unique_response_step _ d k); [|reflexivity]. cbn [bind].
    apply IH. intros k' Hk'. apply Hsub. right. exact Hk'. }
  rewrite Hsame by auto.
  destruct (response_loop step g) with (ks := numbers) (d := @nil (string * list Z))
    as (d' & Hrun & Hin & _ & Hkeys).
  { intros responses k. unfold step.
    destruct (in_dec string_dec k numbers) as [Hk|_]; [apply Hstep; exact Hk|].
    reflexivity. }
  exists d'. split; [exact Hrun|]. split; [|split].
  - intros k Hk. rewrite Hin.
    + unfold g. destruct (block_positions _ _); reflexivity.
    + subst numbers. apply in_map. apply In_range. exact Hk.
  - intros key Hkey. destruct (Hkeys key Hkey) as [H|[]].
    subst numbers. apply in_map_iff in H. destruct H as (k & <- & Hk).
    exists k. split; [apply In_range; exact Hk|reflexivity].
  - intros key i. unfold block_positions. rewrite positions_from_In.
    rewrite Z.sub_0_r. reflexivity.
Qed.

(** ** Record Builder *)

Lemma mapM_Forall2 {A B : Type} (f : A -> result B) (l : list A) :
  forall l', mapM f l = Ok l' -> Forall2 (fun a b => f a = Ok b) l l'.
Proof.
  induction l as [|a l IH]; intros l' H.
  - injection H as <-. constructor.
  - cbn [mapM] in H. bind_inv H. bind_inv H. injection H as <-.
    constructor; [assumption|]. apply IH. assumption.
Qed.


Lemma read_scalars_fresh {pd : Pandas} (row : Series) (header : DataFrame)
  (req : StudentRequest) :
  read_scalars row header = Ok req ->
  six_lists req 0
  /\ read_required row COLNAME_PREFIX_STUDENTID = Ok (ID req).
Proof.
  intros H. unfold read_scalars in H. repeat bind_inv H. injection H as <-.
  split; [repeat split|]. cbn [ID]. assumption.
Qed.

Lemma try_read_scalars {pd : Pandas} (row : Series) (header : DataFrame)
  (req : StudentRequest) :
  match read_scalars row header with
  | Raise (KeyError key) => on_KeyError key
  | other => other
  end = Ok req ->
  read_scalars row header = Ok req.
Proof.
  destruct (read_scalars row header) as [r|e]; [auto|].
  destruct e; try discriminate. unfold on_KeyError.
  destruct (Dict.getitem _ _); discriminate.
Qed.

Lemma block_step_counts (row : Series) (st st' : block_state)
  (block : string * list Z) :
  block_step row MINIMUM_REQUIRED_RESPONSES st block = Ok st' ->
  ID (st_req st') = ID (st_req st)
  /\ forall n, six_lists (st_req st) n ->
       six_lists (st_req st') (n + if block_filled row block then 1 else 0).
Proof.
  intros H. unfold block_step in H. bind_inv H. unfold block_filled.
  rewrite E.
  destruct (fst (minimum_responses_provided (values v)
                   MINIMUM_REQUIRED_RESPONSES)).
  - cbn [negb] in H. repeat bind_inv H. injection H as <-.
    cbn [st_req]. split; [reflexivity|].
    intros n (H1 & H2 & H3 & H4 & H5 & H6).
    unfold six_lists, append_assessment.
    cbn [asm_codes asm_names other_asm asm_is_resub asm_resubdate
         asm_resubstatus].
    rewrite !length_app. cbn [List.length]. repeat split; lia.
  - cbn [negb] in H. injection H as <-. split; [reflexivity|].
    intros n Hn. rewrite Nat.add_0_r. exact Hn.
Qed.

Lemma block_loop_counts (row : Series) (Q_cols : Dict.t (list Z)) :
  forall st st',
    foldM (block_step row MINIMUM_REQUIRED_RESPONSES) Q_cols st = Ok st' ->
    ID (st_req st') = ID (st_req st)
    /\ forall n, six_lists (st_req st) n ->
         six_lists (st_req st')
           (n + List.length (filter (block_filled row) Q_cols)).
Proof.
  induction Q_cols as [|block Q_cols IH]; intros st st' H.
  - injection H as <-. split; [reflexivity|]. intros n Hn.
    cbn. rewrite Nat.add_0_r. exact Hn.
  - cbn [foldM] in H. bind_inv H.
    destruct (block_step_counts _ _ _ _ E) as [Hid Hone].
    destruct (IH _ _ H) as [Hid' Hrest].
    split; [congruence|]. intros n Hn.
    specialize (Hrest _ (Hone n Hn)). cbn [filter].
    destruct (block_filled row block); cbn [List.length];
      [|rewrite Nat.add_0_r in Hrest; exact Hrest].
    replace (n + S (List.length (filter (block_filled row) Q_cols)))
      with (n + 1 + List.length (filter (block_filled row) Q_cols)) by lia.
    exact Hrest.
Qed.

Lemma build_row_counts {pd : Pandas} (header : DataFrame)
  (Q_cols : Dict.t (list Z))
  (row : Series) (req : StudentRequest) :
  build_row header Q_cols MINIMUM_REQUIRED_RESPONSES row = Ok req ->
  six_lists req (List.length (filter (block_filled row) Q_cols))
  /\ read_required row COLNAME_PREFIX_STUDENTID = Ok (ID req).
Proof.
  intros H. unfold build_row in H. bind_inv H. bind_inv H. injection H as <-.
  apply try_read_scalars in E. apply read_scalars_fresh in E.
  destruct E as [Hzero Hid].
  destruct (block_loop_counts _ _ _ _ E0) as [Hid' Hcount].
  cbn [st_req] in Hid', Hcount. split.
  - specialize (Hcount 0 Hzero). cbn [Nat.add] in Hcount.
    destruct Hcount as (H1 & H2 & H3 & H4 & H5 & H6).
    unfold six_lists, set_division.
    cbn [asm_codes asm_names other_asm asm_is_resub asm_resubdate
         asm_resubstatus].
    repeat split; assumption.
  - unfold set_division. cbn [ID]. rewrite Hid'. exact Hid.
Qed.


(** C5, as amended.  For a column-name list without a repeated name, block
    discovery with maximum block number 100 returns a dictionary which, for
    each block key k from 1 to 99, holds exactly the positions, in column
    order and each once, of the columns whose name starts with k and the
    underscore, and holds no entry for a key without such a column; it has
    no other keys.  When the columns starting with 6 and the underscore are
    6_4, 6_Q165, 6_1_TEXT and 6_Q163 and no others, the entry of key 6 holds
    the positions of those four columns and nothing else. *)
Theorem locate_response_columns_spec (df : DataFrame) :
  has_repeat (columns df) = false ->
  exists locations,
    locate_response_columns df 100 = Ok locations
    /\ (forall k, (1 <= k < 100)%Z ->
          Dict.get locations (PyStr.str_int k)
          = match block_positions (PyStr.str_int k) (columns df) with
            | [] => None
            | l => Some l
            end)
    /\ (forall key, In key (Dict.keys locations) ->
          exists k, (1 <= k < 100)%Z /\ key = PyStr.str_int k)
    /\ (forall key i,
          In i (block_positions key (columns df))
          <-> (0 <= i)%Z
              /\ exists name,
                   nth_error (columns df) (Z.to_nat i) = Some name
                   /\ PyStr.startswith name (key ++ "_")%string = true)
    /\ (forall key, StronglySorted Z.lt (block_positions key (columns df)))
    /\ ((forall name, In name example_block_columns -> In name (columns df)) ->
        (forall name, In name (columns df) ->
           PyStr.startswith name "6_" = true ->
           In name example_block_columns) ->
        exists l,
          Dict.get locations "6" = Some l
          /\ forall i, In i l
                       <-> (0 <= i)%Z
                           /\ exists name,
                                nth_error (columns df) (Z.to_nat i) = Some name
                                /\ In name example_block_columns).
Proof.
  intros Hrep.
  destruct (locate_response_columns_blocks df Hrep)
    as (locations & Hrun & Hget & Hkeys & Hpos).
  exists locations. repeat (split; [assumption|]).
  split; [intros key; apply positions_from_sorted|].
  intros Hpresent Honly.
  assert (H6 := Hget 6%Z ltac:(lia)).
  change (PyStr.str_int 6) with "6" in H6.
  assert (Hiff : forall i,
             In i (block_positions "6" (columns df))
             <-> (0 <= i)%Z
                 /\ exists name,
                      nth_error (columns df) (Z.to_nat i) = Some name
                      /\ In name example_block_columns).
  { intros i. rewrite Hpos. split.
    - intros (Hi & name & Hn & Hp). split; [exact Hi|]. exists name.
      split; [exact Hn|]. apply Honly; [|exact Hp].
      apply nth_error_In in Hn. exact Hn.
    - intros (Hi & name & Hn & Hin). split; [exact Hi|]. exists name.
      split; [exact Hn|].
      cbn [example_block_columns In] in Hin.
      repeat (destruct Hin as [<-|Hin]; [reflexivity|]). destruct Hin. }
  destruct (block_positions "6" (columns df)) as [|i0 l] eqn:Hl.
  - exfalso.
    destruct (In_nth_error (columns df) "6_4") as [n Hn].
    { apply Hpresent. left. reflexivity. }
    apply (proj2 (Hiff (Z.of_nat n))).
    split; [lia|]. exists "6_4". rewrite Nat2Z.id.
    split; [exact Hn|left; reflexivity].
  - exists (i0 :: l). split; [exact H6|exact Hiff].
Qed.

(** C5, the claim as stated fails: on the two-column list 6_4, 6_4 the
    columns starting with 6 and the underscore sit at positions 0 and 1, yet
    block discovery returns no dictionary at all; it raises. *)
Lemma locate_response_columns_repeated_name :
  block_positions "6" ["6_4"; "6_4"] = [0%Z; 1%Z]
  /\ locate_response_columns (mkDataFrame ["6_4"; "6_4"] []) 100
     = Raise InvalidIndexError.
Proof. split; vm_compute; reflexivity. Qed.

Lemma locate_response_columns_spec_witness :
  has_repeat (columns Sample.partial_block) = false
  /\ exists locations,
       locate_response_columns Sample.partial_block 100 = Ok locations
       /\ Dict.get locations "6" = Some [14%Z; 15%Z; 16%Z; 17%Z].
Proof.
  split; [reflexivity|].
  destruct (locate_response_columns_spec Sample.partial_block eq_refl)
    as (locations & Hrun & Hget & _).
  exists locations. split; [exact Hrun|].
  exact (Hget 6%Z ltac:(lia)).
Defined.

Lemma loc_absent (s : Series) (label : string) :
  ~ In label (map fst s) -> loc s label = Raise (KeyError label).
Proof.
  induction s as [|[l v] s IH]; intros Hnot; [reflexivity|].
  cbn [loc]. cbn [map fst In] in Hnot.
  destruct (String.eqb_spec l label) as [E|E]; [elim Hnot; left; exact E|].
  apply IH. intros H. apply Hnot. right. exact H.
Qed.

Lemma loc_present (s : Series) (label : string) :
  In label (map fst s) -> exists v, loc s label = Ok v.
Proof.
  induction s as [|[l v] s IH]; intros Hin; [destruct Hin|].
  cbn [loc]. destruct (String.eqb_spec l label) as [E|E]; [exists v; reflexivity|].
  apply IH. destruct Hin as [H|H]; [contradiction|exact H].
Qed.

Lemma combine_labels (cols : list string) :
  forall cells : list value,
    List.length cols <= List.length cells ->
    map fst (combine cols cells) = cols.
Proof.
  induction cols as [|c cols IH]; intros cells Hlen; [reflexivity|].
  destruct cells as [|v cells]; [cbn in Hlen; lia|].
  cbn [combine map fst]. rewrite IH by (cbn in Hlen; lia). reflexivity.
Qed.

Lemma read_required_missing (row : Series) (cell : value) :
  loc row COLNAME_PREFIX_STUDENTID = Ok cell ->
  missing_or_empty cell ->
  read_required row COLNAME_PREFIX_STUDENTID = Ok NONE_GIVEN.
Proof.
  intros Hloc Hcell. unfold read_required. rewrite Hloc. cbn [bind].
  destruct Hcell as [->|(s & -> & Hs)].
  - reflexivity.
  - cbn [str]. rewrite Hs. reflexivity.
Qed.

(** C6, as amended.  When the table has no Q4 column but has unique column
    names, a Q1 column and at least one response row, record building ends
    the run with exit status 1 after showing the message that names
    'Student ID' and the expected column 'Q4'.  When the column is there
    and the ID cell of a row is missing or empty, reading the ID does not
    raise and gives the placeholder None given, which is the ID of that
    row's record whenever the run finishes. *)
Theorem build_student_requests_student_id {pd : Pandas} (df : DataFrame) :
  (forall header_row label cells rest,
      has_repeat (columns df) = false ->
      rows df = header_row :: (label, cells) :: rest ->
      List.length (columns df) <= List.length cells ->
      In "Q1" (columns df) ->
      ~ In "Q4" (columns df) ->
      build_student_requests df = Raise (SystemExit 1 STUDENT_ID_MESSAGE))
  /\ (PyStr.contains "'Student ID'" STUDENT_ID_MESSAGE = true
      /\ PyStr.contains "'Q4'" STUDENT_ID_MESSAGE = true)
  /\ (forall row cell,
        loc row "Q4" = Ok cell -> missing_or_empty cell ->
        read_required row COLNAME_PREFIX_STUDENTID = Ok NONE_GIVEN)
  /\ (forall requests,
        build_student_requests df = Ok requests ->
        Forall2 (fun indexed_row req =>
                   forall cell,
                     loc (snd indexed_row) "Q4" = Ok cell ->
                     missing_or_empty cell -> ID req = NONE_GIVEN)
          (iterrows (delete_top_row df)) requests).
Proof.
  split; [|split; [split; reflexivity|split]].
  - intros header_row label cells rest Hrep Hrows Hlen Hq1 Hq4.
    unfold build_student_requests.
    destruct (locate_response_columns_blocks (delete_top_row df) Hrep)
      as (Q_cols & -> & _).
    cbn [bind]. unfold iterrows, delete_top_row at 1 2. cbn [rows columns].
    rewrite Hrows. cbn [skipn map mapM fst snd].
    set (row := combine (columns df) cells).
    assert (Hlabels : map fst row = columns df)
      by (apply combine_labels; exact Hlen).
    destruct (loc_present row "Q1") as [q1 Hq1v];
      [rewrite Hlabels; exact Hq1|].
    assert (Hscalars : read_scalars row (extract_top_row df)
                       = Raise (KeyError "Q4")).
    { unfold read_scalars, create_student_name. rewrite Hq1v. cbn [bind].
      unfold read_required at 1. unfold COLNAME_PREFIX_STUDENTID.
      rewrite loc_absent by (rewrite Hlabels; exact Hq4). reflexivity. }
    unfold build_row at 1. rewrite Hscalars. reflexivity.
  - apply read_required_missing.
  - intros requests H. unfold build_student_requests in H. bind_inv H.
    apply mapM_Forall2 in H. eapply Forall2_impl; [|exact H]. cbv beta.
    intros a b Hab cell Hloc Hcell.
    apply build_row_counts in Hab. destruct Hab as [_ Hid].
    rewrite (read_required_missing _ _ Hloc Hcell) in Hid.
    injection Hid as <-. reflexivity.
Qed.

(** C6, the claim as stated fails: without a Q4 column, a table that has
    only its header row builds the empty list and nothing aborts; and a
    table that lacks the Q1 column too stops on an uncaught KeyError for Q1,
    with no message about the Student ID; so it is under either pandas. *)
Lemma build_student_requests_no_diagnostic :
  ~ In "Q4" (columns Sample.no_id_header_only)
  /\ build_student_requests (pd := pandas_2) Sample.no_id_header_only = Ok []
  /\ build_student_requests (pd := pandas_3) Sample.no_id_header_only = Ok []
  /\ ~ In "Q4" (columns Sample.no_id_no_name)
  /\ build_student_requests (pd := pandas_2) Sample.no_id_no_name
     = Raise (KeyError "Q1")
  /\ build_student_requests (pd := pandas_3) Sample.no_id_no_name
     = Raise (KeyError "Q1").
Proof.
  repeat split; try (vm_compute; reflexivity);
    cbn; intuition discriminate.
Qed.

Lemma build_student_requests_student_id_witness :
  build_student_requests (pd := pandas_3) Sample.no_id
  = Raise (SystemExit 1 STUDENT_ID_MESSAGE)
  /\ exists requests,
       build_student_requests (pd := pandas_3) Sample.full = Ok requests
       /\ map ID requests = ["1234"; "None given"]
       /\ Forall2 (fun indexed_row req =>
                     forall cell,
                       loc (snd indexed_row) "Q4" = Ok cell ->
                       missing_or_empty cell -> ID req = NONE_GIVEN)
            (iterrows (delete_top_row Sample.full)) requests.
Proof.
  split.
  - apply (proj1 (build_student_requests_student_id (pd := pandas_3)
                    Sample.no_id)
             (0%Z, Sample.without_id Sample.scalar_header) 1%Z
             (Sample.without_id Sample.scalar_cells_ada) []).
    + reflexivity.
    + reflexivity.
    + cbn. lia.
    + left. reflexivity.
    + cbn. intuition discriminate.
  - eexists. split; [vm_compute; reflexivity|]. split; [reflexivity|].
    apply (proj2 (proj2 (proj2 (build_student_requests_student_id
                                  (pd := pandas_3) Sample.full)))).
    vm_compute. reflexivity.
Defined.

Lemma string_parse_division_nonempty (c : string * value) (cells : Series) :
  exists d, string_parse_division (c :: cells) = Ok d.
Proof.
  unfold string_parse_division, iloc, item, place.
  cbn [List.length Z.of_nat Z.leb Z.ltb Z.compare Z.to_nat nth_error bind snd].
  destruct (negb (truthy (snd c)) || isna (snd c))%bool; eexists; reflexivity.
Qed.

Lemma response_cell_at (cells : Series) (suffix : string) (position : Z) :
  Dict.get RESPONSE_COLUMN_INDICES suffix = Some position ->
  response_cell cells suffix = iloc cells position.
Proof.
  intros H. unfold response_cell, Dict.getitem. rewrite H. reflexivity.
Qed.

Lemma iloc_at (cells : Series) (n : nat) :
  iloc cells (Z.of_nat n)
  = match nth_error cells n with
    | Some p => Ok (snd p)
    | None => Raise IndexError
    end.
Proof.
  unfold iloc, item, place.
  destruct (Z.leb_spec 0 (Z.of_nat n)) as [_|H]; [|lia].
  destruct (Z.ltb_spec (Z.of_nat n) (Z.of_nat (List.length cells))) as [H|H].
  - rewrite Nat2Z.id. destruct (nth_error cells n); reflexivity.
  - assert (Hnone : nth_error cells n = None) by (apply nth_error_None; lia).
    rewrite Hnone. reflexivity.
Qed.

Ltac step_normalizers :=
  repeat (cbn [nth_error bind snd];
          first [ rewrite detect_return_unitcode_salvage
                | rewrite string_reformat_nan_text ]);
  cbn [nth_error bind snd].

(** A block of fewer than nine columns that passes the fill-in predicate
    stops the loop with an [IndexError]: one of the fixed positions 3, 5, 4,
    6 and 8 lies beyond its last cell. *)
Lemma block_step_partial_block (row : Series) (response_min : Z)
  (st : block_state) (block : string * list Z) (cells : Series) :
  iloc_list row (snd block) = Ok cells ->
  List.length cells < 9 ->
  fst (minimum_responses_provided (values cells) response_min) = true ->
  block_step row response_min st block = Raise IndexError.
Proof.
  intros Hcells Hlen Hfilled. unfold block_step.
  rewrite Hcells. cbn [bind]. rewrite Hfilled. cbn [negb].
  rewrite (response_cell_at cells COLNAME_SUFFIX_UNITASSESSMENT 3 eq_refl),
    (response_cell_at cells COLNAME_SUFFIX_RESUBMISSION 5 eq_refl),
    (response_cell_at cells COLNAME_SUFFIX_OTHERINFORMATION 4 eq_refl),
    (response_cell_at cells COLNAME_SUFFIX_RESUB_FIRST 6 eq_refl),
    (response_cell_at cells COLNAME_SUFFIX_SUBSTATUS 8 eq_refl).
  change 3%Z with (Z.of_nat 3). change 5%Z with (Z.of_nat 5).
  change 4%Z with (Z.of_nat 4). change 6%Z with (Z.of_nat 6).
  change 8%Z with (Z.of_nat 8). rewrite !iloc_at.
  destruct cells as [|c0 cells].
  { destruct (st_first_iteration st); reflexivity. }
  assert (Hdiv : exists d,
             (if st_first_iteration st
              then string_parse_division (c0 :: cells)
              else Ok (st_division st)) = Ok d).
  { destruct (st_first_iteration st);
      [apply string_parse_division_nonempty | eexists; reflexivity]. }
  destruct Hdiv as [d ->].
  do 8 (destruct cells as [|? cells]; [step_normalizers; reflexivity|]).
  cbn [List.length] in Hlen. lia.
Qed.

(** A block of nine columns or more that passes the predicate is read
    without failure. *)
Lemma block_step_full_block (row : Series) (response_min : Z)
  (st : block_state) (block : string * list Z) (cells : Series) :
  iloc_list row (snd block) = Ok cells ->
  9 <= List.length cells ->
  exists st', block_step row response_min st block = Ok st'.
Proof.
  intros Hcells Hlen. unfold block_step. rewrite Hcells. cbn [bind].
  destruct (fst (minimum_responses_provided (values cells) response_min));
    cbn [negb]; [|eexists; reflexivity].
  rewrite (response_cell_at cells COLNAME_SUFFIX_UNITASSESSMENT 3 eq_refl),
    (response_cell_at cells COLNAME_SUFFIX_RESUBMISSION 5 eq_refl),
    (response_cell_at cells COLNAME_SUFFIX_OTHERINFORMATION 4 eq_refl),
    (response_cell_at cells COLNAME_SUFFIX_RESUB_FIRST 6 eq_refl),
    (response_cell_at cells COLNAME_SUFFIX_SUBSTATUS 8 eq_refl).
  change 3%Z with (Z.of_nat 3). change 5%Z with (Z.of_nat 5).
  change 4%Z with (Z.of_nat 4). change 6%Z with (Z.of_nat 6).
  change 8%Z with (Z.of_nat 8). rewrite !iloc_at.
  do 9 (destruct cells as [|? cells]; [cbn [List.length] in Hlen; lia|]).
  match goal with
  | |- context [string_parse_division (?c :: ?l)] =>
      destruct (string_parse_division_nonempty c l) as [d Hd]
  end.
  assert (Hdiv : exists d',
             (if st_first_iteration st
              then string_parse_division
                     (p :: p0 :: p1 :: p2 :: p3 :: p4 :: p5 :: p6 :: p7 :: cells)
              else Ok (st_division st)) = Ok d').
  { destruct (st_first_iteration st); eexists; [exact Hd|reflexivity]. }
  destruct Hdiv as [d' ->].
  step_normalizers. eexists. reflexivity.
Qed.

(** C2.  On the sample table whose only block has the four columns 6_4,
    6_Q165, 6_1_TEXT and 6_Q163, the locator registers the block, the one
    response row passes the fill-in predicate on it, and record building
    ends in an [IndexError] no handler catches: the fixed position 5 lies
    beyond the fourth cell. *)
Theorem build_student_requests_partial_block_fails {pd : Pandas} :
  locate_response_columns (delete_top_row Sample.partial_block) 100
  = Ok [("6", [14%Z; 15%Z; 16%Z; 17%Z])]
  /\ forallb (fun r => block_filled (snd r) ("6", [14%Z; 15%Z; 16%Z; 17%Z]))
       (iterrows (delete_top_row Sample.partial_block)) = true
  /\ build_student_requests Sample.partial_block = Raise IndexError.
Proof. repeat split; vm_compute; reflexivity. Qed.

(** ** Runs on the sample tables *)

Lemma string_parse_header_spec_witness :
  header_readable (pd := pandas_3)
    (Sample.scalar_header
     ++ map VStr ["Division"; "Nursing - Programme"; "Nursing - Year";
                  "Unit and assessment"; "Other"; "Resubmission?";
                  "First attempt"; "Second attempt"; "Status"]) = true
  /\ string_parse_header (pd := pandas_3)
       (combine (columns Sample.full)
          (Sample.scalar_cells_ada
           ++ [VStr "Nursing"; VStr "BNurs"; VInt 3; VStr "NURS34555: essay";
               VNaN; VStr "No"; VNaN; VNaN; VStr "Submitted"]))
       (extract_top_row Sample.full) "Programme" = Ok "BNurs".
Proof.
  split; [reflexivity|].
  exact (proj1 (string_parse_header_spec (pd := pandas_3)
                  (combine (columns Sample.full)
                     (Sample.scalar_cells_ada
                      ++ [VStr "Nursing"; VStr "BNurs"; VInt 3;
                          VStr "NURS34555: essay"; VNaN; VStr "No"; VNaN;
                          VNaN; VStr "Submitted"]))
                  (extract_top_row Sample.full) 0%Z
                  (Sample.scalar_header
                   ++ map VStr ["Division"; "Nursing - Programme";
                                "Nursing - Year"; "Unit and assessment";
                                "Other"; "Resubmission?"; "First attempt";
                                "Second attempt"; "Status"])
                  [] "Programme" eq_refl eq_refl eq_refl)).
Defined.

(** C7, the claim as stated fails: under the two header cells that hold the
    marker Programme the row has the empty string and then BNurs; neither is
    missing, the first non-empty value is BNurs, yet [string_parse_header]
    returns the fallback text for the empty string, under either pandas. *)
Lemma string_parse_header_empty_match :
  marked_cells "Programme" Sample.two_programmes_cells
    Sample.empty_first_programme = [VStr ""; VStr "BNurs"]
  /\ first_non_empty [VStr ""; VStr "BNurs"] = Some "BNurs"
  /\ string_parse_header (pd := pandas_2) Sample.empty_first_programme
       Sample.two_programmes "Programme" = Ok "None given"
  /\ string_parse_header (pd := pandas_3) Sample.empty_first_programme
       Sample.two_programmes "Programme" = Ok "None given".
Proof. repeat split; vm_compute; reflexivity. Qed.


Lemma drop_row_by_string_spec_witness :
  drop_row_by_string Sample.junk_first "ImportId" = Ok Sample.junk_first
  /\ exists pre cells post,
       rows Sample.junk_second = pre ++ (1%Z, cells) :: post
       /\ List.length pre = 1
       /\ row_found "ImportId"
            (values (combine (columns Sample.junk_second) cells)) = true
       /\ (forall r, In r post ->
             row_found "ImportId"
               (values (combine (columns Sample.junk_second) (snd r))) = false)
       /\ drop_row_by_string Sample.junk_second "ImportId"
          = Ok (mkDataFrame (columns Sample.junk_second)
                  (relabel (map snd pre ++ map snd post))).
Proof.
  split.
  - apply (proj1 (drop_row_by_string_spec Sample.junk_first "ImportId")).
    intros r [<-|[<-|[]]] Hm; [reflexivity|discriminate Hm].
  - exact (proj2 (proj2 (drop_row_by_string_spec Sample.junk_second
                           "ImportId")) 1%Z eq_refl eq_refl eq_refl).
Defined.

(** * Further properties of the engine *)

(** ** Unit codes are short *)

Lemma slice_to_length (n : nat) (s : string) :
  String.length (PyStr.slice_to n s) = Nat.min n (String.length s).
Proof.
  revert s. induction n as [|n IH]; intros [|c s]; cbn; auto.
Qed.

Lemma slice_to_prefix (n : nat) (s : string) :
  String.prefix (PyStr.slice_to n s) s = true.
Proof.
  revert s. induction n as [|n IH]; intros [|c s]; cbn; auto.
  destruct (ascii_dec c c); [apply IH|contradiction].
Qed.

(** X1.  [detect_return_unitcode] never raises; what it returns is a prefix
    of the trimmed input and has min(9, length of the trimmed input)
    characters, so never more than nine. *)
Theorem detect_return_unitcode_bounds (s : string) :
  exists code,
    detect_return_unitcode s = Ok code
    /\ String.length code = Nat.min 9 (String.length (PyStr.strip s))
    /\ String.length code <= 9
    /\ PyStr.startswith (PyStr.strip s) code = true.
Proof.
  exists (PyStr.slice_to 9 (PyStr.strip s)).
  split; [apply detect_return_unitcode_salvage|].
  rewrite slice_to_length. split; [reflexivity|]. split; [lia|].
  apply slice_to_prefix.
Qed.

(** ** Edges of the fill-in predicate *)

(** X6.  A block all of whose cells are filled passes the predicate whatever
    the minimum, the block without any cell included; a block with at least
    one cell and none filled fails for every positive minimum; and a block
    that passes for one minimum passes for every smaller one. *)
Theorem minimum_responses_provided_edges (cells : list value) (minimum : Z) :
  (count_provided cells = List.length cells ->
   fst (minimum_responses_provided cells minimum) = true)
  /\ (count_provided cells = 0 -> 0 < List.length cells -> (0 < minimum)%Z ->
      fst (minimum_responses_provided cells minimum) = false)
  /\ (forall lower, (lower <= minimum)%Z ->
        fst (minimum_responses_provided cells minimum) = true ->
        fst (minimum_responses_provided cells lower) = true).
Proof.
  rewrite !minimum_responses_provided_answer. repeat split.
  - intros Hall. rewrite Hall. apply Z.leb_le. lia.
  - intros Hnone Hlen Hmin. rewrite Hnone. apply Z.leb_gt. lia.
  - intros lower Hle Hpass. rewrite minimum_responses_provided_answer.
    apply Z.leb_le in Hpass. apply Z.leb_le. lia.
Qed.

Lemma minimum_responses_provided_edges_witness :
  fst (minimum_responses_provided [] 4) = true
  /\ fst (minimum_responses_provided [VNaN; VNaN] 1) = false
  /\ fst (minimum_responses_provided [VStr "a"; VStr "b"; VNaN] 1) = true.
Proof.
  split; [|split].
  - apply (proj1 (minimum_responses_provided_edges [] 4)). reflexivity.
  - apply (proj1 (proj2 (minimum_responses_provided_edges [VNaN; VNaN] 1)));
      [reflexivity | cbn; lia | lia].
  - apply (proj2 (proj2 (minimum_responses_provided_edges
                           [VStr "a"; VStr "b"; VNaN] 2)) 1%Z);
      [lia | reflexivity].
Defined.

(** ** Junk-row removal never fails *)

Lemma contains_flags_non_string (string : String.string) (cells : list value) :
  existsb (fun cell => match cell with VStr _ => false | _ => true end) cells
  = true ->
  exists e, contains_flags string cells = Raise e.
Proof.
  induction cells as [|c cells IH]; intros H; [discriminate H|].
  cbn [existsb] in H. cbn [contains_flags].
  destruct c as [| |s|z]; try (eexists; reflexivity).
  cbn [orb] in H. destruct (IH H) as [e He]. cbn [py_in bind]. rewrite He.
  exists e. reflexivity.
Qed.

Lemma row_containing_label (df : DataFrame) (string : String.string) (i : Z) :
  row_containing df string = Some i ->
  existsb (fun r => Z.eqb (fst r) i) (rows df) = true.
Proof.
  unfold row_containing. intros H.
  destruct (row_containing_loop string (iterrows df) None)
    as [[Heq _] | (pre & r & post & Hl & _ & _ & Heq)];
    rewrite Heq in H; [discriminate H|].
  injection H as <-. apply existsb_exists.
  assert (Hin : In r (iterrows df))
    by (rewrite Hl; apply in_or_app; right; left; reflexivity).
  unfold iterrows in Hin. apply in_map_iff in Hin.
  destruct Hin as (x & <- & Hx). exists x. split; [exact Hx|].
  cbn [fst]. apply Z.eqb_refl.
Qed.

(** X9.  A row with a cell that is not a string (an empty cell, a number) is
    never found by [row_containing], marker or not: the [TypeError] of the
    membership test is swallowed.  And [drop_row_by_string] never raises: it
    returns the table itself, or the table with the same columns and the
    rows under the found label, which is not 0, removed. *)
Theorem drop_row_by_string_total (df : DataFrame) (string : String.string) :
  (forall cells,
      existsb (fun cell => match cell with VStr _ => false | _ => true end)
        cells = true ->
      row_found string cells = false)
  /\ exists df',
       drop_row_by_string df string = Ok df'
       /\ columns df' = columns df
       /\ (df' = df
           \/ exists i,
                i <> 0%Z
                /\ row_containing df string = Some i
                /\ map snd (rows df')
                   = map snd (filter (fun r => negb (Z.eqb (fst r) i)) (rows df))
                /\ List.length (rows df') < List.length (rows df)).
Proof.
  split.
  - intros cells H. unfold row_found.
    destruct (contains_flags_non_string string cells H) as [e ->].
    reflexivity.
  - unfold drop_row_by_string.
    destruct (row_containing df string) as [i|] eqn:Hfound;
      [|exists df; auto].
    assert (Hlabel := row_containing_label df string i Hfound).
    assert (Hpos : i <> 0%Z ->
      exists df',
        (dropped <- drop df i ;; Ok (reset_index dropped)) = Ok df'
        /\ columns df' = columns df
        /\ (df' = df
            \/ exists i0,
                 i0 <> 0%Z /\ Some i = Some i0
                 /\ map snd (rows df')
                    = map snd (filter (fun r => negb (Z.eqb (fst r) i0)) (rows df))
                 /\ List.length (rows df') < List.length (rows df))).
    { intros Hne. unfold drop. rewrite Hlabel. cbn [bind].
      eexists. split; [reflexivity|]. split; [reflexivity|].
      right. exists i. split; [exact Hne|]. split; [reflexivity|].
      unfold reset_index. cbn [rows columns].
      set (kept := filter (fun r => negb (Z.eqb (fst r) i)) (rows df)).
      assert (Hlen : List.length
                       (combine (range 0 (Z.of_nat (List.length kept)))
                          (map snd kept)) = List.length kept).
      { rewrite length_combine. unfold range.
        rewrite !length_map, length_seq. lia. }
      split.
      - clear Hlen. unfold range.
        replace (Z.of_nat (List.length kept) - 0)%Z
          with (Z.of_nat (List.length (map snd kept)))
          by (rewrite length_map; lia).
        rewrite Nat2Z.id.
        generalize (map snd kept) as data. generalize 0 as start.
        intros start data. revert start.
        induction data as [|x data IH]; intros start; [reflexivity|].
        cbn [List.length seq map combine snd]. f_equal. apply IH.
      - rewrite Hlen. subst kept.
        clear -Hlabel. induction (rows df) as [|x l IH]; [discriminate Hlabel|].
        cbn [existsb] in Hlabel. cbn [filter List.length].
        destruct (Z.eqb (fst x) i) eqn:Hx; cbn [negb].
        + pose proof (filter_length_le (fun r => negb (Z.eqb (fst r) i)) l).
          lia.
        + cbn [orb] in Hlabel. cbn [List.length]. specialize (IH Hlabel). lia. }
    destruct i as [|p|p]; [exists df; auto | apply Hpos; lia | apply Hpos; lia].
Qed.

Lemma drop_row_by_string_total_witness :
  row_found "ImportId" [VStr "{ImportId:QID1}"; VNaN] = false.
Proof.
  apply (proj1 (drop_row_by_string_total Sample.junk_second "ImportId")).
  reflexivity.
Defined.

(** ** The located blocks, exactly *)

Lemma response_loop_exact (step : Dict.t (list Z) -> string -> result (Dict.t (list Z)))
  (g : string -> list Z) (ks : list string) :
  forall d,
    (forall responses k, In k ks ->
       step responses k
       = Ok (match g k with [] => responses | _ => Dict.set responses k (g k) end)) ->
    has_repeat ks = false ->
    (forall k, In k ks -> existsb (String.eqb k) (Dict.keys d) = false) ->
    foldM step ks d
    = Ok (d ++ flat_map (fun k => match g k with [] => [] | l => [(k, l)] end) ks).
Proof.
  induction ks as [|k ks IH]; intros d Hstep Hrep Hfresh.
  - cbn. rewrite app_nil_r. reflexivity.
  - apply has_repeat_cons in Hrep. destruct Hrep as [Hk Hks].
    cbn [foldM flat_map]. rewrite Hstep by (left; reflexivity). cbn [bind].
    assert (Hstep' : forall responses k0, In k0 ks ->
              step responses k0
              = Ok (match g k0 with
                    | [] => responses
                    | _ => Dict.set responses k0 (g k0)
                    end))
      by (intros responses k0 Hk0; apply Hstep; right; exact Hk0).
    destruct (g k) as [|i l] eqn:Hg.
    + cbn [app]. apply IH; auto.
      intros k0 Hk0. apply Hfresh. right. exact Hk0.
    + rewrite dict_set_fresh by (apply Hfresh; left; reflexivity).
      rewrite IH; auto.
      * rewrite <- app_assoc. reflexivity.
      * intros k0 Hk0. unfold Dict.keys. rewrite map_app, existsb_app.
        fold (Dict.keys d). rewrite (Hfresh k0 (or_intror Hk0)).
        cbn [map fst existsb orb].
        destruct (String.eqb_spec k0 k) as [E|E]; [|reflexivity].
        elim (not_existsb_eqb k k0 ks Hk Hk0). symmetry. exact E.
Qed.

Lemma unique_response_step_blocks (cols : list string) (numbers : list string)
  (responses : Dict.t (list Z)) (k : string) :
  has_repeat cols = false ->
  In k numbers ->
  let targets := filter (fun name => startswith_any name numbers) cols in
  unique_response_step
    (combine targets (map (fun x => position_of cols x 0%Z) targets))
    responses k
  = Ok (match block_positions k cols with
        | [] => responses
        | _ => Dict.set responses k (block_positions k cols)
        end).
Proof.
  intros Hrep Hk targets. unfold unique_response_step.
  rewrite entries_keys.
  rewrite entries_getitems by (intros c Hc; apply filter_In in Hc; tauto).
  cbn [bind]. subst targets.
  rewrite filter_filter_implied.
  2:{ intros x Hx. unfold startswith_any. apply existsb_exists.
      exists k. split; [exact Hk|].
      unfold PyStr.startswith in *. apply (prefix_app_l _ _ _ Hx). }
  rewrite positions_of_filter by exact Hrep.
  fold (block_positions k cols).
  destruct (block_positions k cols); reflexivity.
Qed.

Lemma flat_map_of_map {A B C : Type} (f : B -> list C) (h : A -> B)
  (l : list A) :
  flat_map f (map h l) = flat_map (fun a => f (h a)) l.
Proof.
  induction l as [|a l IH]; [reflexivity|]. cbn [map flat_map].
  rewrite IH. reflexivity.
Qed.

Lemma block_numbers_distinct :
  has_repeat (map PyStr.str_int (range 1 100)) = false.
Proof. vm_compute. reflexivity. Qed.

(** X8.  On a frame without a repeated column name, the dictionary that
    block discovery returns lists the blocks that have a column in ascending
    order of their key from 1 to 99, each key once, each with the positions
    of its columns; it depends on the column names alone, not on the rows. *)
Theorem locate_response_columns_exact (df : DataFrame) :
  has_repeat (columns df) = false ->
  locate_response_columns df 100
  = Ok (flat_map (block_entry (columns df)) (range 1 100)).
Proof.
  intros Hrep. unfold locate_response_columns, get_indexer. rewrite Hrep.
  cbn [bind].
  set (numbers := map PyStr.str_int (range 1 100)).
  set (targets := filter (fun name => startswith_any name numbers) (columns df)).
  set (f := fun x => position_of (columns df) x 0%Z).
  assert (Hreptargets : has_repeat targets = false)
    by (apply has_repeat_filter; exact Hrep).
  rewrite (columns_dict_fresh f targets [] Hreptargets (fun _ _ => eq_refl)).
  cbn [app]. unfold unique_response_locations.
  rewrite (response_loop_exact _ (fun k => block_positions k (columns df))).
  - cbn [app]. subst numbers. rewrite flat_map_of_map. reflexivity.
  - intros responses k Hk.
    apply (unique_response_step_blocks (columns df) numbers responses k Hrep Hk).
  - apply block_numbers_distinct.
  - reflexivity.
Qed.

Lemma locate_response_columns_exact_witness :
  locate_response_columns
    (mkDataFrame ["Q1"; "10_4"; "2_4"; "1_4"; "2_Q163"; "1abc"] []) 100
  = Ok [("1", [3%Z]); ("2", [2%Z; 4%Z]); ("10", [1%Z])].
Proof.
  exact (locate_response_columns_exact
           (mkDataFrame ["Q1"; "10_4"; "2_4"; "1_4"; "2_Q163"; "1abc"] [])
           eq_refl).
Defined.

Lemma prefix_both (a b s : string) :
  String.prefix a s = true -> String.prefix b s = true ->
  String.prefix a b = true \/ String.prefix b a = true.
Proof.
  revert b s. induction a as [|c a IH]; intros b s Ha Hb.
  - left. destruct b; reflexivity.
  - destruct b as [|d b]; [right; reflexivity|].
    destruct s as [|e s]; [discriminate Ha|].
    cbn [String.prefix] in *.
    destruct (ascii_dec c e) as [->|]; [|discriminate Ha].
    destruct (ascii_dec d e) as [->|]; [|discriminate Hb].
    destruct (ascii_dec e e); [|contradiction].
    apply (IH b s Ha Hb).
Qed.

Lemma block_prefixes_apart :
  forallb (fun k1 =>
             forallb (fun k2 =>
                        Z.eqb k1 k2
                        || negb (String.prefix (PyStr.str_int k1 ++ "_")
                                   (PyStr.str_int k2 ++ "_")))%bool
               (range 1 100))
    (range 1 100) = true.
Proof. vm_compute. reflexivity. Qed.

Lemma In_block_entries (names : list string) (key : string) (l : list Z) :
  In (key, l) (flat_map (block_entry names) (range 1 100)) ->
  exists k, (1 <= k < 100)%Z /\ key = PyStr.str_int k
            /\ l = block_positions key names.
Proof.
  intros H. apply in_flat_map in H. destruct H as (k & Hk & Hin).
  apply In_range in Hk. exists k. split; [exact Hk|].
  unfold block_entry in Hin.
  destruct (block_positions (PyStr.str_int k) names) eqn:Hb; [destruct Hin|].
  destruct Hin as [Heq|[]]. injection Heq as <- <-. rewrite Hb. auto.
Qed.

(** X7.  On a frame without a repeated column name, every position that
    block discovery returns is a position of the column list, and no column
    belongs to two blocks: a position listed under one key is listed under
    no other. *)
Theorem locate_response_columns_disjoint (df : DataFrame) :
  has_repeat (columns df) = false ->
  exists locations,
    locate_response_columns df 100 = Ok locations
    /\ (forall key l i, In (key, l) locations -> In i l ->
          (0 <= i < Z.of_nat (List.length (columns df)))%Z)
    /\ (forall key1 l1 key2 l2 i,
          In (key1, l1) locations -> In (key2, l2) locations ->
          In i l1 -> In i l2 -> key1 = key2).
Proof.
  intros Hrep. eexists. split; [apply locate_response_columns_exact; exact Hrep|].
  split.
  - intros key l i Hin Hi. apply In_block_entries in Hin.
    destruct Hin as (k & _ & _ & ->).
    unfold block_positions in Hi. apply positions_from_In in Hi.
    destruct Hi as (H0 & name & Hn & _). rewrite Z.sub_0_r in Hn.
    assert (Hlt : Z.to_nat i < List.length (columns df))
      by (apply nth_error_Some; rewrite Hn; discriminate).
    lia.
  - intros key1 l1 key2 l2 i H1 H2 Hi1 Hi2.
    apply In_block_entries in H1, H2.
    destruct H1 as (k1 & Hk1 & -> & ->). destruct H2 as (k2 & Hk2 & -> & ->).
    unfold block_positions in Hi1, Hi2.
    apply positions_from_In in Hi1, Hi2.
    destruct Hi1 as (_ & n1 & Hn1 & Hp1). destruct Hi2 as (_ & n2 & Hn2 & Hp2).
    rewrite Hn1 in Hn2. injection Hn2 as <-.
    unfold PyStr.startswith in Hp1, Hp2.
    pose proof block_prefixes_apart as Hall.
    rewrite forallb_forall in Hall.
    destruct (Z.eq_dec k1 k2) as [->|Hne]; [reflexivity|exfalso].
    destruct (prefix_both _ _ _ Hp1 Hp2) as [H|H].
    + specialize (Hall k1 (proj1 (In_range 1 100 k1) Hk1)).
      rewrite forallb_forall in Hall.
      specialize (Hall k2 (proj1 (In_range 1 100 k2) Hk2)).
      rewrite H in Hall. cbn [negb] in Hall. rewrite orb_false_r in Hall.
      apply Z.eqb_eq in Hall. contradiction.
    + specialize (Hall k2 (proj1 (In_range 1 100 k2) Hk2)).
      rewrite forallb_forall in Hall.
      specialize (Hall k1 (proj1 (In_range 1 100 k1) Hk1)).
      rewrite H in Hall. cbn [negb] in Hall. rewrite orb_false_r in Hall.
      apply Z.eqb_eq in Hall. symmetry in Hall. contradiction.
Qed.

Lemma locate_response_columns_disjoint_witness :
  exists locations,
    locate_response_columns Sample.full 100 = Ok locations
    /\ (forall key l i, In (key, l) locations -> In i l ->
          (0 <= i < Z.of_nat (List.length (columns Sample.full)))%Z)
    /\ (forall key1 l1 key2 l2 i,
          In (key1, l1) locations -> In (key2, l2) locations ->
          In i l1 -> In i l2 -> key1 = key2).
Proof. exact (locate_response_columns_disjoint Sample.full eq_refl). Defined.

(** ** What the block loop appends *)

Lemma string_parse_division_text (c : string * value) (cells : Series) :
  string_parse_division (c :: cells) = Ok (division_text (c :: cells)).
Proof.
  unfold string_parse_division, iloc, item, place, division_text.
  cbn [List.length Z.of_nat Z.leb Z.ltb Z.compare Z.to_nat nth_error bind snd].
  destruct (negb (truthy (snd c)) || isna (snd c))%bool; reflexivity.
Qed.

Lemma block_step_entry (row : Series) (response_min : Z) (st : block_state)
  (block : string * list Z) (cells : Series) :
  iloc_list row (snd block) = Ok cells ->
  9 <= List.length cells ->
  fst (minimum_responses_provided (values cells) response_min) = true ->
  block_step row response_min st block
  = Ok (mkBlockState
          (append_assessment (st_req st)
             (PyStr.slice_to 9 (PyStr.strip (cell_text cells 3)))
             (text_or NONE_GIVEN (cell_text cells 3))
             (text_or NONE_GIVEN (cell_text cells 5))
             (text_or "-" (cell_text cells 4))
             (text_or NONE_GIVEN (cell_text cells 6))
             (text_or NONE_GIVEN (cell_text cells 8)))
          (if st_first_iteration st then division_text cells
           else st_division st)
          false).
Proof.
  intros Hcells Hlen Hfilled. unfold block_step. rewrite Hcells. cbn [bind].
  rewrite Hfilled. cbn [negb].
  rewrite (response_cell_at cells COLNAME_SUFFIX_UNITASSESSMENT 3 eq_refl),
    (response_cell_at cells COLNAME_SUFFIX_RESUBMISSION 5 eq_refl),
    (response_cell_at cells COLNAME_SUFFIX_OTHERINFORMATION 4 eq_refl),
    (response_cell_at cells COLNAME_SUFFIX_RESUB_FIRST 6 eq_refl),
    (response_cell_at cells COLNAME_SUFFIX_SUBSTATUS 8 eq_refl).
  change 3%Z with (Z.of_nat 3). change 5%Z with (Z.of_nat 5).
  change 4%Z with (Z.of_nat 4). change 6%Z with (Z.of_nat 6).
  change 8%Z with (Z.of_nat 8). rewrite !iloc_at.
  unfold cell_text, text_or.
  do 9 (destruct cells as [|? cells]; [cbn [List.length] in Hlen; lia|]).
  rewrite string_parse_division_text.
  assert (Hdiv :
    (if st_first_iteration st
     then Ok (division_text
                (p :: p0 :: p1 :: p2 :: p3 :: p4 :: p5 :: p6 :: p7 :: cells))
     else Ok (st_division st))
    = Ok (if st_first_iteration st
          then division_text
                 (p :: p0 :: p1 :: p2 :: p3 :: p4 :: p5 :: p6 :: p7 :: cells)
          else st_division st))
    by (destruct (st_first_iteration st); reflexivity).
  rewrite Hdiv. step_normalizers. reflexivity.
Qed.

(** The state after the loop over the blocks, from the state before it. *)
Lemma block_loop_entries (row : Series) (Q_cols : Dict.t (list Z)) :
  forall st st',
    foldM (block_step row MINIMUM_REQUIRED_RESPONSES) Q_cols st = Ok st' ->
    let filled := filter (block_filled row) Q_cols in
    asm_codes (st_req st') = asm_codes (st_req st) ++ map (block_code row) filled
    /\ asm_names (st_req st')
       = asm_names (st_req st) ++ map (block_field NONE_GIVEN 3 row) filled
    /\ other_asm (st_req st')
       = other_asm (st_req st) ++ map (block_field "-" 4 row) filled
    /\ asm_is_resub (st_req st')
       = asm_is_resub (st_req st) ++ map (block_field NONE_GIVEN 5 row) filled
    /\ asm_resubdate (st_req st')
       = asm_resubdate (st_req st) ++ map (block_field NONE_GIVEN 6 row) filled
    /\ asm_resubstatus (st_req st')
       = asm_resubstatus (st_req st) ++ map (block_field NONE_GIVEN 8 row) filled
    /\ st_division st'
       = (if st_first_iteration st
          then match filled with
               | [] => st_division st
               | block :: _ => division_text (block_cells row block)
               end
          else st_division st)
    /\ Forall (fun block => 9 <= List.length (block_cells row block)) filled.
Proof.
  induction Q_cols as [|block Q_cols IH]; intros st st' H.
  - injection H as <-. cbn [filter map]. rewrite !app_nil_r.
    repeat split; try reflexivity; [destruct (st_first_iteration st); reflexivity
                                   | constructor].
  - cbn [foldM] in H. bind_inv H. rename v into st1.
    specialize (IH _ _ H). cbv zeta in IH.
    destruct IH as (I1 & I2 & I3 & I4 & I5 & I6 & I7 & I8).
    cbv zeta. cbn [filter].
    destruct (iloc_list row (snd block)) as [cells|e] eqn:Hcells.
    2:{ unfold block_step in E. rewrite Hcells in E. discriminate E. }
    assert (Hbf : block_filled row block
                  = fst (minimum_responses_provided (values cells)
                           MINIMUM_REQUIRED_RESPONSES))
      by (unfold block_filled; rewrite Hcells; reflexivity).
    rewrite Hbf. clear Hbf.
    destruct (fst (minimum_responses_provided (values cells)
                     MINIMUM_REQUIRED_RESPONSES)) eqn:Hpass.
    + destruct (Nat.lt_ge_cases (List.length cells) 9) as [Hshort|Hlong].
      { rewrite (block_step_partial_block _ _ _ _ _ Hcells Hshort Hpass) in E.
        discriminate E. }
      rewrite (block_step_entry _ _ _ _ _ Hcells Hlong Hpass) in E.
      injection E as <-.
      cbn [st_req st_division st_first_iteration] in I1, I2, I3, I4, I5, I6, I7.
      unfold append_assessment in I1, I2, I3, I4, I5, I6.
      cbn [asm_codes asm_names other_asm asm_is_resub asm_resubdate
           asm_resubstatus] in I1, I2, I3, I4, I5, I6.
      rewrite <- app_assoc in I1, I2, I3, I4, I5, I6.
      assert (Hbc : block_cells row block = cells)
        by (unfold block_cells; rewrite Hcells; reflexivity).
      cbn [map]. unfold block_code at 1. unfold block_field at 1 3 5 7 9.
      rewrite Hbc.
      repeat split; try assumption;
        try (rewrite I7; destruct (st_first_iteration st); reflexivity);
        try (constructor; [rewrite Hbc; exact Hlong|exact I8]).
    + unfold block_step in E. rewrite Hcells in E. cbn [bind] in E.
      rewrite Hpass in E. cbn [negb] in E. injection E as <-.
      repeat split; assumption.
Qed.

Lemma read_scalars_fresh_lists {pd : Pandas} (row : Series) (header : DataFrame)
  (req : StudentRequest) :
  read_scalars row header = Ok req ->
  asm_codes req = [] /\ asm_names req = [] /\ other_asm req = []
  /\ asm_is_resub req = [] /\ asm_resubdate req = []
  /\ asm_resubstatus req = [].
Proof.
  intros H. unfold read_scalars in H. repeat bind_inv H. injection H as <-.
  repeat split.
Qed.

(** The record of a row, as far as the blocks decide it. *)
Lemma build_row_entries {pd : Pandas} (header : DataFrame)
  (Q_cols : Dict.t (list Z))
  (row : Series) (req : StudentRequest) :
  build_row header Q_cols MINIMUM_REQUIRED_RESPONSES row = Ok req ->
  let filled := filter (block_filled row) Q_cols in
  asm_codes req = map (block_code row) filled
  /\ asm_names req = map (block_field NONE_GIVEN 3 row) filled
  /\ other_asm req = map (block_field "-" 4 row) filled
  /\ asm_is_resub req = map (block_field NONE_GIVEN 5 row) filled
  /\ asm_resubdate req = map (block_field NONE_GIVEN 6 row) filled
  /\ asm_resubstatus req = map (block_field NONE_GIVEN 8 row) filled
  /\ division req
     = match filled with
       | [] => ""
       | block :: _ => division_text (block_cells row block)
       end
  /\ Forall (fun block => 9 <= List.length (block_cells row block)) filled.
Proof.
  intros H. unfold build_row in H. bind_inv H. bind_inv H. injection H as <-.
  apply try_read_scalars in E. apply read_scalars_fresh_lists in E.
  destruct E as (F1 & F2 & F3 & F4 & F5 & F6).
  apply block_loop_entries in E0. cbv zeta in E0.
  cbn [st_req st_division st_first_iteration] in E0.
  rewrite F1, F2, F3, F4, F5, F6 in E0. cbn [app] in E0.
  destruct E0 as (I1 & I2 & I3 & I4 & I5 & I6 & I7 & I8).
  cbv zeta. unfold set_division.
  cbn [asm_codes asm_names other_asm asm_is_resub asm_resubdate
       asm_resubstatus division].
  repeat split; assumption.
Qed.

Lemma build_rows {pd : Pandas} (df : DataFrame)
  (requests : list StudentRequest) :
  build_student_requests df = Ok requests ->
  exists Q_cols,
    locate_response_columns (delete_top_row df) 100 = Ok Q_cols
    /\ Forall2 (fun indexed_row req =>
                  build_row (extract_top_row df) Q_cols
                    MINIMUM_REQUIRED_RESPONSES (snd indexed_row) = Ok req)
         (iterrows (delete_top_row df)) requests.
Proof.
  intros H. unfold build_student_requests in H. bind_inv H.
  exists v. split; [exact E|]. apply mapM_Forall2 in H. exact H.
Qed.

(** X5.  When record building finishes, the six assessment lists of each
    record are, entry by entry and in the order of the located blocks, what
    the filled blocks of the row hold at fixed positions: the unit code is
    the first nine characters of the trimmed text at position 3, the name the
    text at position 3, the other information the text at position 4 (with
    fallback -), the resubmission flag, date and status the texts at
    positions 5, 6 and 8 (fallback None given); and every filled block has at
    least nine cells. *)
Theorem build_student_requests_entries {pd : Pandas} (df : DataFrame)
  (requests : list StudentRequest) :
  build_student_requests df = Ok requests ->
  exists Q_cols,
    locate_response_columns (delete_top_row df) 100 = Ok Q_cols
    /\ Forall2
         (fun indexed_row req =>
            let row := snd indexed_row in
            let filled := filter (block_filled row) Q_cols in
            asm_codes req = map (block_code row) filled
            /\ asm_names req = map (block_field NONE_GIVEN 3 row) filled
            /\ other_asm req = map (block_field "-" 4 row) filled
            /\ asm_is_resub req = map (block_field NONE_GIVEN 5 row) filled
            /\ asm_resubdate req = map (block_field NONE_GIVEN 6 row) filled
            /\ asm_resubstatus req = map (block_field NONE_GIVEN 8 row) filled
            /\ Forall (fun block => 9 <= List.length (block_cells row block))
                 filled)
         (iterrows (delete_top_row df)) requests.
Proof.
  intros H. destruct (build_rows df requests H) as (Q_cols & Hloc & Hrows).
  exists Q_cols. split; [exact Hloc|].
  eapply Forall2_impl; [|exact Hrows]. cbv beta zeta.
  intros a b Hab. apply build_row_entries in Hab. cbv zeta in Hab. tauto.
Qed.

Lemma build_student_requests_entries_witness :
  exists requests Q_cols,
    build_student_requests (pd := pandas_3) Sample.full = Ok requests
    /\ locate_response_columns (delete_top_row Sample.full) 100 = Ok Q_cols
    /\ Forall2
         (fun indexed_row req =>
            let row := snd indexed_row in
            let filled := filter (block_filled row) Q_cols in
            asm_codes req = map (block_code row) filled
            /\ asm_names req = map (block_field NONE_GIVEN 3 row) filled
            /\ other_asm req = map (block_field "-" 4 row) filled
            /\ asm_is_resub req = map (block_field NONE_GIVEN 5 row) filled
            /\ asm_resubdate req = map (block_field NONE_GIVEN 6 row) filled
            /\ asm_resubstatus req = map (block_field NONE_GIVEN 8 row) filled
            /\ Forall (fun block => 9 <= List.length (block_cells row block))
                 filled)
         (iterrows (delete_top_row Sample.full)) requests.
Proof.
  destruct (build_student_requests (pd := pandas_3) Sample.full)
    as [requests|e] eqn:Hrun;
    [|vm_compute in Hrun; discriminate Hrun].
  destruct (build_student_requests_entries (pd := pandas_3) Sample.full
              requests Hrun)
    as (Q_cols & Hloc & Hall).
  exists requests, Q_cols. auto.
Defined.

(** X4.  When record building finishes, the division of a record is read
    from the first cell of the first filled block of its row, in the order of
    the located blocks (None provided when that cell is empty, zero or
    missing); a record without a filled block has the empty string as its
    division, not a placeholder. *)
Theorem build_student_requests_division {pd : Pandas} (df : DataFrame)
  (requests : list StudentRequest) :
  build_student_requests df = Ok requests ->
  exists Q_cols,
    locate_response_columns (delete_top_row df) 100 = Ok Q_cols
    /\ Forall2
         (fun indexed_row req =>
            division req
            = match filter (block_filled (snd indexed_row)) Q_cols with
              | [] => ""
              | block :: _ => division_text (block_cells (snd indexed_row) block)
              end)
         (iterrows (delete_top_row df)) requests.
Proof.
  intros H. destruct (build_rows df requests H) as (Q_cols & Hloc & Hrows).
  exists Q_cols. split; [exact Hloc|].
  eapply Forall2_impl; [|exact Hrows]. cbv beta.
  intros a b Hab. apply build_row_entries in Hab. cbv zeta in Hab. tauto.
Qed.

Lemma build_student_requests_division_witness :
  exists requests Q_cols,
    build_student_requests (pd := pandas_3) Sample.full = Ok requests
    /\ map division requests = ["Nursing"; ""]
    /\ locate_response_columns (delete_top_row Sample.full) 100 = Ok Q_cols
    /\ Forall2
         (fun indexed_row req =>
            division req
            = match filter (block_filled (snd indexed_row)) Q_cols with
              | [] => ""
              | block :: _ => division_text (block_cells (snd indexed_row) block)
              end)
         (iterrows (delete_top_row Sample.full)) requests.
Proof.
  destruct (build_student_requests (pd := pandas_3) Sample.full)
    as [requests|e] eqn:Hrun;
    [|vm_compute in Hrun; discriminate Hrun].
  destruct (build_student_requests_division (pd := pandas_3) Sample.full
              requests Hrun)
    as (Q_cols & Hloc & Hall).
  exists requests, Q_cols. split; [reflexivity|].
  split; [|split; assumption].
  vm_compute in Hrun. injection Hrun as <-. reflexivity.
Defined.

(** X10.  When record building finishes and the unit and assessment cell
    (position 3) of a filled block is an empty spreadsheet cell, the record
    carries the text nan as the unit code of that entry and None given as
    its assessment name: the unit code is cut from the cell's text without
    passing through the Cell Normalizer. *)
Theorem build_student_requests_missing_unit_cell {pd : Pandas} (df : DataFrame)
  (requests : list StudentRequest) :
  build_student_requests df = Ok requests ->
  exists Q_cols,
    locate_response_columns (delete_top_row df) 100 = Ok Q_cols
    /\ Forall2
         (fun indexed_row req =>
            forall n block label,
              nth_error (filter (block_filled (snd indexed_row)) Q_cols) n
              = Some block ->
              nth_error (block_cells (snd indexed_row) block) 3
              = Some (label, VNaN) ->
              nth_error (asm_codes req) n = Some "nan"
              /\ nth_error (asm_names req) n = Some "None given")
         (iterrows (delete_top_row df)) requests.
Proof.
  intros H. destruct (build_rows df requests H) as (Q_cols & Hloc & Hrows).
  exists Q_cols. split; [exact Hloc|].
  eapply Forall2_impl; [|exact Hrows]. cbv beta.
  intros a b Hab n block label Hn Hcell.
  apply build_row_entries in Hab. cbv zeta in Hab.
  destruct Hab as (-> & -> & _).
  rewrite !nth_error_map, Hn. cbn [option_map].
  unfold block_code, block_field, cell_text. rewrite Hcell. split; reflexivity.
Qed.

Lemma build_student_requests_missing_unit_cell_witness :
  exists requests Q_cols,
    build_student_requests (pd := pandas_3) Sample.missing_unit = Ok requests
    /\ map asm_codes requests = [["nan"]]
    /\ map asm_names requests = [["None given"]]
    /\ locate_response_columns (delete_top_row Sample.missing_unit) 100
       = Ok Q_cols
    /\ Forall2
         (fun indexed_row req =>
            forall n block label,
              nth_error (filter (block_filled (snd indexed_row)) Q_cols) n
              = Some block ->
              nth_error (block_cells (snd indexed_row) block) 3
              = Some (label, VNaN) ->
              nth_error (asm_codes req) n = Some "nan"
              /\ nth_error (asm_names req) n = Some "None given")
         (iterrows (delete_top_row Sample.missing_unit)) requests.
Proof.
  destruct (build_student_requests (pd := pandas_3) Sample.missing_unit)
    as [requests|e] eqn:Hrun;
    [|vm_compute in Hrun; discriminate Hrun].
  destruct (build_student_requests_missing_unit_cell (pd := pandas_3)
              Sample.missing_unit
              requests Hrun) as (Q_cols & Hloc & Hall).
  exists requests, Q_cols. split; [reflexivity|].
  split; [|split; [|split; assumption]];
    vm_compute in Hrun; injection Hrun as <-; reflexivity.
Defined.

(** ** Scalar fields are never blank *)

Lemma lstrip_head (s : string) (c : ascii) (r : string) :
  PyStr.lstrip s = String c r -> PyStr.isspace c = false.
Proof.
  induction s as [|d s IH]; [discriminate|]. cbn [PyStr.lstrip].
  destruct (PyStr.isspace d) eqn:Hd; [exact IH|].
  intros H. injection H as <- _. exact Hd.
Qed.

Lemma rstrip_head (c : ascii) (r : string) :
  PyStr.isspace c = false ->
  exists r', PyStr.rstrip (String c r) = String c r'.
Proof.
  intros Hc. cbn [PyStr.rstrip]. rewrite Hc.
  destruct (PyStr.rstrip r); eexists; reflexivity.
Qed.

Lemma rstrip_idem (s : string) :
  PyStr.rstrip (PyStr.rstrip s) = PyStr.rstrip s.
Proof.
  induction s as [|c s IH]; [reflexivity|]. cbn [PyStr.rstrip].
  destruct (PyStr.rstrip s) as [|d r'] eqn:Hr.
  - destruct (PyStr.isspace c) eqn:Hc; [reflexivity|].
    cbn [PyStr.rstrip]. rewrite Hc. reflexivity.
  - cbn [PyStr.rstrip] in *. rewrite IH. reflexivity.
Qed.

Lemma strip_idem (s : string) : PyStr.strip (PyStr.strip s) = PyStr.strip s.
Proof.
  unfold PyStr.strip. destruct (PyStr.lstrip s) as [|c r] eqn:Hl; [reflexivity|].
  apply lstrip_head in Hl.
  destruct (rstrip_head c r Hl) as [r' Hr]. rewrite Hr.
  cbn [PyStr.lstrip]. rewrite Hl, <- Hr. apply rstrip_idem.
Qed.

Lemma text_or_shown (fallback s : string) :
  shown fallback -> shown (text_or fallback s).
Proof.
  intros Hf. unfold text_or.
  destruct (String.eqb_spec s "") as [E|E]; [exact Hf|].
  destruct (String.eqb_spec (PyStr.lower s) "nan") as [E'|E']; [exact Hf|].
  split; assumption.
Qed.

Lemma NONE_GIVEN_shown : shown NONE_GIVEN.
Proof. split; discriminate. Qed.

Lemma read_required_shown (row : Series) (column s : string) :
  read_required row column = Ok s -> shown s /\ PyStr.strip s = s.
Proof.
  intros H. unfold read_required in H. bind_inv H.
  rewrite string_reformat_nan_text in H. injection H as <-.
  split; [apply (text_or_shown NONE_GIVEN _ NONE_GIVEN_shown)|].
  destruct ((PyStr.strip (str v) =? "") || (PyStr.lower (PyStr.strip (str v)) =? "nan"))%bool;
    [reflexivity|apply strip_idem].
Qed.

Lemma string_parse_header_shown {pd : Pandas} (row : Series)
  (header : DataFrame)
  (searchstring s : string) :
  string_parse_header row header searchstring = Ok s -> shown s.
Proof.
  intros H. unfold string_parse_header in H. bind_inv H. bind_inv H.
  bind_inv H. rename v1 into years.
  destruct (iloc (dropna years) 0) as [first|e].
  - cbn [bind] in H. rewrite string_reformat_nan_text in H. injection H as <-.
    apply (text_or_shown NONE_GIVEN _ NONE_GIVEN_shown).
  - cbn [bind] in H. destruct e; try discriminate H. injection H as <-.
    split; discriminate.
Qed.

Lemma create_student_name_trimmed (row : Series) (s : string) :
  create_student_name row = Ok s -> PyStr.strip s = s.
Proof.
  intros H. unfold create_student_name in H. bind_inv H. injection H as <-.
  apply strip_idem.
Qed.

Lemma block_step_scalars (row : Series) (response_min : Z)
  (st st' : block_state) (block : string * list Z) :
  block_step row response_min st block = Ok st' ->
  scalar_fields (st_req st') = scalar_fields (st_req st).
Proof.
  intros H. unfold block_step in H. bind_inv H.
  destruct (negb _); [injection H as <-; reflexivity|].
  repeat bind_inv H. injection H as <-. reflexivity.
Qed.

Lemma block_loop_scalars (row : Series) (response_min : Z)
  (Q_cols : Dict.t (list Z)) :
  forall st st',
    foldM (block_step row response_min) Q_cols st = Ok st' ->
    scalar_fields (st_req st') = scalar_fields (st_req st).
Proof.
  induction Q_cols as [|block Q_cols IH]; intros st st' H.
  - injection H as <-. reflexivity.
  - cbn [foldM] in H. bind_inv H. rewrite (IH _ _ H).
    apply (block_step_scalars _ _ _ _ _ E).
Qed.

Lemma build_row_scalars {pd : Pandas} (header : DataFrame)
  (Q_cols : Dict.t (list Z))
  (response_min : Z) (row : Series) (req : StudentRequest) :
  build_row header Q_cols response_min row = Ok req ->
  exists req0,
    read_scalars row header = Ok req0
    /\ scalar_fields req = scalar_fields req0.
Proof.
  intros H. unfold build_row in H. bind_inv H. bind_inv H. injection H as <-.
  apply try_read_scalars in E. exists v. split; [exact E|].
  apply block_loop_scalars in E0. cbn [st_req] in E0. rewrite <- E0.
  reflexivity.
Qed.

Lemma read_scalars_shown {pd : Pandas} (row : Series) (header : DataFrame)
  (req : StudentRequest) :
  read_scalars row header = Ok req ->
  PyStr.strip (name req) = name req
  /\ Forall (fun s => shown s /\ PyStr.strip s = s)
       [ID req; email req; subdate req; isPGR req; NAffected req;
        circumstances req; dates_affected req; advisor req; latereason req;
        superinformed req; T4Visa req; proposedDL req]
  /\ Forall shown [programme req; courseyear req; evidence req; supervisor req]
  /\ semester req = "..." /\ evidencesummary req = "".
Proof.
  intros H. unfold read_scalars in H. repeat bind_inv H. injection H as <-.
  cbn [name ID email subdate isPGR NAffected circumstances dates_affected
       advisor latereason superinformed T4Visa proposedDL programme courseyear
       evidence supervisor semester evidencesummary].
  split; [eapply create_student_name_trimmed; eassumption|].
  split; [|split; [|split; reflexivity]].
  - repeat (constructor; [eapply read_required_shown; eassumption|]).
    constructor.
  - repeat (constructor; [eapply string_parse_header_shown; eassumption|]).
    constructor.
Qed.

(** X3.  When record building finishes, no record has a blank where a
    required answer goes: ID, email, submission date, postgraduate flag,
    assessment count, circumstances, dates affected, advisor, late reason,
    supervisor contact, visa and proposed deadline are each trimmed, not
    empty and not the text nan (an unanswered one reads None given);
    programme, course year, evidence and supervisor name are not empty and
    not nan either; the name is trimmed; the semester is the ellipsis and
    the evidence summary the empty string. *)
Theorem build_student_requests_scalars_shown {pd : Pandas} (df : DataFrame)
  (requests : list StudentRequest) :
  build_student_requests df = Ok requests ->
  Forall
    (fun req =>
       PyStr.strip (name req) = name req
       /\ Forall (fun s => shown s /\ PyStr.strip s = s)
            [ID req; email req; subdate req; isPGR req; NAffected req;
             circumstances req; dates_affected req; advisor req;
             latereason req; superinformed req; T4Visa req; proposedDL req]
       /\ Forall shown
            [programme req; courseyear req; evidence req; supervisor req]
       /\ semester req = "..." /\ evidencesummary req = "")
    requests.
Proof.
  intros H. destruct (build_rows df requests H) as (Q_cols & _ & Hrows).
  clear H.
  induction Hrows as [|a b la lb Hab Hrest IH]; constructor; [|exact IH].
  apply build_row_scalars in Hab. destruct Hab as (req0 & Hread & Hsame).
  apply read_scalars_shown in Hread.
  unfold scalar_fields in Hsame.
  injection Hsame as -> -> -> -> -> -> -> -> -> -> _ -> -> -> -> -> -> -> -> ->.
  exact Hread.
Qed.

Lemma build_student_requests_scalars_shown_witness :
  exists requests,
    build_student_requests (pd := pandas_3) Sample.full = Ok requests
    /\ Forall
         (fun req =>
            PyStr.strip (name req) = name req
            /\ Forall (fun s => shown s /\ PyStr.strip s = s)
                 [ID req; email req; subdate req; isPGR req; NAffected req;
                  circumstances req; dates_affected req; advisor req;
                  latereason req; superinformed req; T4Visa req;
                  proposedDL req]
            /\ Forall shown
                 [programme req; courseyear req; evidence req; supervisor req]
            /\ semester req = "..." /\ evidencesummary req = "")
         requests.
Proof.
  eexists. split; [vm_compute; reflexivity|].
  apply (build_student_requests_scalars_shown (pd := pandas_3) Sample.full).
  vm_compute. reflexivity.
Defined.

(** ** Edges of the header resolver *)

Lemma matching_positions_none (searchstring : string) (strings : list string) :
  forall index,
    forallb (fun s => negb (PyStr.contains searchstring s)) strings = true ->
    positions_containing searchstring strings index = [].
Proof.
  induction strings as [|s strings IH]; intros index H; [reflexivity|].
  cbn [forallb] in H. apply andb_true_iff in H. destruct H as [Hs Hrest].
  cbn [positions_containing]. destruct (PyStr.contains searchstring s);
    [discriminate Hs|]. apply IH. exact Hrest.
Qed.

(** X11.  When the header cells read the same under every pandas and none
    contains the marker, [string_parse_header] answers the ellipsis,
    whatever the row.  When [astype(str)] keeps missing cells and a header
    cell is missing, it raises [TypeError], whatever the row and the marker,
    and does not catch it.  It raises [IndexError], which it does not catch
    either, when the header frame has no row.  Whatever it returns is
    neither empty nor the text nan. *)
Theorem string_parse_header_edges {pd : Pandas} (row : Series)
  (header : DataFrame) (searchstring : string) :
  (forall label header_cells rest,
      rows header = (label, header_cells) :: rest ->
      header_readable header_cells = true ->
      forallb (fun h => negb (PyStr.contains searchstring (str h)))
        header_cells = true ->
      string_parse_header row header searchstring = Ok "...")
  /\ (forall label header_cells rest,
        rows header = (label, header_cells) :: rest ->
        header_readable header_cells = false ->
        string_parse_header row header searchstring = Raise TypeError)
  /\ (rows header = [] ->
      string_parse_header row header searchstring = Raise IndexError)
  /\ (forall s, string_parse_header row header searchstring = Ok s -> shown s).
Proof.
  split; [|split; [|split]].
  - intros label header_cells rest Hrows Hread Hnone.
    unfold string_parse_header, first_row_strings. rewrite Hrows.
    cbn [bind snd].
    rewrite (matching_positions_readable searchstring header_cells Hread).
    cbn [bind]. rewrite matching_positions_none; [reflexivity|].
    rewrite forallb_forall in *. intros s Hs. apply in_map_iff in Hs.
    destruct Hs as (h & <- & Hh). apply Hnone. exact Hh.
  - intros label header_cells rest Hrows Hread.
    unfold string_parse_header, first_row_strings. rewrite Hrows.
    cbn [bind snd].
    rewrite (matching_positions_missing searchstring header_cells Hread).
    reflexivity.
  - intros Hrows. unfold string_parse_header, first_row_strings.
    rewrite Hrows. reflexivity.
  - apply string_parse_header_shown.
Qed.

Lemma string_parse_header_edges_witness :
  string_parse_header (pd := pandas_3)
    (combine (columns Sample.full) Sample.scalar_cells_ada)
    (extract_top_row Sample.full) "Dissertation supervisor name" = Ok "..."
  /\ string_parse_header (pd := pandas_3)
       [("Q1", VStr "Ada L"); ("6_3", VInt 3)] Sample.gap_header "Year"
     = Raise TypeError
  /\ string_parse_header (pd := pandas_2)
       [("Q1", VStr "Ada L"); ("6_3", VInt 3)] Sample.gap_header "Year"
     = Ok "3"
  /\ string_parse_header (pd := pandas_3) [] (mkDataFrame [] []) "Year"
     = Raise IndexError.
Proof.
  split; [|split; [|split]].
  - apply (proj1 (string_parse_header_edges (pd := pandas_3) _
                    (extract_top_row Sample.full) _)
             0%Z
             (Sample.scalar_header
              ++ map VStr ["Division"; "Nursing - Programme";
                           "Nursing - Year"; "Unit and assessment"; "Other";
                           "Resubmission?"; "First attempt"; "Second attempt";
                           "Status"])
             []); reflexivity.
  - apply (proj1 (proj2 (string_parse_header_edges (pd := pandas_3) _
                           Sample.gap_header _))
             0%Z [VNaN; VStr "Nursing - Year"] []); reflexivity.
  - reflexivity.
  - apply (proj1 (proj2 (proj2 (string_parse_header_edges (pd := pandas_3)
                                  [] (mkDataFrame [] []) "Year")))).
    reflexivity.
Defined.

(** ** The first column that cannot be read *)

Lemma read_required_present (row : Series) (column : string) :
  In column (map fst row) -> exists s, read_required row column = Ok s.
Proof.
  intros H. destruct (loc_present row column H) as [v Hv].
  unfold read_required. rewrite Hv. cbn [bind].
  rewrite string_reformat_nan_text. eexists. reflexivity.
Qed.

Lemma read_required_absent (row : Series) (column : string) :
  ~ In column (map fst row) ->
  read_required row column = Raise (KeyError column).
Proof.
  intros H. unfold read_required. rewrite (loc_absent row column H).
  reflexivity.
Qed.

Lemma create_student_name_present (row : Series) :
  In "Q1" (map fst row) -> exists s, create_student_name row = Ok s.
Proof.
  intros H. destruct (loc_present row "Q1" H) as [v Hv].
  unfold create_student_name. rewrite Hv. eexists. reflexivity.
Qed.

Lemma create_student_name_absent (row : Series) :
  ~ In "Q1" (map fst row) -> create_student_name row = Raise (KeyError "Q1").
Proof.
  intros H. unfold create_student_name. rewrite (loc_absent row "Q1" H).
  reflexivity.
Qed.

Lemma student_is_DASS_present (row : Series) (flag : bool) :
  In "Q2" (map fst row) -> exists r, student_is_DASS row flag = Ok r.
Proof.
  intros H. destruct (loc_present row "Q2" H) as [v Hv].
  unfold student_is_DASS, COLNAME_PREFIX_DASS_REGISTERED. rewrite Hv.
  cbn [bind]. destruct (_ || _ || _)%bool; [eexists; reflexivity|].
  destruct flag; eexists; reflexivity.
Qed.

Lemma student_is_DASS_absent (row : Series) (flag : bool) :
  ~ In "Q2" (map fst row) -> student_is_DASS row flag = Raise (KeyError "Q2").
Proof.
  intros H. unfold student_is_DASS, COLNAME_PREFIX_DASS_REGISTERED.
  rewrite (loc_absent row "Q2" H). reflexivity.
Qed.

Ltac read_step Hpre Habs Hhead :=
  match goal with
  | |- bind (create_student_name ?row) _ = _ =>
      first
        [ rewrite (create_student_name_absent row Habs); reflexivity
        | let s := fresh "s" in
          let E := fresh "E" in
          destruct (create_student_name_present row) as [s E];
          [apply Hpre; cbn [In]; tauto | rewrite E; cbn [bind]] ]
  | |- bind (read_required ?row ?c) _ = _ =>
      first
        [ rewrite (read_required_absent row c Habs); reflexivity
        | let s := fresh "s" in
          let E := fresh "E" in
          destruct (read_required_present row c) as [s E];
          [apply Hpre; cbn [In]; tauto | rewrite E; cbn [bind]] ]
  | |- bind (student_is_DASS ?row ?f) _ = _ =>
      first
        [ rewrite (student_is_DASS_absent row f Habs); reflexivity
        | let s := fresh "s" in
          let E := fresh "E" in
          destruct (student_is_DASS_present row f) as [s E];
          [apply Hpre; cbn [In]; tauto | rewrite E; cbn [bind]] ]
  | |- bind (string_parse_header ?row ?h ?m) _ = _ =>
      rewrite (Hhead m); cbn [bind]
  end.

Lemma string_parse_header_unreadable {pd : Pandas} (row : Series)
  (header : DataFrame) (label : Z) (header_cells : list value)
  (rest : list (Z * list value)) (searchstring : string) :
  rows header = (label, header_cells) :: rest ->
  header_readable header_cells = false ->
  string_parse_header row header searchstring = Raise TypeError.
Proof.
  intros Hrows Hread.
  unfold string_parse_header, first_row_strings. rewrite Hrows.
  cbn [bind snd].
  rewrite (matching_positions_missing searchstring header_cells Hread).
  reflexivity.
Qed.

Ltac unfold_column_names :=
  unfold COLNAME_PREFIX_STUDENTID, COLNAME_PREFIX_EMAILADDRESS,
    COLNAME_PREFIX_DATESUBMITTED, COLNAME_PREFIX_ISPOSTGRADORRES,
    COLNAME_PREFIX_ASSESSMENTCOUNT, COLNAME_PREFIX_MITIGATIONDETAIL,
    COLNAME_PREFIX_PERIODAFFECTED, COLNAME_PREFIX_ADVISORNAME,
    COLNAME_PREFIX_LATEAPPLICATION, COLNAME_PREFIX_SUPERVISCONTACT,
    COLNAME_PREFIX_TIER4_VISA, COLNAME_PREFIX_PROPOSEDDEADLINE.

(** The body of the [try] stops at the first column of its reading order
    that the row does not have, when the header cells read the same under
    every pandas. *)
Lemma read_scalars_first_missing {pd : Pandas} (row : Series)
  (header : DataFrame) (label : Z) (header_cells : list value)
  (rest : list (Z * list value)) (pre post : list string) (column : string) :
  rows header = (label, header_cells) :: rest ->
  List.length header_cells = List.length row ->
  header_readable header_cells = true ->
  READ_ORDER = pre ++ column :: post ->
  (forall c, In c pre -> In c (map fst row)) ->
  ~ In column (map fst row) ->
  read_scalars row header = Raise (KeyError column).
Proof.
  intros Hrows Hlen Hread Horder Hpre Habs.
  assert (Hhead : forall m,
             string_parse_header row header m
             = Ok (match filter (fun v => negb (isna v))
                           (marked_cells m header_cells row) with
                   | [] => "..."
                   | first :: _ => normalize (str first)
                   end))
    by (intros m;
        apply (string_parse_header_value _ _ _ _ _ _ Hrows Hlen Hread)).
  unfold read_scalars. unfold_column_names.
  unfold READ_ORDER in Horder.
  do 14 (destruct pre as [|? pre];
         [ cbn [app] in Horder; injection Horder as <- _;
           repeat read_step Hpre Habs Hhead
         | cbn [app] in Horder;
           let E := fresh "E" in injection Horder as E Horder;
           symmetry in E; subst ]).
  destruct pre; discriminate Horder.
Qed.

(** The four columns read before the first header lookup are missed
    whatever the header holds. *)
Lemma read_scalars_before_header {pd : Pandas} (row : Series)
  (header : DataFrame) (pre post : list string) (column : string) :
  READ_ORDER = pre ++ column :: post ->
  List.length pre < 4 ->
  (forall c, In c pre -> In c (map fst row)) ->
  ~ In column (map fst row) ->
  read_scalars row header = Raise (KeyError column).
Proof.
  intros Horder Hshort Hpre Habs.
  pose proof I as Hhead.
  unfold read_scalars. unfold_column_names.
  unfold READ_ORDER in Horder.
  do 4 (destruct pre as [|? pre];
        [ cbn [app] in Horder; injection Horder as <- _;
          repeat read_step Hpre Habs Hhead
        | cbn [app] in Horder;
          let E := fresh "E" in injection Horder as E Horder;
          symmetry in E; subst ]).
  cbn [List.length] in Hshort. lia.
Qed.

(** When [astype(str)] keeps missing cells and a header cell is missing, a
    row that has the four columns read first ends the body of the [try] on
    the [TypeError] of the first header lookup. *)
Lemma read_scalars_unreadable {pd : Pandas} (row : Series)
  (header : DataFrame) (label : Z) (header_cells : list value)
  (rest : list (Z * list value)) (pre post : list string) (column : string) :
  rows header = (label, header_cells) :: rest ->
  header_readable header_cells = false ->
  READ_ORDER = pre ++ column :: post ->
  4 <= List.length pre ->
  (forall c, In c pre -> In c (map fst row)) ->
  read_scalars row header = Raise TypeError.
Proof.
  intros Hrows Hread Horder Hlong Hpre.
  pose proof (string_parse_header_unreadable row header label header_cells
                rest "Programme" Hrows Hread) as Hprogramme.
  pose proof I as Hhead. pose proof I as Habs.
  unfold READ_ORDER in Horder.
  do 4 (destruct pre as [|? pre]; [cbn [List.length] in Hlong; lia|];
        cbn [app] in Horder;
        let E := fresh "E" in injection Horder as E Horder;
        symmetry in E; subst).
  unfold read_scalars. unfold_column_names.
  do 4 read_step Hpre Habs Hhead.
  rewrite Hprogramme. reflexivity.
Qed.

Lemma on_KeyError_read_order (A : Type) (column : string) :
  In column READ_ORDER ->
  @on_KeyError A column
  = match Dict.get COLUMN_KEY_ERROR_MESSAGES column with
    | Some message => Raise (SystemExit 1 message)
    | None => Raise (KeyError column)
    end.
Proof.
  intros H. unfold READ_ORDER in H. cbn [In] in H.
  repeat (destruct H as [<-|H]; [reflexivity|]). destruct H.
Qed.

(** X2.  On a table with unique column names whose rows are as wide as the
    column list, the first response row decides what a missing column does.
    When the header cells read the same under every pandas, or when the
    column is one of the four read before the first header lookup, record
    building stops at the first column, in reading order Q1, Q4, Q3,
    RecordedDate, Q150, Q160, Q19, Q20, Q2, Q17, Q21, Q152, Q153, Q151, that
    the table does not have: if that column has an entry in
    [COLUMN_KEY_ERROR_MESSAGES] the run exits with status 1 and that entry
    as its message; if it has none, as for Q1 and Q2, the [KeyError] raised
    inside the handler ends the run instead.  When [astype(str)] keeps
    missing cells, a header cell is missing and the four first columns are
    there, the run ends on the [TypeError] of the first header lookup, with
    no message about any column. *)
Theorem build_student_requests_first_missing_column {pd : Pandas}
  (df : DataFrame) (header_label label : Z) (header_cells cells : list value)
  (rest : list (Z * list value)) (pre post : list string) (column : string) :
  has_repeat (columns df) = false ->
  rows df = (header_label, header_cells) :: (label, cells) :: rest ->
  List.length header_cells = List.length (columns df) ->
  List.length cells = List.length (columns df) ->
  READ_ORDER = pre ++ column :: post ->
  (forall c, In c pre -> In c (columns df)) ->
  ~ In column (columns df) ->
  (header_readable header_cells = true \/ List.length pre < 4 ->
   build_student_requests df
   = match Dict.get COLUMN_KEY_ERROR_MESSAGES column with
     | Some message => Raise (SystemExit 1 message)
     | None => Raise (KeyError column)
     end
   /\ (column = "Q1" \/ column = "Q2" ->
       build_student_requests df = Raise (KeyError column)))
  /\ (header_readable header_cells = false -> 4 <= List.length pre ->
      build_student_requests df = Raise TypeError).
Proof.
  intros Hrep Hrows Hhlen Hclen Horder Hpre Habs.
  set (row := combine (columns df) cells).
  assert (Hlabels : map fst row = columns df)
    by (apply combine_labels; lia).
  assert (Hheader : rows (extract_top_row df) = [(header_label, header_cells)])
    by (unfold extract_top_row; cbn [rows]; rewrite Hrows; reflexivity).
  assert (Hbuild : exists Q_cols,
             build_student_requests df
             = (req <- build_row (extract_top_row df) Q_cols
                         MINIMUM_REQUIRED_RESPONSES row ;;
                bs <- mapM (fun indexed_row =>
                              build_row (extract_top_row df) Q_cols
                                MINIMUM_REQUIRED_RESPONSES (snd indexed_row))
                        (map (fun r => (fst r, combine (columns df) (snd r)))
                           rest) ;;
                Ok (req :: bs))).
  { unfold build_student_requests.
    destruct (locate_response_columns_blocks (delete_top_row df) Hrep)
      as (Q_cols & -> & _).
    exists Q_cols.
    cbn [bind]. unfold iterrows, delete_top_row at 1 2. cbn [rows columns].
    rewrite Hrows. reflexivity. }
  destruct Hbuild as (Q_cols & Hbuild).
  split.
  - intros Hcase.
    assert (Hscalars : read_scalars row (extract_top_row df)
                       = Raise (KeyError column)).
    { destruct Hcase as [Hread|Hshort].
      - apply (read_scalars_first_missing row (extract_top_row df)
                 header_label header_cells [] pre post column Hheader).
        + subst row. rewrite length_combine. lia.
        + exact Hread.
        + exact Horder.
        + rewrite Hlabels. exact Hpre.
        + rewrite Hlabels. exact Habs.
      - apply (read_scalars_before_header row (extract_top_row df) pre post
                 column Horder Hshort).
        + rewrite Hlabels. exact Hpre.
        + rewrite Hlabels. exact Habs. }
    assert (Hrun : build_student_requests df
                   = match Dict.get COLUMN_KEY_ERROR_MESSAGES column with
                     | Some message => Raise (SystemExit 1 message)
                     | None => Raise (KeyError column)
                     end).
    { rewrite Hbuild. unfold build_row at 1. rewrite Hscalars.
      rewrite on_KeyError_read_order
        by (rewrite Horder; apply in_or_app; right; left; reflexivity).
      destruct (Dict.get COLUMN_KEY_ERROR_MESSAGES column); reflexivity. }
    split; [exact Hrun|].
    intros [->| ->]; exact Hrun.
  - intros Hread Hlong. rewrite Hbuild. unfold build_row at 1.
    rewrite (read_scalars_unreadable row (extract_top_row df) header_label
               header_cells [] pre post column Hheader Hread Horder Hlong)
      by (rewrite Hlabels; exact Hpre).
    reflexivity.
Qed.

Lemma build_student_requests_first_missing_column_witness :
  build_student_requests (pd := pandas_3) Sample.no_id_no_name
  = Raise (KeyError "Q1")
  /\ build_student_requests (pd := pandas_3) Sample.no_id
     = Raise (SystemExit 1 STUDENT_ID_MESSAGE)
  /\ build_student_requests (pd := pandas_3) Sample.gap_no_deadline
     = Raise TypeError
  /\ build_student_requests (pd := pandas_2) Sample.gap_no_deadline
     = Raise (SystemExit 1 PROPOSED_DEADLINE_MESSAGE).
Proof.
  split; [|split; [|split]].
  - apply (proj2 (proj1 (build_student_requests_first_missing_column
                           (pd := pandas_3)
                           Sample.no_id_no_name 0%Z 1%Z
                           (skipn 2 Sample.scalar_header)
                           (skipn 2 Sample.scalar_cells_ada) [] []
                           (skipn 1 READ_ORDER) "Q1"
                           eq_refl eq_refl eq_refl eq_refl eq_refl
                           (fun c (H : In c []) => match H with end)
                           ltac:(cbn; intuition discriminate))
                    (or_introl eq_refl))).
    left. reflexivity.
  - apply (proj1 (proj1 (build_student_requests_first_missing_column
                           (pd := pandas_3)
                           Sample.no_id 0%Z 1%Z
                           (Sample.without_id Sample.scalar_header)
                           (Sample.without_id Sample.scalar_cells_ada) []
                           ["Q1"] (skipn 2 READ_ORDER) "Q4"
                           eq_refl eq_refl eq_refl eq_refl eq_refl
                           ltac:(cbn; intuition)
                           ltac:(cbn; intuition discriminate))
                    (or_introl eq_refl))).
  - apply (proj2 (build_student_requests_first_missing_column
                    (pd := pandas_3)
                    Sample.gap_no_deadline 0%Z 1%Z
                    (VNaN :: removelast (skipn 1 Sample.scalar_header))
                    (removelast Sample.scalar_cells_ada) []
                    (removelast READ_ORDER) [] "Q151"
                    eq_refl eq_refl eq_refl eq_refl eq_refl
                    ltac:(cbn; intuition)
                    ltac:(cbn; intuition discriminate))).
    + reflexivity.
    + cbn. lia.
  - apply (proj1 (proj1 (build_student_requests_first_missing_column
                           (pd := pandas_2)
                           Sample.gap_no_deadline 0%Z 1%Z
                           (VNaN :: removelast (skipn 1 Sample.scalar_header))
                           (removelast Sample.scalar_cells_ada) []
                           (removelast READ_ORDER) [] "Q151"
                           eq_refl eq_refl eq_refl eq_refl eq_refl
                           ltac:(cbn; intuition)
                           ltac:(cbn; intuition discriminate))
                    (or_introl eq_refl))).
Defined.

(** ** The rows of the tracker *)

Lemma tracker_row (requests : list StudentRequest) (i : nat)
  (req : StudentRequest) (df : DataFrame) :
  requests_to_spreadsheet requests = Ok df ->
  nth_error requests i = Some req ->
  forall title,
    cell_at df i title
    = loc (combine (map fst tracker_columns)
             (map (fun tv => VStr (cell_of (snd tv) req)) tracker_columns))
        title.
Proof.
  intros Hrun Hi title.
  apply requests_to_spreadsheet_frame in Hrun. subst df. unfold tracker_frame.
  assert (Hlt : i < List.length requests)
    by (apply nth_error_Some; rewrite Hi; discriminate).
  unfold cell_at, iterrows. cbn [rows columns].
  rewrite map_map, nth_error_map.
  replace (nth_error (seq 0 (List.length requests)) i) with (Some i).
  2:{ symmetry.
      rewrite nth_error_nth' with (d := 0) by (rewrite length_seq; exact Hlt).
      rewrite seq_nth by exact Hlt. reflexivity. }
  cbn [option_map snd fst map tracker_columns].
  rewrite !(nth_map_of_nth_error _ requests i req Hi). reflexivity.
Qed.

(** ** Longest strings and column widths *)

Lemma max_by_len_loop (l : list string) :
  forall best,
    let m := fold_left (fun best x =>
                          if Nat.ltb (String.length best) (String.length x)
                          then x else best) l best in
    (m = best \/ In m l)
    /\ String.length best <= String.length m
    /\ forall x, In x l -> String.length x <= String.length m.
Proof.
  induction l as [|y l IH]; intros best; cbv zeta.
  - cbn. repeat split; auto. intros x [].
  - cbn [fold_left].
    set (best' := if Nat.ltb (String.length best) (String.length y)
                  then y else best).
    destruct (IH best') as (Hm & Hge & Hall).
    assert (Hb : String.length best <= String.length best'
                 /\ String.length y <= String.length best'
                 /\ (best' = best \/ best' = y)).
    { subst best'.
      destruct (Nat.ltb_spec (String.length best) (String.length y));
        repeat split; auto; lia. }
    destruct Hb as (Hb1 & Hb2 & Hb3).
    split; [|split].
    + destruct Hm as [Hm|Hm]; [|right; right; exact Hm].
      rewrite Hm. destruct Hb3 as [->| ->]; [left|right; left]; reflexivity.
    + lia.
    + intros x [<-|Hx]; [lia|apply Hall; exact Hx].
Qed.

(** X13.  [max_string_length] raises [ValueError] on the empty list; on any
    other list it returns the length of a member that no member exceeds. *)
Theorem max_string_length_spec (strings : list string) :
  (strings = [] -> max_string_length strings = Raise ValueError)
  /\ (strings <> [] ->
      exists m,
        max_string_length strings = Ok m
        /\ (forall x, In x strings -> (Z.of_nat (String.length x) <= m)%Z)
        /\ exists x, In x strings /\ Z.of_nat (String.length x) = m).
Proof.
  split; [intros ->; reflexivity|].
  intros Hne. destruct strings as [|s l]; [contradiction|].
  unfold max_string_length, max_by_len. cbn [bind].
  destruct (max_by_len_loop l s) as (Hm & Hge & Hall).
  eexists. split; [reflexivity|]. split.
  - intros x [<-|Hx]; [lia|]. specialize (Hall x Hx). lia.
  - eexists. split; [|reflexivity].
    destruct Hm as [->|Hm]; [left; reflexivity|right; exact Hm].
Qed.

Lemma max_string_length_spec_witness :
  max_string_length [] = Raise ValueError
  /\ exists m,
       max_string_length ["NURS34555"; "AB12"] = Ok m
       /\ (forall x, In x ["NURS34555"; "AB12"] ->
             (Z.of_nat (String.length x) <= m)%Z)
       /\ exists x, In x ["NURS34555"; "AB12"]
                    /\ Z.of_nat (String.length x) = m.
Proof.
  split.
  - apply (proj1 (max_string_length_spec [])). reflexivity.
  - apply (proj2 (max_string_length_spec ["NURS34555"; "AB12"])).
    discriminate.
Defined.

Lemma split_char_nonempty (sep : ascii) (s : string) :
  split_char sep s <> [].
Proof.
  destruct s as [|c r]; cbn [split_char]; [discriminate|].
  destruct (Ascii.eqb c sep); [discriminate|].
  destruct (split_char sep r); discriminate.
Qed.

Lemma required_column_width_step_text (cell_max : Z) (text : string) :
  exists line,
    In line (split_char newline text)
    /\ (forall x, In x (split_char newline text) ->
          String.length x <= String.length line)
    /\ required_column_width_step cell_max (VStr text)
       = Ok (Z.max cell_max (Z.of_nat (String.length line))).
Proof.
  unfold required_column_width_step. fold newline.
  destruct (split_char newline text) as [|s l] eqn:Hs;
    [elim (split_char_nonempty newline text Hs)|].
  unfold max_by_len. cbn [bind].
  destruct (max_by_len_loop l s) as (Hm & Hge & Hall).
  eexists. split; [|split].
  - destruct Hm as [Hm|Hm]; [left; symmetry; exact Hm|right; exact Hm].
  - intros x [<-|Hx]; [exact Hge|apply Hall; exact Hx].
  - destruct (Z.gtb_spec (Z.of_nat (String.length
                (fold_left (fun best x =>
                   if Nat.ltb (String.length best) (String.length x)
                   then x else best) l s))) cell_max); f_equal; lia.
Qed.

Lemma required_column_width_loop (cells : list value) :
  forall start,
    (0 <= start)%Z ->
    forallb is_text cells = true ->
    exists w,
      foldM required_column_width_step cells start = Ok w
      /\ (start <= w)%Z
      /\ (forall line, In line (all_lines cells) ->
            (Z.of_nat (String.length line) <= w)%Z)
      /\ (w = start
          \/ exists line, In line (all_lines cells)
                          /\ Z.of_nat (String.length line) = w).
Proof.
  induction cells as [|cell cells IH]; intros start Hstart Htext.
  - exists start. cbn. repeat split; auto; try lia; try (intros line []).
  - cbn [forallb] in Htext. apply andb_true_iff in Htext.
    destruct Htext as [Hcell Hrest].
    destruct cell as [| |text|z]; try discriminate Hcell.
    destruct (required_column_width_step_text start text)
      as (best & Hbest & Hmax & Hstep).
    cbn [foldM]. rewrite Hstep. cbn [bind].
    destruct (IH (Z.max start (Z.of_nat (String.length best)))
                ltac:(lia) Hrest) as (w & Hrun & Hge & Hall & Hatt).
    exists w. split; [exact Hrun|]. split; [lia|]. split.
    + intros line Hline. unfold all_lines in Hline. cbn [flat_map] in Hline.
      apply in_app_or in Hline. destruct Hline as [Hline|Hline].
      * specialize (Hmax line Hline). lia.
      * apply Hall. exact Hline.
    + destruct Hatt as [->|(line & Hline & Hlen)].
      * destruct (Z.max_spec start (Z.of_nat (String.length best)))
          as [[_ ->]|[_ ->]]; [|left; reflexivity].
        right. exists best. split; [|reflexivity].
        unfold all_lines. cbn [flat_map]. apply in_or_app. left. exact Hbest.
      * right. exists line. split; [|exact Hlen].
        unfold all_lines. cbn [flat_map]. apply in_or_app. right. exact Hline.
Qed.

Lemma required_column_width_loop_fails (cells : list value) :
  forall start,
    forallb is_text cells = false ->
    foldM required_column_width_step cells start = Raise AttributeError.
Proof.
  induction cells as [|cell cells IH]; intros start H; [discriminate H|].
  cbn [forallb] in H. cbn [foldM].
  destruct cell as [| |text|z]; try reflexivity.
  cbn [is_text andb] in H.
  destruct (required_column_width_step_text start text) as (b & _ & _ & ->).
  cbn [bind]. apply IH. exact H.
Qed.

(** X14.  [required_column_width] raises [KeyError] for a column the frame
    does not have and [AttributeError] when a cell of the column is not a
    string.  On a column of strings it returns the length of the longest
    line of any cell, a line being what stands between line breaks: no line
    is longer, and the width is 0 only when every line is empty or there is
    no cell. *)
Theorem required_column_width_spec (df : DataFrame) (column : string) :
  (~ In column (columns df) ->
   required_column_width df column = Raise (KeyError column))
  /\ (forall cells,
        getcolumn df column = Ok cells ->
        (forallb is_text cells = false ->
         required_column_width df column = Raise AttributeError)
        /\ (forallb is_text cells = true ->
            exists w,
              required_column_width df column = Ok w
              /\ (forall line, In line (all_lines cells) ->
                    (Z.of_nat (String.length line) <= w)%Z)
              /\ ((w = 0)%Z
                  \/ exists line, In line (all_lines cells)
                                  /\ Z.of_nat (String.length line) = w))).
Proof.
  split.
  - intros Habs. unfold required_column_width, getcolumn.
    destruct (existsb (String.eqb column) (columns df)) eqn:Hex; [|reflexivity].
    apply existsb_exists in Hex. destruct Hex as (c & Hc & Heq).
    apply String.eqb_eq in Heq. subst c. contradiction.
  - intros cells Hcol. unfold required_column_width. rewrite Hcol.
    cbn [bind]. split.
    + apply required_column_width_loop_fails.
    + intros Htext.
      destruct (required_column_width_loop cells 0%Z ltac:(lia) Htext)
        as (w & Hrun & _ & Hall & Hatt).
      exists w. auto.
Qed.

Lemma required_column_width_spec_witness :
  required_column_width Sample.junk_second "Q9" = Raise (KeyError "Q9")
  /\ required_column_width Sample.full "Q4" = Raise AttributeError
  /\ exists w,
       required_column_width Sample.junk_second "Q1" = Ok w
       /\ (forall line,
             In line (all_lines [VStr "Name"; VStr "{ImportId:QID1}";
                                 VStr "Ada L"]) ->
             (Z.of_nat (String.length line) <= w)%Z)
       /\ ((w = 0)%Z
           \/ exists line,
                In line (all_lines [VStr "Name"; VStr "{ImportId:QID1}";
                                    VStr "Ada L"])
                /\ Z.of_nat (String.length line) = w).
Proof.
  split; [|split].
  - apply (proj1 (required_column_width_spec Sample.junk_second "Q9")).
    cbn. intuition discriminate.
  - apply (proj1 (proj2 (required_column_width_spec Sample.full "Q4")
                    [VStr "Student ID"; VInt 1234; VNaN] eq_refl)).
    reflexivity.
  - apply (proj2 (proj2 (required_column_width_spec Sample.junk_second "Q1")
                    [VStr "Name"; VStr "{ImportId:QID1}"; VStr "Ada L"]
                    eq_refl)).
    reflexivity.
Defined.

(** ** The unit-code column is wide enough *)

Lemma split_char_whole (sep : ascii) (x : string) :
  has_char sep x = false -> split_char sep x = [x].
Proof.
  induction x as [|c x IH]; intros H; [reflexivity|].
  cbn [has_char] in H. apply orb_false_iff in H. destruct H as [Hc Hx].
  cbn [split_char]. rewrite Hc, (IH Hx). reflexivity.
Qed.

Lemma split_char_app (sep : ascii) (x r : string) :
  has_char sep x = false ->
  split_char sep (x ++ String sep r) = x :: split_char sep r.
Proof.
  induction x as [|c x IH]; intros H.
  - cbn [String.append split_char]. rewrite Ascii.eqb_refl. reflexivity.
  - cbn [has_char] in H. apply orb_false_iff in H. destruct H as [Hc Hx].
    cbn [String.append split_char]. rewrite Hc, (IH Hx). reflexivity.
Qed.

(** Splitting a joined cell at the line breaks gives the entries back. *)
Lemma split_join (l : list string) :
  l <> [] ->
  forallb (fun x => negb (has_char newline x)) l = true ->
  split_char newline (PyStr.join PyStr.nl l) = l.
Proof.
  induction l as [|x l IH]; intros Hne Hall; [contradiction|].
  cbn [forallb] in Hall. apply andb_true_iff in Hall.
  destruct Hall as [Hx Hl]. apply negb_true_iff in Hx.
  destruct l as [|y l].
  - cbn [PyStr.join]. apply split_char_whole. exact Hx.
  - change (PyStr.join PyStr.nl (x :: y :: l))
      with (x ++ String newline (PyStr.join PyStr.nl (y :: l)))%string.
    rewrite split_char_app by exact Hx. f_equal.
    apply IH; [discriminate|exact Hl].
Qed.

Lemma mapM_Ok_map {A B : Type} (f : A -> result B) (g : A -> B) (l : list A) :
  (forall a, In a l -> f a = Ok (g a)) -> mapM f l = Ok (map g l).
Proof.
  induction l as [|a l IH]; intros H; [reflexivity|].
  cbn [mapM map]. rewrite (H a (or_introl eq_refl)). cbn [bind].
  rewrite IH by (intros a' Ha'; apply H; right; exact Ha'). reflexivity.
Qed.

Lemma map_nth_seq {A : Type} (f : A -> string) (l : list A) :
  map (fun i => VStr (nth i (map f l) "")) (seq 0 (List.length l))
  = map (fun a => VStr (f a)) l.
Proof.
  assert (H : forall pre,
             map (fun i => VStr (nth i (map f (pre ++ l)) ""))
               (seq (List.length pre) (List.length l))
             = map (fun a => VStr (f a)) l).
  { induction l as [|a l IH]; intros pre; [reflexivity|].
    cbn [List.length seq map]. f_equal.
    - rewrite map_app. cbn [map].
      rewrite app_nth2 by (rewrite length_map; lia).
      rewrite length_map, Nat.sub_diag. reflexivity.
    - specialize (IH (pre ++ [a])). rewrite <- app_assoc in IH.
      rewrite length_app in IH. cbn [List.length app] in IH.
      rewrite Nat.add_1_r in IH. exact IH. }
  exact (H []).
Qed.

Lemma tracker_unit_codes (requests : list StudentRequest) (df : DataFrame) :
  requests_to_spreadsheet requests = Ok df ->
  getcolumn df "Unit Code"
  = Ok (map (fun req => VStr (PyStr.join PyStr.nl (asm_codes req))) requests).
Proof.
  intros Hrun. apply requests_to_spreadsheet_frame in Hrun. subst df.
  unfold tracker_frame, getcolumn. cbn [columns rows].
  replace (existsb (String.eqb "Unit Code") (map fst tracker_columns))
    with true by reflexivity.
  rewrite (mapM_Ok_map _
             (fun r => match nth_error (snd r) 9 with
                       | Some v => v
                       | None => VNone
                       end)).
  - rewrite map_map. cbn [snd map tracker_columns nth_error].
    rewrite (map_nth_seq (cell_of "asmcodes")). reflexivity.
  - intros r Hr. apply in_map_iff in Hr. destruct Hr as (i & <- & _).
    reflexivity.
Qed.

(** X15.  On the frame [requests_to_spreadsheet] writes out, when no unit
    code holds a line break, [required_column_width] of the Unit Code column
    is the length of the longest unit code of any record: no code is longer
    than the width, and the width is 0 only if there is no longer code. *)
Theorem required_column_width_unit_codes (requests : list StudentRequest)
  (df : DataFrame) :
  requests_to_spreadsheet requests = Ok df ->
  (forall req code, In req requests -> In code (asm_codes req) ->
     has_char newline code = false) ->
  exists w,
    required_column_width df "Unit Code" = Ok w
    /\ (forall req code, In req requests -> In code (asm_codes req) ->
          (Z.of_nat (String.length code) <= w)%Z)
    /\ ((w = 0)%Z
        \/ exists req code, In req requests /\ In code (asm_codes req)
                            /\ Z.of_nat (String.length code) = w).
Proof.
  intros Hrun Hclean.
  pose proof (tracker_unit_codes requests df Hrun) as Hcol.
  set (cells := map (fun req => VStr (PyStr.join PyStr.nl (asm_codes req)))
                  requests) in *.
  assert (Htext : forallb is_text cells = true).
  { subst cells. apply forallb_forall. intros c Hc. apply in_map_iff in Hc.
    destruct Hc as (req & <- & _). reflexivity. }
  assert (Hjoin : forall req, In req requests -> asm_codes req <> [] ->
            split_char newline (PyStr.join PyStr.nl (asm_codes req))
            = asm_codes req).
  { intros req Hreq Hne. apply split_join; [exact Hne|].
    apply forallb_forall. intros code Hcode. apply negb_true_iff.
    apply (Hclean req code Hreq Hcode). }
  unfold required_column_width. rewrite Hcol. cbn [bind].
  destruct (required_column_width_loop cells 0%Z ltac:(lia) Htext)
    as (w & Hw & _ & Hall & Hatt).
  exists w. split; [exact Hw|]. split.
  - intros req code Hreq Hcode. apply Hall.
    unfold all_lines, cells. apply in_flat_map.
    exists (VStr (PyStr.join PyStr.nl (asm_codes req))).
    split; [apply in_map_iff; exists req; auto|].
    rewrite Hjoin; [exact Hcode|exact Hreq|].
    intros Hnil. rewrite Hnil in Hcode. destruct Hcode.
  - destruct Hatt as [->|(line & Hline & Hlen)]; [left; reflexivity|].
    unfold all_lines, cells in Hline. apply in_flat_map in Hline.
    destruct Hline as (c & Hc & Hin). apply in_map_iff in Hc.
    destruct Hc as (req & <- & Hreq).
    destruct (asm_codes req) as [|c0 l] eqn:Hcodes.
    + cbn in Hin. destruct Hin as [<-|[]]. left. cbn in Hlen. lia.
    + right. exists req, line. split; [exact Hreq|].
      rewrite <- Hcodes in Hin. rewrite Hjoin in Hin;
        [|exact Hreq|rewrite Hcodes; discriminate].
      split; [congruence|exact Hlen].
Qed.

Lemma required_column_width_unit_codes_witness :
  exists df w,
    requests_to_spreadsheet [Sample.two_entries] = Ok df
    /\ required_column_width df "Unit Code" = Ok w
    /\ (forall req code, In req [Sample.two_entries] ->
          In code (asm_codes req) ->
          (Z.of_nat (String.length code) <= w)%Z)
    /\ ((w = 0)%Z
        \/ exists req code, In req [Sample.two_entries]
                            /\ In code (asm_codes req)
                            /\ Z.of_nat (String.length code) = w).
Proof.
  destruct (requests_to_spreadsheet [Sample.two_entries]) as [df|e] eqn:Hrun;
    [|vm_compute in Hrun; discriminate Hrun].
  destruct (required_column_width_unit_codes [Sample.two_entries] df Hrun)
    as (w & Hw & Hall & Hatt).
  - intros req code [<-|[]] Hcode. cbn in Hcode.
    destruct Hcode as [<-|[<-|[]]]; reflexivity.
  - exists df, w. auto.
Defined.

(** ** Every cell of the tracker *)








(** ** The record as text *)

Lemma item_at {A : Type} (l : list A) (n : nat) :
  item l (Z.of_nat n)
  = match nth_error l n with
    | Some a => Ok a
    | None => Raise IndexError
    end.
Proof.
  unfold item, place.
  destruct (Z.leb_spec 0 (Z.of_nat n)) as [_|H]; [|lia].
  destruct (Z.ltb_spec (Z.of_nat n) (Z.of_nat (List.length l))) as [H|H].
  - rewrite Nat2Z.id. reflexivity.
  - assert (Hnone : nth_error l n = None) by (apply nth_error_None; lia).
    rewrite Hnone. reflexivity.
Qed.

Lemma item_within {A : Type} (l : list A) (n : nat) :
  n < List.length l -> exists a, item l (Z.of_nat n) = Ok a.
Proof.
  intros H. rewrite item_at. destruct (nth_error l n) as [a|] eqn:E.
  - exists a. reflexivity.
  - apply nth_error_None in E. lia.
Qed.

Lemma item_beyond {A : Type} (l : list A) (n : nat) :
  List.length l <= n -> item l (Z.of_nat n) = Raise IndexError.
Proof.
  intros H. rewrite item_at.
  assert (Hnone : nth_error l n = None) by (apply nth_error_None; lia).
  rewrite Hnone. reflexivity.
Qed.

Lemma item_outcome {A : Type} (l : list A) (n : nat) :
  (exists a, item l (Z.of_nat n) = Ok a)
  \/ item l (Z.of_nat n) = Raise IndexError.
Proof.
  destruct (Nat.lt_ge_cases n (List.length l)) as [H|H];
    [left; apply item_within; exact H | right; apply item_beyond; exact H].
Qed.

Lemma to_string_step_outcome (self : StudentRequest) (req : string) (n : nat) :
  (exists text, to_string_step self req (Z.of_nat n) = Ok text)
  \/ to_string_step self req (Z.of_nat n) = Raise IndexError.
Proof.
  unfold to_string_step, getitem_list.
  destruct (item_outcome (asm_names self) n) as [[a ->]| ->]; [|right; reflexivity].
  destruct (item_outcome (asm_codes self) n) as [[b ->]| ->]; [|right; reflexivity].
  destruct (item_outcome (asm_is_resub self) n) as [[c ->]| ->]; [|right; reflexivity].
  destruct (item_outcome (asm_resubdate self) n) as [[d ->]| ->]; [|right; reflexivity].
  destruct (item_outcome (asm_resubstatus self) n) as [[e ->]| ->]; [|right; reflexivity].
  left. eexists. reflexivity.
Qed.

Lemma to_string_step_within (self : StudentRequest) (req : string) (n k : nat) :
  six_lists self n -> k < n ->
  exists text, to_string_step self req (Z.of_nat k) = Ok text.
Proof.
  intros (H1 & H2 & _ & H4 & H5 & H6) Hk.
  unfold to_string_step, getitem_list.
  destruct (item_within (asm_names self) k ltac:(lia)) as [a ->].
  destruct (item_within (asm_codes self) k ltac:(lia)) as [b ->].
  destruct (item_within (asm_is_resub self) k ltac:(lia)) as [c ->].
  destruct (item_within (asm_resubdate self) k ltac:(lia)) as [d ->].
  destruct (item_within (asm_resubstatus self) k ltac:(lia)) as [e ->].
  eexists. reflexivity.
Qed.

Lemma to_string_loop_within (self : StudentRequest) (n : nat) :
  six_lists self n ->
  forall (ks : list nat) (req : string),
    (forall k, In k ks -> k < n) ->
    exists text,
      foldM (to_string_step self) (map (fun i => 0 + Z.of_nat i)%Z ks) req
      = Ok text.
Proof.
  intros Hsix ks. induction ks as [|k ks IH]; intros req Hks.
  - exists req. reflexivity.
  - cbn [map foldM]. rewrite Z.add_0_l.
    destruct (to_string_step_within self req n k Hsix (Hks k (or_introl eq_refl)))
      as [text ->].
    cbn [bind]. apply IH. intros k' Hk'. apply Hks. right. exact Hk'.
Qed.

Lemma to_string_loop_beyond (self : StudentRequest) (bad : nat) :
  List.length (asm_names self) <= bad ->
  forall (ks : list nat) (req : string),
    In bad ks ->
    foldM (to_string_step self) (map (fun i => 0 + Z.of_nat i)%Z ks) req
    = Raise IndexError.
Proof.
  intros Hbad ks. induction ks as [|k ks IH]; intros req Hin; [destruct Hin|].
  cbn [map foldM]. rewrite Z.add_0_l.
  destruct (Nat.eq_dec k bad) as [->|Hne].
  - unfold to_string_step, getitem_list.
    rewrite (item_beyond (asm_names self) bad Hbad). reflexivity.
  - destruct (to_string_step_outcome self req k) as [[text ->]| ->];
      [|reflexivity].
    cbn [bind]. apply IH. destruct Hin as [Heq|Hin]; [contradiction|exact Hin].
Qed.

(** X16.  [to_string] succeeds on every record whose six assessment lists
    have one length, so on every record that record building returns; it
    raises [IndexError] on a record with fewer assessment names than unit
    codes. *)
Theorem to_string_spec {pd : Pandas} :
  (forall req n, six_lists req n -> exists text, to_string req = Ok text)
  /\ (forall req,
        List.length (asm_names req) < List.length (asm_codes req) ->
        to_string req = Raise IndexError)
  /\ (forall df requests,
        build_student_requests df = Ok requests ->
        Forall (fun req => exists text, to_string req = Ok text) requests).
Proof.
  assert (Hok : forall req n, six_lists req n ->
            exists text, to_string req = Ok text).
  { intros req n Hsix. unfold to_string, range.
    rewrite Z.sub_0_r, Nat2Z.id. cbv zeta.
    assert (Hn : List.length (asm_codes req) = n) by (destruct Hsix; assumption).
    rewrite Hn.
    match goal with
    | |- context [foldM (to_string_step req) _ ?start] =>
        destruct (to_string_loop_within req n Hsix (seq 0 n) start)
          as [text Htext]
    end.
    - intros k Hk. apply in_seq in Hk. lia.
    - rewrite Htext. eexists. reflexivity. }
  split; [exact Hok|]. split.
  - intros req Hshort. unfold to_string, range.
    rewrite Z.sub_0_r, Nat2Z.id. cbv zeta.
    rewrite (to_string_loop_beyond req (List.length (asm_names req))
               (Nat.le_refl _)); [reflexivity|].
    apply in_seq. lia.
  - intros df requests H.
    destruct (build_rows df requests H) as (Q_cols & _ & Hrows). clear H.
    induction Hrows as [|a b la lb Hab Hrest IH]; constructor; [|exact IH].
    apply build_row_counts in Hab. destruct Hab as [Hsix _].
    apply (Hok b _ Hsix).
Qed.

Lemma to_string_spec_witness :
  (exists text, to_string Sample.two_entries = Ok text)
  /\ exists requests,
       build_student_requests (pd := pandas_3) Sample.full = Ok requests
       /\ Forall (fun req => exists text, to_string req = Ok text) requests.
Proof.
  split.
  - apply (proj1 (to_string_spec (pd := pandas_3)) Sample.two_entries 2).
    repeat split.
  - eexists. split; [vm_compute; reflexivity|].
    apply (proj2 (proj2 (to_string_spec (pd := pandas_3))) Sample.full).
    vm_compute. reflexivity.
Defined.

(** ** From the frame read to the frame written *)

Lemma Forall2_nth_error_l {A B : Type} (P : A -> B -> Prop) (l : list A)
  (l' : list B) :
  Forall2 P l l' ->
  forall i a, nth_error l i = Some a ->
    exists b, nth_error l' i = Some b /\ P a b.
Proof.
  induction 1 as [|x y l l' Hxy Hrest IH]; intros [|i] a Hi;
    try discriminate Hi.
  - injection Hi as <-. exists y. auto.
  - apply (IH i a Hi).
Qed.

Lemma read_scalars_name {pd : Pandas} (row : Series) (header : DataFrame)
  (req : StudentRequest) :
  read_scalars row header = Ok req ->
  create_student_name row = Ok (name req).
Proof.
  intros H. unfold read_scalars in H. repeat bind_inv H. injection H as <-.
  cbn [name]. assumption.
Qed.

(** X17.  When the transformation of [main] succeeds, the frame written has
    one row for each response row of the cleaned export (the export without
    its junk row, its first row being the header descriptions), in the same
    order: the Full Name cell of output row i is the trimmed Q1 cell of
    response row i. *)
Theorem main_rows {pd : Pandas} (qualtrics out : DataFrame) :
  main qualtrics = Ok out ->
  exists cleaned,
    drop_row_by_string qualtrics "ImportId" = Ok cleaned
    /\ List.length (rows out) = List.length (rows (delete_top_row cleaned))
    /\ forall i indexed_row,
         nth_error (iterrows (delete_top_row cleaned)) i = Some indexed_row ->
         exists full_name,
           create_student_name (snd indexed_row) = Ok full_name
           /\ cell_at out i "Full Name" = Ok (VStr full_name).
Proof.
  intros H. unfold main in H. bind_inv H. rename v into cleaned.
  bind_inv H. rename v into requests.
  exists cleaned. split; [exact E|].
  destruct (build_rows cleaned requests E0) as (Q_cols & _ & Hrows).
  split.
  - assert (Hout := H). apply requests_to_spreadsheet_frame in Hout.
    subst out. unfold tracker_frame. cbn [rows]. rewrite length_map, length_seq.
    apply Forall2_length in Hrows. unfold iterrows in Hrows.
    rewrite length_map in Hrows. symmetry. exact Hrows.
  - intros i indexed_row Hi.
    destruct (Forall2_nth_error_l _ _ _ Hrows i indexed_row Hi)
      as (req & Hreq & Hbuilt).
    apply build_row_scalars in Hbuilt.
    destruct Hbuilt as (req0 & Hread & Hsame).
    apply read_scalars_name in Hread.
    unfold scalar_fields in Hsame. injection Hsame as Hname _.
    exists (name req). split; [rewrite Hname; exact Hread|].
    rewrite (tracker_row requests i req out H Hreq). reflexivity.
Qed.

Lemma main_rows_witness :
  exists out cleaned,
    main (pd := pandas_3) Sample.full = Ok out
    /\ drop_row_by_string Sample.full "ImportId" = Ok cleaned
    /\ List.length (rows out) = List.length (rows (delete_top_row cleaned))
    /\ forall i indexed_row,
         nth_error (iterrows (delete_top_row cleaned)) i = Some indexed_row ->
         exists full_name,
           create_student_name (snd indexed_row) = Ok full_name
           /\ cell_at out i "Full Name" = Ok (VStr full_name).
Proof.
  destruct (main (pd := pandas_3) Sample.full) as [out|e] eqn:Hrun;
    [|vm_compute in Hrun; discriminate Hrun].
  destruct (main_rows (pd := pandas_3) Sample.full out Hrun)
    as (cleaned & Hdrop & Hlen & Hrows).
  exists out, cleaned. auto.
Defined.

(** ** The DASS field *)

Lemma read_scalars_DASS {pd : Pandas} (row : Series) (header : DataFrame)
  (req : StudentRequest) :
  read_scalars row header = Ok req ->
  exists r, student_is_DASS row true = Ok r /\ DASS req = str_of_bool_or_str r.
Proof.
  intros H. unfold read_scalars in H. repeat bind_inv H. injection H as <-.
  cbn [DASS]. eexists. split; [eassumption|reflexivity].
Qed.

(** X18.  When record building finishes, the DASS field of a record is the
    text False if the Q2 cell of its row is an empty cell, the empty string
    or the number 0, and otherwise the text of that cell as it stands, not
    trimmed and not passed through the Cell Normalizer. *)
Theorem build_student_requests_DASS {pd : Pandas} (df : DataFrame)
  (requests : list StudentRequest) :
  build_student_requests df = Ok requests ->
  Forall2
    (fun indexed_row req =>
       exists cell,
         loc (snd indexed_row) "Q2" = Ok cell
         /\ (cell = VNaN \/ cell = VNone \/ cell = VStr "" \/ cell = VInt 0 ->
             DASS req = "False")
         /\ (forall s, cell = VStr s -> s <> "" -> DASS req = s)
         /\ (forall z, cell = VInt z -> z <> 0%Z -> DASS req = PyStr.str_int z))
    (iterrows (delete_top_row df)) requests.
Proof.
  intros H. destruct (build_rows df requests H) as (Q_cols & _ & Hrows).
  eapply Forall2_impl; [|exact Hrows]. cbv beta.
  intros a b Hab. apply build_row_scalars in Hab.
  destruct Hab as (req0 & Hread & Hsame).
  apply read_scalars_DASS in Hread. destruct Hread as (r & Hr & Hd).
  unfold scalar_fields in Hsame.
  injection Hsame as _ _ _ _ _ _ _ _ _ _ Hdass _.
  rewrite Hdass, Hd. clear Hdass Hd.
  unfold student_is_DASS, COLNAME_PREFIX_DASS_REGISTERED in Hr.
  destruct (loc (snd a) "Q2") as [cell|e]; [|discriminate Hr].
  cbn [bind] in Hr. exists cell. split; [reflexivity|].
  split; [|split].
  - intros [->|[->|[->| ->]]]; injection Hr as <-; reflexivity.
  - intros s -> Hs. cbn [isna orb] in Hr.
    destruct (String.eqb_spec s ""); [contradiction|].
    cbn [orb] in Hr. injection Hr as <-. reflexivity.
  - intros z -> Hz. cbn [isna orb] in Hr.
    destruct (Z.eqb_spec z 0); [contradiction|].
    cbn [orb] in Hr. injection Hr as <-. reflexivity.
Qed.

Lemma build_student_requests_DASS_witness :
  exists requests,
    build_student_requests (pd := pandas_3) Sample.full = Ok requests
    /\ map DASS requests = ["False"; "Yes"]
    /\ Forall2
         (fun indexed_row req =>
            exists cell,
              loc (snd indexed_row) "Q2" = Ok cell
              /\ (cell = VNaN \/ cell = VNone \/ cell = VStr ""
                  \/ cell = VInt 0 -> DASS req = "False")
              /\ (forall s, cell = VStr s -> s <> "" -> DASS req = s)
              /\ (forall z, cell = VInt z -> z <> 0%Z ->
                    DASS req = PyStr.str_int z))
         (iterrows (delete_top_row Sample.full)) requests.
Proof.
  eexists. split; [vm_compute; reflexivity|]. split; [reflexivity|].
  apply (build_student_requests_DASS (pd := pandas_3) Sample.full).
  vm_compute. reflexivity.
Defined.

(** ** Log lines are numbered in sequence *)

Lemma append_assoc (a b c : string) :
  ((a ++ b) ++ c = a ++ (b ++ c))%string.
Proof.
  induction a as [|x a IH]; [reflexivity|].
  cbn [String.append]. rewrite IH. reflexivity.
Qed.

Lemma append_empty_r (a : string) : (a ++ "" = a)%string.
Proof.
  induction a as [|x a IH]; [reflexivity|].
  cbn [String.append]. rewrite IH. reflexivity.
Qed.

Lemma log_strings_from (messages : list string) :
  forall st,
    fold_left log_string messages st
    = mkLog (log_text st ++ numbered_lines (log_counter st) messages)
        (log_counter st + Z.of_nat (List.length messages)).
Proof.
  induction messages as [|m messages IH]; intros [text n].
  - cbn [fold_left numbered_lines List.length log_text log_counter].
    rewrite append_empty_r. f_equal. lia.
  - cbn [fold_left]. rewrite IH. unfold log_string.
    cbn [log_text log_counter numbered_lines List.length]. f_equal; [|lia].
    rewrite !append_assoc. reflexivity.
Qed.

(** X19.  Logging a sequence of messages to a fresh log writes one line
    for each message, in order, numbered 1, 2, 3, ... without a gap, and
    leaves the counter at one more than the number of messages; logging two
    sequences one after the other numbers the second where the first
    stopped. *)
Theorem log_string_numbering (first second : list string) :
  fold_left log_string first new_log
  = mkLog (numbered_lines 1 first) (1 + Z.of_nat (List.length first))
  /\ fold_left log_string (first ++ second) new_log
     = mkLog (numbered_lines 1 first
              ++ numbered_lines (1 + Z.of_nat (List.length first)) second)
         (1 + Z.of_nat (List.length first) + Z.of_nat (List.length second)).
Proof.
  split.
  - rewrite log_strings_from. reflexivity.
  - rewrite fold_left_app, !log_strings_from. reflexivity.
Qed.
